(** * zign: OAuth2 token acquisition and caching (src/zign/api.py)

    A shallow embedding of [zign.api] and the properties of its token
    lifecycle: validity of cached records, the token store, the request to
    the Token Service, the service-token shortcut and the two entry points
    [get_token] and [get_named_token].

    Python values are embedded as the inductive [value]; dictionaries are
    finite maps from strings.  Everything the module reaches outside itself
    (clock, token file, configuration, keyring, environment, terminal, HTTP,
    the [tokens] library) is a field of the record [world], threaded through
    a state-and-exception monad.  [time.time()] is read as an integer number
    of seconds, so that arithmetic on timestamps is exact. *)

From Stdlib Require Import ZArith Ascii String List.
From stdpp Require Import base option list strings gmap fin_maps.

Open Scope string_scope.
Open Scope Z_scope.

(** ** Python values *)

#[local] Set Warnings "-register-all".

Inductive value :=
| VNone
| VBool (b : bool)
| VNum (z : Z)
| VStr (s : string)
| VList (l : list value)
| VDict (d : gmap string value).

(** [bool(v)]: the truth value Python gives to [v] in [if], [and], [or], [not]. *)
Definition truthy (v : value) : bool :=
  match v with
  | VNone => false
  | VBool b => b
  | VNum z => negb (z =? 0)
  | VStr s => negb (String.eqb s "")
  | VList l => match l with [] => false | _ => true end
  | VDict d => negb (bool_decide (d = ∅))
  end.

(** [a or b], with [b] already evaluated (used where [b] has no effect). *)
Definition py_or (a b : value) : value := if truthy a then a else b.

(** [d.get(k)] and [d.get(k, dflt)] on a dictionary. *)
Definition dict_get (d : gmap string value) (k : string) : value :=
  default VNone (d !! k).

Definition dict_get_default (d : gmap string value) (k : string) (dflt : value) : value :=
  default dflt (d !! k).

(** The numbers among the values: [bool] is a subtype of [int] in Python. *)
Definition as_number (v : value) : option Z :=
  match v with
  | VNum z => Some z
  | VBool b => Some (Z.b2z b)
  | _ => None
  end.

(** ** Exceptions, messages and the outside world *)

(** An unrendered [template.format(...)]; the arguments are kept as they are
    passed, a nested text being the [str()] of an exception. *)
Inductive text :=
| Lit (s : string)
| Format (template : string) (args : list value)
| FormatText (template : string) (arg : text).

(** The exception classes of the module ([AuthenticationFailed] is declared
    as a subclass of [ServerError]) and those raised by what it calls. *)
Inductive exn :=
| ServerError (message : text)
| AuthenticationFailed (message : text)
| ConfigurationError (msg : text)
| TypeError
| AttributeError
| KeyError
| TokensConfigurationError      (* tokens.ConfigurationError *)
| TokensInvalidCredentialsError (* tokens.InvalidCredentialsError *)
| ForeignError (what : string). (* any other exception of a library *)

(** [isinstance(e, ServerError)] *)
Definition is_ServerError (e : exn) : bool :=
  match e with
  | ServerError _ | AuthenticationFailed _ => true
  | _ => false
  end.

(** [isinstance(e, AuthenticationFailed)] *)
Definition is_AuthenticationFailed (e : exn) : bool :=
  match e with
  | AuthenticationFailed _ => true
  | _ => false
  end.

(** [str(e)] for the classes of this module. *)
Definition exn_str (e : exn) : text :=
  match e with
  | ServerError m => FormatText "Server error: {}" m
  | AuthenticationFailed m => FormatText "Authentication failed: {}" m
  | ConfigurationError m => FormatText "Configuration error: {}" m
  | TypeError => Lit "TypeError"
  | AttributeError => Lit "AttributeError"
  | KeyError => Lit "KeyError"
  | TokensConfigurationError => Lit "tokens.ConfigurationError"
  | TokensInvalidCredentialsError => Lit "tokens.InvalidCredentialsError"
  | ForeignError s => Lit s
  end.

(** What [requests.get] hands back: the status, the body, and what
    [response.json()] gives ([None] when it raises). *)
Record response := Response {
  status_code : Z;
  resp_text : string;
  resp_json : option value
}.

Inductive http_outcome :=
| Responded (r : response)
| Unreachable. (* requests raises: no connection, timeout, ... *)

(** What [open(TOKENS_FILE_PATH)] followed by [yaml.safe_load] meets. *)
Inductive token_file :=
| FileMissing
| FileCorrupt            (* the YAML parser raises *)
| FileData (v : value).  (* the document, parsed *)

(** Everything observable that the module does, most recent first. *)
Inductive event :=
| EvPrompt (message : text) (hide_input : bool)
| EvHttpGet (url : value) (params : gmap string value)
    (auth : option (value * value)) (verify : bool) (timeout : option Z)
| EvStoreConfig (config : gmap string value)
| EvKeyringGet (user : value)
| EvKeyringSet (user password : value)
| EvMakedirs
| EvWriteTokens (data : gmap string value)
| EvError (message : text)
| EvInfo (message : text)
| EvTokensManage (name : string) (scopes : list string).

Record world := World {
  clock : Z;                              (* time.time() *)
  tokens_file : token_file;               (* TOKENS_FILE_PATH *)
  config_file : gmap string value;        (* stups_cli configuration 'zign' *)
  keyring_db : gmap string value;         (* keyring, service KEYRING_KEY *)
  environ : gmap string string;           (* os.environ *)
  tokens_lib : string -> value + exn;     (* answers of tokens.get *)
  http_script : list http_outcome;        (* answers of the network, in order *)
  input_script : list string;             (* what the user types, in order *)
  trace : list event
}.

(** ** The monad of the module: state of the world, exceptions, blocking

    A computation either returns, raises a Python exception, or is [Blocked]:
    it waits for a user or a network that says nothing more. *)

Inductive outcome (A : Type) :=
| Return (a : A)
| Raise (e : exn)
| Blocked.
Arguments Return {A} a.
Arguments Raise {A} e.
Arguments Blocked {A}.

Definition M (A : Type) : Type := world -> outcome A * world.

#[global] Instance M_ret : MRet M := λ A a w, (Return a, w).

#[global] Instance M_bind : MBind M := λ A B f c w,
  match c w with
  | (Return a, w') => f a w'
  | (Raise e, w') => (Raise e, w')
  | (Blocked, w') => (Blocked, w')
  end.

Definition raise {A} (e : exn) : M A := λ w, (Raise e, w).

Definition blocked {A} : M A := λ w, (Blocked, w).

(** [try: c  except ...: h]; [h e = None] when no clause matches [e]. *)
Definition try_except {A} (c : M A) (h : exn -> option (M A)) : M A := λ w,
  match c w with
  | (Raise e, w') => match h e with Some k => k w' | None => (Raise e, w') end
  | r => r
  end.

Definition get_world : M world := λ w, (Return w, w).

Definition with_trace (w : world) (t : list event) : world :=
  {| clock := clock w; tokens_file := tokens_file w; config_file := config_file w;
     keyring_db := keyring_db w; environ := environ w; tokens_lib := tokens_lib w;
     http_script := http_script w; input_script := input_script w; trace := t |}.

Definition with_tokens_file (w : world) (f : token_file) : world :=
  {| clock := clock w; tokens_file := f; config_file := config_file w;
     keyring_db := keyring_db w; environ := environ w; tokens_lib := tokens_lib w;
     http_script := http_script w; input_script := input_script w; trace := trace w |}.

Definition with_config_file (w : world) (c : gmap string value) : world :=
  {| clock := clock w; tokens_file := tokens_file w; config_file := c;
     keyring_db := keyring_db w; environ := environ w; tokens_lib := tokens_lib w;
     http_script := http_script w; input_script := input_script w; trace := trace w |}.

Definition with_keyring_db (w : world) (k : gmap string value) : world :=
  {| clock := clock w; tokens_file := tokens_file w; config_file := config_file w;
     keyring_db := k; environ := environ w; tokens_lib := tokens_lib w;
     http_script := http_script w; input_script := input_script w; trace := trace w |}.

Definition with_http_script (w : world) (s : list http_outcome) : world :=
  {| clock := clock w; tokens_file := tokens_file w; config_file := config_file w;
     keyring_db := keyring_db w; environ := environ w; tokens_lib := tokens_lib w;
     http_script := s; input_script := input_script w; trace := trace w |}.

Definition with_input_script (w : world) (s : list string) : world :=
  {| clock := clock w; tokens_file := tokens_file w; config_file := config_file w;
     keyring_db := keyring_db w; environ := environ w; tokens_lib := tokens_lib w;
     http_script := http_script w; input_script := s; trace := trace w |}.

Definition log (ev : event) : M unit := λ w, (Return tt, with_trace w (ev :: trace w)).

(** ** The collaborators *)

(** [time.time()] *)
Definition time_time : M Z := λ w, (Return (clock w), w).

(** [stups_cli.config.load_config('zign')]: a fresh dictionary at each call. *)
Definition get_config : M (gmap string value) := λ w, (Return (config_file w), w).

(** [stups_cli.config.store_config(config, 'zign')] *)
Definition store_config (config : gmap string value) : M unit := λ w,
  (Return tt, with_trace (with_config_file w config) (EvStoreConfig config :: trace w)).

(** [with open(TOKENS_FILE_PATH) as fd: yaml.safe_load(fd)] *)
Definition yaml_safe_load_tokens : M value := λ w,
  match tokens_file w with
  | FileMissing => (Raise (ForeignError "FileNotFoundError"), w)
  | FileCorrupt => (Raise (ForeignError "yaml.YAMLError"), w)
  | FileData v => (Return v, w)
  end.

(** [os.makedirs] of the directory of the token file, its [OSError] passed
    over, then [with open(TOKENS_FILE_PATH, 'w') as fd: yaml.safe_dump(data, fd)].
    The directory is no part of the world; the file then holds what was
    dumped, and reads back as such. *)
Definition yaml_safe_dump_tokens (data : gmap string value) : M unit := λ w,
  (Return tt, with_trace (with_tokens_file w (FileData (VDict data)))
                (EvWriteTokens data :: trace w)).

(** [keyring.get_password(KEYRING_KEY, user)] *)
Definition keyring_get_password (user : value) : M value := λ w,
  (Return match user with
          | VStr u => dict_get (keyring_db w) u
          | _ => VNone
          end,
   with_trace w (EvKeyringGet user :: trace w)).

(** [keyring.set_password(KEYRING_KEY, user, password)] *)
Definition keyring_set_password (user password : value) : M unit := λ w,
  (Return tt,
   with_trace match user with
              | VStr u => with_keyring_db w (<[u := password]> (keyring_db w))
              | _ => w
              end (EvKeyringSet user password :: trace w)).

(** [os.getenv(name)] *)
Definition getenv (w : world) (name : string) : value :=
  match environ w !! name with Some s => VStr s | None => VNone end.

Definition os_getenv (name : string) : M value := λ w, (Return (getenv w name), w).

(** [click.prompt(message, hide_input=...)]: the next line the user types
    (for the URL, as [UrlType] has converted it). With no line to come the
    call waits for ever. *)
Definition click_prompt (message : text) (hide_input : bool) : M value := λ w,
  match input_script w with
  | [] => (Blocked, with_trace w (EvPrompt message hide_input :: trace w))
  | s :: rest =>
      (Return (VStr s),
       with_trace (with_input_script w rest) (EvPrompt message hide_input :: trace w))
  end.

(** [clickclick.error] and [clickclick.info] *)
Definition error (message : text) : M unit := log (EvError message).
Definition info (message : text) : M unit := log (EvInfo message).

(** What [requests] accepts as a URL, as far as this model looks: a string
    that is not empty. *)
Definition is_url (url : value) : bool :=
  match url with
  | VStr s => negb (String.eqb s "")
  | _ => false
  end.

(** [requests.get(url, params=..., auth=..., verify=..., timeout=...)]:
    without a URL string nothing is sent and [requests] raises; otherwise the
    network gives its next answer. When it has none, a request with a timeout
    ends in an exception and one without waits for ever. *)
Definition requests_get (url : value) (params : gmap string value)
    (auth : option (value * value)) (verify : bool) (timeout : option Z) : M response := λ w,
  let w1 := with_trace w (EvHttpGet url params auth verify timeout :: trace w) in
  if is_url url then
    match http_script w with
    | [] =>
        match timeout with
        | Some _ => (Raise (ForeignError "requests.exceptions.Timeout"), w1)
        | None => (Blocked, w1)
        end
    | Responded r :: rest => (Return r, with_http_script w1 rest)
    | Unreachable :: rest =>
        (Raise (ForeignError "requests.exceptions.RequestException"),
         with_http_script w1 rest)
    end
  else (Raise (ForeignError "requests.exceptions.MissingSchema"), w1).

(** [tokens.manage(name, scopes)], which registers the name and has no
    failure of its own, and [tokens.get(name)], which gives the token or
    raises. *)
Definition tokens_manage (name : string) (scopes : list string) : M unit :=
  log (EvTokensManage name scopes).

Definition tokens_get (name : string) : M value := λ w,
  match tokens_lib w name with
  | inl v => (Return v, w)
  | inr e => (Raise e, w)
  end.

(** ** Operators and methods of Python, where the module applies them *)

(** [v.get(k)] and [v.get(k, dflt)]: only dictionaries have the method. *)
Definition value_get (v : value) (k : string) : M value :=
  match v with
  | VDict d => mret (dict_get d k)
  | _ => raise AttributeError
  end.

Definition value_get_default (v : value) (k : string) (dflt : value) : M value :=
  match v with
  | VDict d => mret (dict_get_default d k dflt)
  | _ => raise AttributeError
  end.

(** [v[k]] for a string key. *)
Definition value_getitem (v : value) (k : string) : M value :=
  match v with
  | VDict d => match d !! k with Some x => mret x | None => raise KeyError end
  | _ => raise TypeError
  end.

(** [a + b] *)
Definition py_add (a b : value) : M value :=
  match as_number a, as_number b with
  | Some x, Some y => mret (VNum (x + y))
  | _, _ =>
      match a, b with
      | VStr x, VStr y => mret (VStr (x ++ y))
      | VList x, VList y => mret (VList (x ++ y))
      | _, _ => raise TypeError
      end
  end.

(** [a - b] *)
Definition py_sub (a b : value) : M value :=
  match as_number a, as_number b with
  | Some x, Some y => mret (VNum (x - y))
  | _, _ => raise TypeError
  end.

(** [a < b] with a number on the left. *)
Definition py_lt_num (a : Z) (b : value) : M value :=
  match as_number b with
  | Some y => mret (VBool (a <? y))
  | None => raise TypeError
  end.

(** [sep.join(items)] is [String.concat sep items]. *)

(** ** zign.api *)

Definition TOKEN_MINIMUM_VALIDITY_SECONDS : Z := 60 * 5.

Definition get_tokens : M value :=
  data ← try_except yaml_safe_load_tokens (λ _, Some (mret VNone));
  mret (py_or data (VDict ∅)).

Definition is_user_scope (scope : string) : bool :=
  bool_decide (scope ∈ ({[ "uid"; "cn" ]} : gset string)).

(** The [params] dictionary that [get_new_token] builds. A scope list that is
    [None] is the empty list here: both are false for [if scope]. *)
Definition get_new_token_params (realm : value) (scope : list string) : gmap string value :=
  let params : gmap string value := {[ "json" := VStr "true" ]} in
  let params := if truthy realm then <["realm" := realm]> params else params in
  match scope with
  | [] => params
  | _ => <["scope" := VStr (String.concat " " (List.filter is_user_scope scope))]> params
  end.

(** What [get_new_token] does with the response it received. *)
Definition check_token_response (r : response) : M value :=
  if status_code r =? 401 then
    raise (AuthenticationFailed (Format "Token Service returned {}" [VStr (resp_text r)]))
  else if negb (status_code r =? 200) then
    raise (ServerError (Format "Token Service returned HTTP status {}: {}"
                          [VNum (status_code r); VStr (resp_text r)]))
  else
    match resp_json r with
    | None => raise (ServerError (Lit "Token Service returned invalid JSON data"))
    | Some json_data =>
        access_token ← value_get json_data "access_token";
        if negb (truthy access_token) then
          raise (ServerError (Lit "Token Service returned invalid JSON (access_token missing)"))
        else mret json_data
    end.

Definition get_new_token (realm : value) (scope : list string) (user password url insecure : value)
    : M value :=
  url ← (if negb (truthy url) then config ← get_config; mret (dict_get config "url")
         else mret url);
  response ← requests_get url (get_new_token_params realm scope) (Some (user, password))
               (negb (truthy insecure)) None;
  check_token_response response.

Definition is_valid (token : value) : M value :=
  now ← time_time;
  if truthy token then
    creation_time ← value_get_default token "creation_time" (VNum 0);
    expires_in ← value_get_default token "expires_in" (VNum 0);
    sum ← py_add creation_time expires_in;
    limit ← py_sub sum (VNum TOKEN_MINIMUM_VALIDITY_SECONDS);
    py_lt_num now limit
  else mret token.

Definition get_existing_token (name : string) : M value :=
  data ← get_tokens;
  existing_token ← value_get data name;
  valid ← is_valid existing_token;
  if truthy valid then mret existing_token else mret VNone.

(** [store_token] returns nothing in Python, but it changes the dictionary
    [result] of its caller in place: [data[name]] and [result] are one
    object. The value returned here is [result] as the caller sees it
    afterwards. *)
Definition store_token (name : string) (result : value) : M value :=
  data ← get_tokens;
  match data with
  | VDict data =>
      match result with
      | VDict r =>
          now ← time_time;
          let result := VDict (<["creation_time" := VNum now]> r) in
          yaml_safe_dump_tokens (<[name := result]> data);;
          mret result
      | _ => raise TypeError
      end
  | _ => raise TypeError
  end.

Definition get_service_token (name : string) (scopes : list string) : M value :=
  tokens_manage name scopes;;
  try_except (tokens_get name)
    (λ e, match e with
          | TokensConfigurationError => Some (mret VNone)
          | TokensInvalidCredentialsError => Some (mret VNone)
          | _ => None
          end).

Definition url_prompt : text := Lit "Please enter the OAuth access token service URL".

(** The loop [while not url and prompt] of [get_named_token]. Each turn reads
    one line from the user, so one more turn than there are lines is all the
    loop can take. *)
Fixpoint prompt_url_loop (fuel : nat) (insecure : value) (prompt : bool)
    (url : value) (config : gmap string value) : M (value * gmap string value) :=
  if negb (truthy url) && prompt then
    match fuel with
    | O => blocked
    | S fuel =>
        url ← click_prompt url_prompt false;
        url ← try_except
                (requests_get url ∅ None (negb (truthy insecure)) (Some 5);; mret url)
                (λ _, Some (error (Format "Could not reach {}" [url]);; mret VNone));
        prompt_url_loop fuel insecure prompt url (<["url" := url]> config)
    end
  else mret (url, config).

Definition try_again : text :=
  Lit "Please check your username and password and try again.".

(** One call of [get_new_token] in the loop [while True] of
    [get_named_token], with its [except AuthenticationFailed] clause;
    [retry] is the next turn of the loop. *)
Definition request_attempt (realm : value) (scope : list string)
    (user url insecure : value) (prompt : bool) (password : value)
    (retry : M (value * value)) : M (value * value) :=
  r ← try_except
        (result ← get_new_token realm scope user password url insecure;
         mret (Some result))
        (λ e, if is_AuthenticationFailed e then
                Some (if prompt then
                        error (exn_str e);;
                        info try_again;;
                        mret None
                      else raise e)
              else None);
  match r with
  | Some result => mret (result, password)
  | None => retry
  end.

(** The loop [while True] of [get_named_token]; it returns [result] and the
    password that obtained it. A turn that is followed by another has taken
    one answer from the network, so one more turn than there are answers is
    all the loop can take. *)
Fixpoint request_loop (fuel : nat) (realm : value) (scope : list string)
    (user url insecure : value) (prompt : bool) (password : value) : M (value * value) :=
  match fuel with
  | O => blocked
  | S fuel =>
      password ← (if negb (truthy password) && prompt
                  then click_prompt (Format "Password for {}" [user]) true
                  else mret password);
      request_attempt realm scope user url insecure prompt password
        (request_loop fuel realm scope user url insecure prompt VNone)
  end.

(** [if name]. A name that is not given ([None]) is the empty string here:
    both are false, and the name is used only where it is true. *)
Definition name_given (name : string) : bool := negb (String.eqb name "").

(** [get_named_token] from [password = password or keyring.get_password(...)]
    on, [url] being resolved. *)
Definition request_named_token (scope : list string) (realm : value) (name : string)
    (user password url insecure : value) (use_keyring prompt : bool) : M value :=
  password ← (if truthy password then mret password else keyring_get_password user);
  w ← get_world;
  '(result, password) ← request_loop (S (length (http_script w)))
                          realm scope user url insecure prompt password;
  (if truthy result && use_keyring then keyring_set_password user password else mret tt);;
  if name_given name then store_token name result else mret result.

(** [get_named_token] from [config = get_config()] on. *)
Definition issue_named_token (scope : list string) (realm : value) (name : string)
    (user password url insecure : value) (use_keyring prompt : bool) : M value :=
  config ← get_config;
  let url := py_or url (dict_get config "url") in
  w ← get_world;
  '(url, config) ← prompt_url_loop (S (length (input_script w))) insecure prompt url config;
  store_config config;;
  request_named_token scope realm name user password url insecure use_keyring prompt.

(** [get_named_token] from [if name and not realm] on. *)
Definition service_or_issue_named_token (scope : list string) (realm : value) (name : string)
    (user password url insecure : value) (use_keyring prompt : bool) : M value :=
  let issue := issue_named_token scope realm name user password url insecure use_keyring prompt in
  if name_given name && negb (truthy realm) then
    access_token ← get_service_token name scope;
    if truthy access_token then mret (VDict {[ "access_token" := access_token ]})
    else issue
  else issue.

Definition get_named_token (scope : list string) (realm : value) (name : string)
    (user password url insecure : value) (refresh use_keyring prompt : bool) : M value :=
  let rest :=
    service_or_issue_named_token scope realm name user password url insecure use_keyring prompt in
  if name_given name && negb refresh then
    existing_token ← get_existing_token name;
    if truthy existing_token then mret existing_token else rest
  else rest.

Definition dquote : string := String "034"%char EmptyString.

Definition missing_username : exn :=
  ConfigurationError
    (Lit ("Missing OAuth username. Either set " ++ dquote ++ "user" ++ dquote
          ++ " in configuration file or ZIGN_USER environment variable.")).

Definition missing_url : exn :=
  ConfigurationError
    (Lit ("Missing OAuth access token service URL. Please set " ++ dquote ++ "url"
          ++ dquote ++ " in configuration file.")).

Definition get_token (name : string) (scopes : list string) : M value :=
  token ← get_existing_token name;
  if truthy token then value_getitem token "access_token" else
  access_token ← get_service_token name scopes;
  if truthy access_token then mret access_token else
  config ← get_config;
  zign_user ← os_getenv "ZIGN_USER";
  os_user ← os_getenv "USER";
  let user := py_or (py_or (dict_get config "user") zign_user) os_user in
  if negb (truthy user) then raise missing_username
  else if negb (truthy (dict_get config "url")) then raise missing_url
  else
    zign_password ← os_getenv "ZIGN_PASSWORD";
    password ← (if truthy zign_password then mret zign_password
                else keyring_get_password user);
    token ← get_new_token (dict_get config "realm") scopes user password
              (dict_get config "url") (dict_get config "insecure");
    if truthy token then
      token ← store_token name token;
      value_getitem token "access_token"
    else mret VNone.

(** ** Notions used to state the properties, and sample worlds *)

(** A world where nothing is stored and nobody answers, at time [now]. *)
Definition quiet_world (now : Z) : world :=
  {| clock := now; tokens_file := FileMissing; config_file := ∅; keyring_db := ∅;
     environ := ∅; tokens_lib := λ _, inr TokensConfigurationError;
     http_script := []; input_script := []; trace := [] |}.

(** The number a record holds in a field, [0] when it has no such field. *)
Definition field_number (d : gmap string value) (k : string) : option Z :=
  as_number (dict_get_default d k (VNum 0)).

(** A record issued at 1700000000 for one hour. *)
Definition sample_record : gmap string value :=
  {[ "access_token" := VStr "t0k3n"; "creation_time" := VNum 1700000000;
     "expires_in" := VNum 3600 ]}.

(** The specification's reading of the filter: keep, in the order of the
    request, the scopes that are "uid" or "cn". *)
Fixpoint user_scopes_of (scope : list string) : list string :=
  match scope with
  | [] => []
  | s :: rest =>
      if (String.eqb s "uid" || String.eqb s "cn")%bool then s :: user_scopes_of rest
      else user_scopes_of rest
  end.

(** The URL that [get_new_token] calls: its argument, or the configured one. *)
Definition request_url (url : value) (w : world) : value :=
  if negb (truthy url) then dict_get (config_file w) "url" else url.

(** The exception of [get_new_token] for a body without a true access token. *)
Definition missing_access_token : exn :=
  ServerError (Lit "Token Service returned invalid JSON (access_token missing)").

(** The address of a Token Service. *)
Definition service_url : string := "https://token.example.org/access_token".

(** A world where the network answers [r] to the first request. *)
Definition answering (r : response) : world :=
  with_http_script (quiet_world 1700000000) [Responded r].

(** A 200 whose JSON object has the field "access_token", holding [token]. *)
Definition token_response (token : value) : response :=
  {| status_code := 200;
     resp_text := "(a JSON object with access_token and expires_in)";
     resp_json := Some (VDict {[ "access_token" := token; "expires_in" := VNum 3600 ]}) |}.

(** How a call of [get_new_token] ends. *)
Definition new_token_outcome realm scope user password url insecure (w : world)
    : outcome value :=
  (get_new_token realm scope user password url insecure w).1.

(** What the record of the caller is after [store_token]. *)
Definition stamped (record : gmap string value) (now : Z) : gmap string value :=
  <["creation_time" := VNum now]> record.

(** A world whose token file holds one entry, under the name "other". *)
Definition cached_world : world :=
  with_tokens_file (quiet_world 1700000000)
    (FileData (VDict {[ "other" := VDict sample_record ]})).



(** A computation that only reads the world. *)
Definition pure {A} (c : M A) : Prop := ∀ w, (c w).2 = w.

(** A world where the operating system knows the user and nothing else is
    configured. *)
Definition os_user_world : world :=
  {| clock := 1700000000; tokens_file := FileMissing; config_file := ∅; keyring_db := ∅;
     environ := {[ "USER" := "jdoe" ]}; tokens_lib := λ _, inr TokensConfigurationError;
     http_script := []; input_script := []; trace := [] |}.

(** A computation that only adds events to the trace. *)
Definition keeps_trace {A} (c : M A) : Prop :=
  ∀ w, trace w `suffix_of` trace (c w).2.

(** The events of the service-token attempt, when [get_named_token] makes it. *)
Definition service_attempt (name : string) (scope : list string) (realm : value)
    : list event :=
  if name_given name && negb (truthy realm) then [EvTokensManage name scope] else [].

(** The world once the user has been told that the authentication failed. *)
Definition told_to_retry (m : text) (w : world) : world :=
  with_trace w (EvInfo try_again :: EvError (exn_str (AuthenticationFailed m)) :: trace w).

(** The exception of [get_new_token] for the answer [r], of status 401. *)
Definition token_service_returned (r : response) : exn :=
  AuthenticationFailed (Format "Token Service returned {}" [VStr (resp_text r)]).

(** The world after the request of [get_new_token] has been answered. *)
Definition requested realm scope user password url insecure
    (rest : list http_outcome) (w : world) : world :=
  with_http_script
    (with_trace w (EvHttpGet url (get_new_token_params realm scope)
                     (Some (user, password)) (negb (truthy insecure)) None :: trace w))
    rest.

(** The events up to the second prompt for the password, when the first
    request, made with the password that was given, is answered 401. *)
Definition asked_again realm scope user password url insecure (r : response)
    (before : list event) : list event :=
  EvPrompt (Format "Password for {}" [user]) true
  :: EvInfo try_again
  :: EvError (exn_str (token_service_returned r))
  :: EvHttpGet url (get_new_token_params realm scope) (Some (user, password))
       (negb (truthy insecure)) None
  :: before.

(** The world once the configuration that was loaded is written back. *)
Definition config_stored (w : world) : world :=
  with_trace (with_config_file w (config_file w)) (EvStoreConfig (config_file w) :: trace w).

(** Neither a valid cached token nor a service token cuts the call of
    [get_named_token] short. *)
Definition not_cut_short (name : string) (scope : list string) (realm : value)
    (refresh : bool) (w : world) : Prop :=
  (name_given name && negb refresh = true ->
   ∃ token, (get_existing_token name w).1 = Return token ∧ truthy token = false) ∧
  (name_given name && negb (truthy realm) = true ->
   ∃ access_token,
     (get_service_token name scope w).1 = Return access_token ∧
     truthy access_token = false).

(** The Token Service rejects the credentials. *)
Definition rejecting : response :=
  {| status_code := 401; resp_text := "Unauthorized"; resp_json := None |}.

(** The first request is rejected, the second one is granted a token; the
    user has a password to type. *)
Definition interactive_world : world :=
  with_input_script
    (with_http_script (quiet_world 1700000000)
       [Responded rejecting; Responded (token_response (VStr "t0k3n"))])
    ["s3cret"].

(** User and URL are configured, and the Token Service rejects the request. *)
Definition configured_world : world :=
  with_config_file (with_http_script (quiet_world 1700000000) [Responded rejecting])
    {[ "user" := VStr "jdoe"; "url" := VStr service_url ]}.

(** ** Further notions: the clock moved, the kinds of events *)

(** The same world at another time. *)
Definition with_clock (w : world) (now : Z) : world :=
  {| clock := now; tokens_file := tokens_file w; config_file := config_file w;
     keyring_db := keyring_db w; environ := environ w; tokens_lib := tokens_lib w;
     http_script := http_script w; input_script := input_script w; trace := trace w |}.

(** A world where the [tokens] library has a token for every name. *)
Definition service_world : world :=
  {| clock := 1700000000; tokens_file := FileMissing; config_file := ∅; keyring_db := ∅;
     environ := ∅; tokens_lib := λ _, inl (VStr "s3rv1c3");
     http_script := []; input_script := []; trace := [] |}.

(** User and URL are configured, and the Token Service grants a token. *)
Definition granting_world : world :=
  with_config_file
    (with_http_script (quiet_world 1700000000) [Responded (token_response (VStr "t0k3n"))])
    {[ "user" := VStr "jdoe"; "url" := VStr service_url ]}.

(** The user of [get_token]: from the configuration, else from ZIGN_USER,
    else from USER. *)
Definition first_user (w : world) : value :=
  if truthy (dict_get (config_file w) "user") then dict_get (config_file w) "user"
  else if truthy (getenv w "ZIGN_USER") then getenv w "ZIGN_USER"
  else getenv w "USER".

(** What the keyring holds for a user. *)
Definition keyring_password (w : world) (user : value) : value :=
  match user with
  | VStr u => dict_get (keyring_db w) u
  | _ => VNone
  end.

(** The environment names a user and a password, the keyring has another
    password for that user, the configuration has only the URL. *)
Definition env_world : world :=
  {| clock := 1700000000; tokens_file := FileMissing;
     config_file := {[ "url" := VStr service_url ]};
     keyring_db := {[ "envuser" := VStr "ringpw" ]};
     environ := {[ "ZIGN_USER" := "envuser"; "USER" := "osuser";
                   "ZIGN_PASSWORD" := "envpw" ]};
     tokens_lib := λ _, inr TokensConfigurationError;
     http_script := [Responded (token_response (VStr "t0k3n"))];
     input_script := []; trace := [] |}.

(** A valid record is cached under "other", and the Token Service grants a
    fresh token. *)
Definition refresh_world : world :=
  with_http_script cached_world [Responded (token_response (VStr "fr3sh"))].

(** The Token Service is out of order. *)
Definition failing : response :=
  {| status_code := 503; resp_text := "Service Unavailable"; resp_json := None |}.

(** The events of one turn of the loop that prompts for the URL, when the
    user types [s]: the prompt and the probe. *)
Definition url_probed (s : string) (insecure : value) (before : list event) : list event :=
  EvHttpGet (VStr s) ∅ None (negb (truthy insecure)) (Some 5)
  :: EvPrompt url_prompt false
  :: before.

(** Nothing is configured, the user has a URL and a password to type, and
    the network answers the probe and grants the token. *)
Definition first_run_world : world :=
  with_input_script
    (with_http_script (quiet_world 1700000000)
       [Responded failing; Responded (token_response (VStr "t0k3n"))])
    [service_url; "s3cret"].

(** As [first_run_world], but the first URL that is typed cannot be reached. *)
Definition typo_world : world :=
  with_input_script
    (with_http_script (quiet_world 1700000000)
       [Unreachable; Responded failing; Responded (token_response (VStr "t0k3n"))])
    ["https://tokne.example.org"; service_url; "s3cret"].

(** The keyring has a password for the user, and the Token Service grants
    a token. *)
Definition keyring_world : world :=
  with_keyring_db (answering (token_response (VStr "t0k3n")))
    {[ "jdoe" := VStr "ringpw" ]}.

(** The kinds of events: what is done, whatever the arguments. *)
Inductive event_kind :=
| KPrompt | KHttp | KStoreConfig | KKeyringGet | KKeyringSet | KWriteTokens
| KMessage | KManage.

Definition kind (ev : event) : event_kind :=
  match ev with
  | EvPrompt _ _ => KPrompt
  | EvHttpGet _ _ _ _ _ => KHttp
  | EvStoreConfig _ => KStoreConfig
  | EvKeyringGet _ => KKeyringGet
  | EvKeyringSet _ _ => KKeyringSet
  | EvMakedirs => KWriteTokens
  | EvWriteTokens _ => KWriteTokens
  | EvError _ => KMessage
  | EvInfo _ => KMessage
  | EvTokensManage _ _ => KManage
  end.

(** A computation that adds to the trace only events of the kinds allowed. *)
Definition adds_only (allowed : event_kind -> bool) {A} (c : M A) : Prop :=
  ∀ w, ∃ added, trace (c w).2 = (added ++ trace w)%list ∧
                Forall (λ ev, allowed (kind ev) = true) added.

(** What [get_token] may do: call [tokens.manage], ask the keyring, send a
    request, write the token file. *)
Definition get_token_events (k : event_kind) : bool :=
  match k with
  | KManage | KKeyringGet | KHttp | KWriteTokens => true
  | _ => false
  end.

(** What [get_named_token] may do, by its arguments. *)
Definition get_named_token_events (name : string) (realm password : value)
    (use_keyring prompt : bool) (k : event_kind) : bool :=
  match k with
  | KManage => name_given name && negb (truthy realm)
  | KStoreConfig => true
  | KHttp => true
  | KPrompt => prompt
  | KMessage => prompt
  | KKeyringGet => negb (truthy password)
  | KKeyringSet => use_keyring
  | KWriteTokens => name_given name
  end.

(** A computation that takes no answer from the network, and one that takes
    at most one. *)
Definition no_answer {A} (c : M A) : Prop :=
  ∀ w, http_script (c w).2 = http_script w.

Definition one_answer {A} (c : M A) : Prop :=
  ∀ w, http_script (c w).2 = http_script w ∨ http_script (c w).2 = tail (http_script w).

(** A value that is a record with a true access token. *)
Definition has_access_token (v : value) : Prop :=
  ∃ d t, v = VDict d ∧ d !! "access_token" = Some t ∧ truthy t = true.

(** What a computation returns, when it does, satisfies [P]. *)
Definition returns_only {A} (P : A -> Prop) (c : M A) : Prop :=
  ∀ w a w', c w = (Return a, w') -> P a.


(** * Properties *)

(** ** Running a computation *)

Lemma bind_run {A B} (c : M A) (f : A -> M B) (w : world) :
  (c ≫= f) w =
  match c w with
  | (Return a, w') => f a w'
  | (Raise e, w') => (Raise e, w')
  | (Blocked, w') => (Blocked, w')
  end.
Proof. reflexivity. Qed.

Lemma bind_return {A B} (c : M A) (f : A -> M B) (w w' : world) (a : A) :
  c w = (Return a, w') -> (c ≫= f) w = f a w'.
Proof. intros H. rewrite bind_run, H. reflexivity. Qed.

Lemma bind_raise {A B} (c : M A) (f : A -> M B) (w w' : world) (e : exn) :
  c w = (Raise e, w') -> (c ≫= f) w = (Raise e, w').
Proof. intros H. rewrite bind_run, H. reflexivity. Qed.

Lemma ret_run {A} (a : A) (w : world) : (mret a : M A) w = (Return a, w).
Proof. reflexivity. Qed.

(** Push a computation applied to a world through its binds and returns. *)
Ltac run := repeat progress (rewrite ?bind_run, ?ret_run; cbn beta iota).

(** ** Validity of a token record *)

Lemma is_valid_falsy (token : value) (w : world) :
  truthy token = false -> is_valid token w = (Return token, w).
Proof. intros H. unfold is_valid. rewrite bind_run. simpl. rewrite H. reflexivity. Qed.

Lemma is_valid_record (d : gmap string value) (c e : Z) (w : world) :
  d ≠ ∅ ->
  field_number d "creation_time" = Some c ->
  field_number d "expires_in" = Some e ->
  is_valid (VDict d) w = (Return (VBool (clock w <? c + e - 300)), w).
Proof.
  intros Hd Hc He. unfold is_valid. rewrite bind_run. simpl.
  rewrite bool_decide_eq_false_2 by exact Hd. simpl.
  unfold field_number in Hc, He.
  run. unfold py_add. rewrite Hc, He. run.
  unfold py_sub. simpl. run. reflexivity.
Qed.

(** Exactly 300 seconds of validity are left at 1700003300: the record is
    not valid, although its remaining validity is [>= 300]. *)
Lemma is_valid_boundary_counterexample :
  field_number sample_record "creation_time" = Some 1700000000 ∧
  field_number sample_record "expires_in" = Some 3600 ∧
  300 <= 1700000000 + 3600 - clock (quiet_world 1700003300) ∧
  is_valid (VDict sample_record) (quiet_world 1700003300)
  = (Return (VBool false), quiet_world 1700003300).
Proof. repeat split; reflexivity. Qed.

(** The empty record is not [None], yet [token and ...] gives the record
    itself, which is false, whatever the clock says. *)
Remark is_valid_empty_record (w : world) :
  is_valid (VDict ∅) w = (Return (VDict ∅), w).
Proof. apply is_valid_falsy. reflexivity. Qed.

(** C1 (amended): [is_valid(record)] is true iff the record is neither null
    nor empty and [now < creation_time + expires_in - 300], a missing field
    counting as 0; so a record that is not empty and has more than 300
    seconds left is valid (the result is [True]), one with 300 seconds or
    less left (a negative number included) is not, and for an absent record
    the result is the absent record, which is false. *)
Theorem is_valid_spec (w : world) (d : gmap string value) (c e : Z) :
  field_number d "creation_time" = Some c ->
  field_number d "expires_in" = Some e ->
  is_valid VNone w = (Return VNone, w) ∧
  ∃ v, is_valid (VDict d) w = (Return v, w) ∧
       (truthy v = true ↔ d ≠ ∅ ∧ clock w < c + e - 300) ∧
       (d ≠ ∅ -> c + e - clock w > 300 -> v = VBool true) ∧
       (c + e - clock w <= 300 -> truthy v = false).
Proof.
  intros Hc He. split; [apply is_valid_falsy; reflexivity|].
  destruct (decide (d = ∅)) as [->|Hd].
  - exists (VDict ∅). split; [apply is_valid_empty_record|].
    split; [|split].
    + split; [discriminate | intros [Hne _]; contradiction].
    + intros Hne. contradiction.
    + reflexivity.
  - exists (VBool (clock w <? c + e - 300)).
    split; [by apply is_valid_record|]. simpl.
    rewrite Z.ltb_lt. split; [|split].
    + tauto.
    + intros _ Hgt. f_equal. apply Z.ltb_lt. lia.
    + intros Hle. apply Z.ltb_ge. lia.
Qed.

Lemma is_valid_spec_witness :
  ∃ v, is_valid (VDict sample_record) (quiet_world 1700000600)
       = (Return v, quiet_world 1700000600) ∧ v = VBool true.
Proof.
  destruct (is_valid_spec (quiet_world 1700000600) sample_record 1700000000 3600
              eq_refl eq_refl) as (_ & v & Hv & _ & Hgt & _).
  exists v. split; [exact Hv|]. apply Hgt.
  - apply insert_non_empty.
  - simpl. lia.
Defined.

(** The two records of the specification's examples: one hour of validity,
    created 10 minutes ago (valid) and 58 minutes ago (not valid). *)
Example is_valid_ten_minutes_old :
  is_valid (VDict sample_record) (quiet_world (1700000000 + 600))
  = (Return (VBool true), quiet_world (1700000000 + 600)).
Proof. reflexivity. Qed.

Example is_valid_fifty_eight_minutes_old :
  is_valid (VDict sample_record) (quiet_world (1700000000 + 3480))
  = (Return (VBool false), quiet_world (1700000000 + 3480)).
Proof. reflexivity. Qed.

(** ** The request to the Token Service: the scope parameter *)

Lemma is_user_scope_true (s : string) :
  is_user_scope s = true ↔ s = "uid" ∨ s = "cn".
Proof. unfold is_user_scope. rewrite bool_decide_eq_true. set_solver. Qed.

Lemma is_user_scope_eqb (s : string) :
  is_user_scope s = (String.eqb s "uid" || String.eqb s "cn")%bool.
Proof.
  apply eq_true_iff_eq. rewrite is_user_scope_true, orb_true_iff, !String.eqb_eq.
  reflexivity.
Qed.

Lemma filter_is_user_scope (scope : list string) :
  List.filter is_user_scope scope = user_scopes_of scope.
Proof.
  induction scope as [|s rest IH]; [reflexivity|].
  simpl. rewrite is_user_scope_eqb, IH. reflexivity.
Qed.

Lemma user_scopes_of_sublist (scope : list string) :
  user_scopes_of scope `sublist_of` scope.
Proof.
  induction scope as [|s rest IH]; simpl; [constructor|].
  destruct (String.eqb s "uid" || String.eqb s "cn")%bool; by constructor.
Qed.

Lemma elem_of_user_scopes_of (scope : list string) (s : string) :
  s ∈ user_scopes_of scope ↔ s ∈ scope ∧ (s = "uid" ∨ s = "cn").
Proof.
  rewrite <- filter_is_user_scope, !list_elem_of_In, filter_In, is_user_scope_true.
  reflexivity.
Qed.

Lemma check_token_response_world (r : response) (w : world) :
  (check_token_response r w).2 = w.
Proof.
  unfold check_token_response.
  destruct (status_code r =? 401); [reflexivity|].
  destruct (negb (status_code r =? 200)); [reflexivity|].
  destruct (resp_json r) as [json_data|]; [|reflexivity].
  rewrite bind_run. destruct json_data; try reflexivity.
  simpl. destruct (negb (truthy (dict_get d "access_token"))); reflexivity.
Qed.

Lemma requests_get_trace url params auth verify timeout (w : world) :
  trace (requests_get url params auth verify timeout w).2
  = EvHttpGet url params auth verify timeout :: trace w.
Proof.
  unfold requests_get. destruct (is_url url); [|reflexivity].
  destruct (http_script w) as [|[r|] rest]; try reflexivity.
  destruct timeout; reflexivity.
Qed.

Lemma get_new_token_run realm scope user password url insecure (w : world) :
  get_new_token realm scope user password url insecure w
  = (requests_get (request_url url w) (get_new_token_params realm scope)
       (Some (user, password)) (negb (truthy insecure)) None
     ≫= check_token_response) w.
Proof.
  unfold get_new_token, request_url. rewrite bind_run.
  destruct (negb (truthy url)); reflexivity.
Qed.

Lemma get_new_token_trace realm scope user password url insecure (w : world) :
  trace (get_new_token realm scope user password url insecure w).2
  = EvHttpGet (request_url url w) (get_new_token_params realm scope)
      (Some (user, password)) (negb (truthy insecure)) None :: trace w.
Proof.
  rewrite get_new_token_run, bind_run.
  pose proof (requests_get_trace (request_url url w) (get_new_token_params realm scope)
                (Some (user, password)) (negb (truthy insecure)) None w) as Ht.
  destruct (requests_get _ _ _ _ _ w) as [[r| |] w1]; simpl in *; try exact Ht.
  rewrite check_token_response_world. exact Ht.
Qed.

(** C4: whatever scopes are requested, the request that [get_new_token] sends
    carries as its "scope" parameter the requested scopes that are "uid" or
    "cn", in the order of the request and joined by spaces, all others being
    dropped (no "scope" parameter at all goes out for an empty request);
    requesting uid, openid, cn sends "uid cn". *)
Theorem get_new_token_scope_param realm (scope : list string) user password url insecure
    (w : world) :
  (∃ sent_url,
     trace (get_new_token realm scope user password url insecure w).2
     = EvHttpGet sent_url (get_new_token_params realm scope)
         (Some (user, password)) (negb (truthy insecure)) None :: trace w) ∧
  get_new_token_params realm scope !! "scope"
  = match scope with
    | [] => None
    | _ => Some (VStr (String.concat " " (user_scopes_of scope)))
    end ∧
  user_scopes_of scope `sublist_of` scope ∧
  (∀ s, s ∈ user_scopes_of scope ↔ s ∈ scope ∧ (s = "uid" ∨ s = "cn")) ∧
  get_new_token_params realm ["uid"; "openid"; "cn"] !! "scope" = Some (VStr "uid cn").
Proof.
  split; [eexists; apply get_new_token_trace|].
  split; [|split; [apply user_scopes_of_sublist|split; [apply elem_of_user_scopes_of|]]].
  - unfold get_new_token_params. destruct scope as [|s rest].
    + destruct (truthy realm); by simplify_map_eq.
    + rewrite lookup_insert_eq, filter_is_user_scope. reflexivity.
  - unfold get_new_token_params. rewrite lookup_insert_eq. reflexivity.
Qed.

(** ** The request to the Token Service: what becomes of the response *)

(** [AuthenticationFailed] is a [ServerError] for [isinstance] and [except],
    and the only one that is both. *)
Remark authentication_failed_is_server_error (e : exn) :
  is_AuthenticationFailed e = true ->
  is_ServerError e = true ∧ ∃ m, e = AuthenticationFailed m.
Proof. destruct e; try discriminate. intros _. split; [reflexivity | eauto]. Qed.

Lemma check_token_response_401 (r : response) (w : world) :
  status_code r = 401 ->
  check_token_response r w
  = (Raise (AuthenticationFailed (Format "Token Service returned {}" [VStr (resp_text r)])), w).
Proof. intros H. unfold check_token_response. rewrite H. reflexivity. Qed.

Lemma check_token_response_status (r : response) (w : world) :
  status_code r ≠ 401 -> status_code r ≠ 200 ->
  check_token_response r w
  = (Raise (ServerError (Format "Token Service returned HTTP status {}: {}"
                           [VNum (status_code r); VStr (resp_text r)])), w).
Proof.
  intros H1 H2. unfold check_token_response.
  apply Z.eqb_neq in H1, H2. rewrite H1, H2. reflexivity.
Qed.

Lemma check_token_response_200 (r : response) (w : world) :
  status_code r = 200 ->
  check_token_response r w
  = match resp_json r with
    | None => (Raise (ServerError (Lit "Token Service returned invalid JSON data")), w)
    | Some (VDict d) =>
        if truthy (dict_get d "access_token") then (Return (VDict d), w)
        else (Raise missing_access_token, w)
    | Some _ => (Raise AttributeError, w)
    end.
Proof.
  intros H. unfold check_token_response. rewrite H. simpl.
  destruct (resp_json r) as [json_data|]; [|reflexivity].
  destruct json_data; try reflexivity.
  rewrite bind_run. simpl. destruct (truthy (dict_get d "access_token")); reflexivity.
Qed.

Lemma check_token_response_returns (r : response) (w w' : world) (v : value) :
  check_token_response r w = (Return v, w') ->
  status_code r = 200 ∧
  ∃ d, resp_json r = Some (VDict d) ∧ v = VDict d ∧ truthy (dict_get d "access_token") = true.
Proof.
  intros H. destruct (decide (status_code r = 401)) as [E|N1].
  { rewrite check_token_response_401 in H by exact E. discriminate. }
  destruct (decide (status_code r = 200)) as [E|N2].
  2: { rewrite check_token_response_status in H by assumption. discriminate. }
  split; [exact E|]. rewrite check_token_response_200 in H by exact E.
  destruct (resp_json r) as [[| | | | |d]|]; try discriminate.
  destruct (truthy (dict_get d "access_token")) eqn:Ht; [|discriminate].
  exists d. by simplify_eq.
Qed.

Lemma check_token_response_authentication_failed (r : response) (w : world) :
  (∃ m, (check_token_response r w).1 = Raise (AuthenticationFailed m)) ↔ status_code r = 401.
Proof.
  split.
  - intros [m H]. destruct (decide (status_code r = 401)) as [E|N1]; [exact E|].
    destruct (decide (status_code r = 200)) as [E|N2].
    + rewrite check_token_response_200 in H by exact E.
      destruct (resp_json r) as [[| | | | |d]|]; try discriminate.
      destruct (truthy (dict_get d "access_token")); discriminate.
    + rewrite check_token_response_status in H by assumption. discriminate.
  - intros E. eexists. rewrite check_token_response_401 by exact E. reflexivity.
Qed.

(** With a URL to call and an answer from the network, [get_new_token] is
    its treatment of the response. *)
Lemma get_new_token_responded realm scope user password url insecure
    (w : world) (r : response) (rest : list http_outcome) :
  is_url (request_url url w) = true ->
  http_script w = Responded r :: rest ->
  get_new_token realm scope user password url insecure w
  = check_token_response r
      (with_http_script
         (with_trace w (EvHttpGet (request_url url w) (get_new_token_params realm scope)
                          (Some (user, password)) (negb (truthy insecure)) None :: trace w))
         rest).
Proof.
  intros Hu Hs. rewrite get_new_token_run, bind_run.
  unfold requests_get. rewrite Hu, Hs. reflexivity.
Qed.

Lemma get_new_token_returns realm scope user password url insecure
    (w w' : world) (v : value) :
  get_new_token realm scope user password url insecure w = (Return v, w') ->
  ∃ d, v = VDict d ∧ truthy (dict_get d "access_token") = true.
Proof.
  rewrite get_new_token_run, bind_run. intros H.
  destruct (requests_get _ _ _ _ _ w) as [[r| |] w1]; try discriminate.
  apply check_token_response_returns in H as (_ & d & _ & -> & Ht). eauto.
Qed.

(** The parsed body has the field "access_token", with the empty string in
    it; [get_new_token] does not return the body, it raises [ServerError]. *)
Lemma get_new_token_empty_token_counterexample :
  status_code (token_response (VStr "")) = 200 ∧
  resp_json (token_response (VStr ""))
  = Some (VDict {[ "access_token" := VStr ""; "expires_in" := VNum 3600 ]}) ∧
  ({[ "access_token" := VStr ""; "expires_in" := VNum 3600 ]} : gmap string value)
    !! "access_token" = Some (VStr "") ∧
  (get_new_token VNone [] (VStr "jdoe") (VStr "secret") (VStr service_url) (VBool false)
     (answering (token_response (VStr "")))).1
  = Raise missing_access_token.
Proof. repeat split; reflexivity. Qed.

(** C3 (amended): when the Token Service answers, [get_new_token] raises
    [AuthenticationFailed] exactly when the status is 401; for any other
    status that is not 200 it raises [ServerError] with the status and the
    body; when the body is not JSON it raises [ServerError]; when the parsed
    body, a JSON object, lacks the access-token field or holds a false value
    in it, it raises [ServerError]; otherwise it returns the parsed body. *)
Theorem get_new_token_outcome realm scope user password url insecure
    (w : world) (r : response) (rest : list http_outcome) :
  is_url (request_url url w) = true ->
  http_script w = Responded r :: rest ->
  ((∃ m, new_token_outcome realm scope user password url insecure w
         = Raise (AuthenticationFailed m)) ↔ status_code r = 401) ∧
  (status_code r ≠ 401 -> status_code r ≠ 200 ->
   new_token_outcome realm scope user password url insecure w
   = Raise (ServerError (Format "Token Service returned HTTP status {}: {}"
                           [VNum (status_code r); VStr (resp_text r)]))) ∧
  (status_code r = 200 -> resp_json r = None ->
   new_token_outcome realm scope user password url insecure w
   = Raise (ServerError (Lit "Token Service returned invalid JSON data"))) ∧
  (∀ d, status_code r = 200 -> resp_json r = Some (VDict d) ->
     (d !! "access_token" = None ->
      new_token_outcome realm scope user password url insecure w = Raise missing_access_token) ∧
     (truthy (dict_get d "access_token") = false ->
      new_token_outcome realm scope user password url insecure w = Raise missing_access_token) ∧
     (truthy (dict_get d "access_token") = true ->
      new_token_outcome realm scope user password url insecure w = Return (VDict d))).
Proof.
  intros Hu Hs. unfold new_token_outcome.
  rewrite (get_new_token_responded _ _ _ _ _ _ _ _ _ Hu Hs).
  split; [apply check_token_response_authentication_failed|].
  split; [intros N1 N2; by rewrite check_token_response_status|].
  split; [intros E Hj; by rewrite check_token_response_200, Hj|].
  intros d E Hj. rewrite check_token_response_200, Hj by exact E.
  split; [|split].
  - intros Hnone. unfold dict_get. rewrite Hnone. reflexivity.
  - intros ->. reflexivity.
  - intros ->. reflexivity.
Qed.

Lemma get_new_token_outcome_witness :
  new_token_outcome VNone ["uid"] (VStr "jdoe") (VStr "secret") (VStr service_url)
    (VBool false) (answering (token_response (VStr "t0k3n")))
  = Return (VDict {[ "access_token" := VStr "t0k3n"; "expires_in" := VNum 3600 ]}).
Proof.
  destruct (get_new_token_outcome VNone ["uid"] (VStr "jdoe") (VStr "secret")
              (VStr service_url) (VBool false) (answering (token_response (VStr "t0k3n")))
              (token_response (VStr "t0k3n")) [] eq_refl eq_refl)
    as (_ & _ & _ & H).
  destruct (H _ eq_refl eq_refl) as (_ & _ & Hok).
  apply Hok. reflexivity.
Defined.

Lemma truthy_dict_get (d : gmap string value) (k : string) :
  truthy (dict_get d k) = true -> ∃ t, d !! k = Some t ∧ truthy t = true.
Proof.
  unfold dict_get. destruct (d !! k) as [t|]; [eauto | discriminate].
Qed.

(** C10: [get_new_token] raises [ServerError] whenever the access-token
    field of the parsed response is false, be it missing or, say, the empty
    string; so a record that it returns always holds an access token that is
    true, and not the empty string. *)
Theorem get_new_token_access_token_nonempty realm scope user password url insecure
    (w : world) :
  (∀ v w', get_new_token realm scope user password url insecure w = (Return v, w') ->
     ∃ d t, v = VDict d ∧ d !! "access_token" = Some t ∧ truthy t = true ∧ t ≠ VStr "") ∧
  (∀ r rest d,
     is_url (request_url url w) = true -> http_script w = Responded r :: rest ->
     status_code r = 200 -> resp_json r = Some (VDict d) ->
     truthy (dict_get d "access_token") = false ->
     (get_new_token realm scope user password url insecure w).1 = Raise missing_access_token).
Proof.
  split.
  - intros v w' H. apply get_new_token_returns in H as (d & -> & Ht).
    apply truthy_dict_get in Ht as (t & Hl & Ht).
    exists d, t. repeat split; try assumption. intros ->. discriminate.
  - intros r rest d Hu Hs E Hj Hf.
    rewrite (get_new_token_responded _ _ _ _ _ _ _ _ _ Hu Hs).
    rewrite check_token_response_200, Hj, Hf by exact E. reflexivity.
Qed.

Lemma get_new_token_access_token_nonempty_witness :
  (∃ d t, VDict {[ "access_token" := VStr "t0k3n"; "expires_in" := VNum 3600 ]} = VDict d ∧
          d !! "access_token" = Some t ∧ truthy t = true ∧ t ≠ VStr "") ∧
  (get_new_token VNone [] (VStr "jdoe") (VStr "secret") (VStr service_url) (VBool false)
     (answering (token_response VNone))).1 = Raise missing_access_token.
Proof.
  split.
  - eapply (proj1 (get_new_token_access_token_nonempty VNone [] (VStr "jdoe") (VStr "secret")
                     (VStr service_url) (VBool false)
                     (answering (token_response (VStr "t0k3n"))))).
    reflexivity.
  - eapply (proj2 (get_new_token_access_token_nonempty VNone [] (VStr "jdoe") (VStr "secret")
                     (VStr service_url) (VBool false) (answering (token_response VNone))));
      reflexivity.
Defined.

(** ** The token store *)

Lemma get_tokens_run (w : world) :
  get_tokens w
  = (Return match tokens_file w with
            | FileData data => py_or data (VDict ∅)
            | _ => VDict ∅
            end, w).
Proof.
  unfold get_tokens, try_except, yaml_safe_load_tokens. rewrite bind_run.
  destruct (tokens_file w); reflexivity.
Qed.

Lemma get_existing_token_empty (name : string) (w : world) :
  get_tokens w = (Return (VDict ∅), w) ->
  get_existing_token name w = (Return VNone, w).
Proof.
  intros H. unfold get_existing_token. rewrite (bind_return _ _ _ _ _ H).
  cbn [value_get]. run. unfold dict_get. rewrite lookup_empty. cbn [default].
  rewrite (is_valid_falsy VNone w eq_refl). reflexivity.
Qed.

(** C8: loading the token cache never fails: [get_tokens] returns whatever
    the file holds, and the empty cache when the file cannot be read or
    parsed (it is missing, or corrupt); on such a cache [get_existing_token]
    returns [None] for every name. *)
Theorem get_tokens_never_fails (w : world) :
  (∃ data, get_tokens w = (Return data, w)) ∧
  (tokens_file w = FileMissing ∨ tokens_file w = FileCorrupt ->
   get_tokens w = (Return (VDict ∅), w) ∧
   ∀ name, get_existing_token name w = (Return VNone, w)).
Proof.
  split; [eexists; apply get_tokens_run|].
  intros Hf.
  assert (get_tokens w = (Return (VDict ∅), w)) as He.
  { rewrite get_tokens_run. destruct Hf as [-> | ->]; reflexivity. }
  split; [exact He|]. intros name. by apply get_existing_token_empty.
Qed.

Lemma get_tokens_never_fails_witness :
  (get_tokens (quiet_world 0) = (Return (VDict ∅), quiet_world 0) ∧
   ∀ name, get_existing_token name (quiet_world 0) = (Return VNone, quiet_world 0)) ∧
  (get_tokens (with_tokens_file (quiet_world 0) FileCorrupt)
   = (Return (VDict ∅), with_tokens_file (quiet_world 0) FileCorrupt) ∧
   ∀ name, get_existing_token name (with_tokens_file (quiet_world 0) FileCorrupt)
           = (Return VNone, with_tokens_file (quiet_world 0) FileCorrupt)).
Proof.
  split.
  - apply (proj2 (get_tokens_never_fails (quiet_world 0))). left. reflexivity.
  - apply (proj2 (get_tokens_never_fails (with_tokens_file (quiet_world 0) FileCorrupt))).
    right. reflexivity.
Defined.

Lemma store_token_run (name : string) (record cache : gmap string value) (w : world) :
  get_tokens w = (Return (VDict cache), w) ->
  store_token name (VDict record) w
  = (Return (VDict (stamped record (clock w))),
     with_trace
       (with_tokens_file w
          (FileData (VDict (<[name := VDict (stamped record (clock w))]> cache))))
       (EvWriteTokens (<[name := VDict (stamped record (clock w))]> cache) :: trace w)).
Proof.
  intros H. unfold store_token. rewrite (bind_return _ _ _ _ _ H). reflexivity.
Qed.

(** C7: round trip through the token store. When the token file is missing,
    unreadable or holds a mapping, [store_token(name, record)] succeeds, and
    looking [name] up in the cache loaded afterwards gives the record with
    its field [creation_time] set to the time of the save and every other
    field as in the input; all other entries of the cache are as they were
    loaded before the save. *)
Theorem store_token_round_trip (name : string) (record cache : gmap string value)
    (w : world) :
  get_tokens w = (Return (VDict cache), w) ->
  ∃ w' cache' record',
    store_token name (VDict record) w = (Return (VDict record'), w') ∧
    get_tokens w' = (Return (VDict cache'), w') ∧
    (data ← get_tokens; value_get data name) w' = (Return (VDict record'), w') ∧
    record' !! "creation_time" = Some (VNum (clock w)) ∧
    (∀ field, field ≠ "creation_time" -> record' !! field = record !! field) ∧
    (∀ other, other ≠ name -> cache' !! other = cache !! other).
Proof.
  intros H. do 3 eexists.
  split; [apply (store_token_run _ _ _ _ H)|].
  assert (get_tokens
            (with_trace
               (with_tokens_file w
                  (FileData (VDict (<[name := VDict (stamped record (clock w))]> cache))))
               (EvWriteTokens (<[name := VDict (stamped record (clock w))]> cache) :: trace w))
          = (Return (VDict (<[name := VDict (stamped record (clock w))]> cache)),
             with_trace
               (with_tokens_file w
                  (FileData (VDict (<[name := VDict (stamped record (clock w))]> cache))))
               (EvWriteTokens (<[name := VDict (stamped record (clock w))]> cache) :: trace w)))
    as Hload.
  { rewrite get_tokens_run. simpl. unfold py_or. simpl.
    rewrite bool_decide_eq_false_2 by apply insert_non_empty. reflexivity. }
  split; [exact Hload|].
  split; [rewrite (bind_return _ _ _ _ _ Hload); simpl; unfold dict_get;
          rewrite lookup_insert_eq; reflexivity|].
  split; [apply lookup_insert_eq|].
  split.
  - intros field Hne. unfold stamped. by rewrite lookup_insert_ne.
  - intros other Hne. by rewrite lookup_insert_ne.
Qed.

Lemma store_token_round_trip_witness :
  ∃ w' cache' record',
    store_token "mytok" (VDict {[ "access_token" := VStr "abc"; "expires_in" := VNum 3600 ]})
      cached_world = (Return (VDict record'), w') ∧
    get_tokens w' = (Return (VDict cache'), w') ∧
    (data ← get_tokens; value_get data "mytok") w' = (Return (VDict record'), w') ∧
    record' !! "creation_time" = Some (VNum 1700000000) ∧
    (∀ field, field ≠ "creation_time" ->
       record' !! field
       = ({[ "access_token" := VStr "abc"; "expires_in" := VNum 3600 ]} : gmap string value)
           !! field) ∧
    (∀ other, other ≠ "mytok" ->
       cache' !! other = ({[ "other" := VDict sample_record ]} : gmap string value) !! other).
Proof.
  exact (store_token_round_trip "mytok"
           {[ "access_token" := VStr "abc"; "expires_in" := VNum 3600 ]}
           {[ "other" := VDict sample_record ]} cached_world eq_refl).
Defined.

(** The load-bearing hypothesis of the round trip: a token file that parses
    to something true that is no mapping makes [store_token] raise. *)
Remark store_token_on_a_list (name : string) (record : gmap string value) :
  (store_token name (VDict record)
     (with_tokens_file (quiet_world 0) (FileData (VList [VStr "x"])))).1 = Raise TypeError.
Proof. reflexivity. Qed.

(** ** The service token *)

Lemma get_service_token_run (name : string) (scopes : list string) (w : world) :
  get_service_token name scopes w
  = let w1 := with_trace w (EvTokensManage name scopes :: trace w) in
    match tokens_lib w name with
    | inl access_token => (Return access_token, w1)
    | inr TokensConfigurationError => (Return VNone, w1)
    | inr TokensInvalidCredentialsError => (Return VNone, w1)
    | inr e => (Raise e, w1)
    end.
Proof.
  unfold get_service_token, tokens_manage, log, try_except, tokens_get.
  rewrite bind_run. simpl.
  destruct (tokens_lib w name) as [v|[]]; reflexivity.
Qed.




(** ** Computations that only read the world *)

Lemma pure_ret {A} (a : A) : pure (mret a : M A).
Proof. intros w. reflexivity. Qed.

Lemma pure_raise {A} (e : exn) : pure (raise e : M A).
Proof. intros w. reflexivity. Qed.

Lemma pure_bind {A B} (c : M A) (f : A -> M B) :
  pure c -> (∀ a, pure (f a)) -> pure (c ≫= f).
Proof.
  intros Hc Hf w. rewrite bind_run. specialize (Hc w).
  destruct (c w) as [[a|e|] w1]; simpl in Hc; subst w1; [apply Hf | reflexivity..].
Qed.

Lemma pure_try_except {A} (c : M A) (h : exn -> option (M A)) :
  pure c -> (∀ e k, h e = Some k -> pure k) -> pure (try_except c h).
Proof.
  intros Hc Hh w. unfold try_except. specialize (Hc w).
  destruct (c w) as [[a|e|] w1]; simpl in Hc; subst w1; try reflexivity.
  destruct (h e) as [k|] eqn:Hk; [by apply (Hh e k) | reflexivity].
Qed.

Lemma pure_run {A} (c : M A) (w : world) (o : outcome A) :
  pure c -> (c w).1 = o -> c w = (o, w).
Proof. intros Hc Ho. specialize (Hc w). destruct (c w). simpl in *. congruence. Qed.

Lemma pure_get_tokens : pure get_tokens.
Proof. intros w. rewrite get_tokens_run. reflexivity. Qed.

Lemma pure_value_get (v : value) (k : string) : pure (value_get v k).
Proof. destruct v; intros w; reflexivity. Qed.

Lemma pure_value_get_default (v : value) (k : string) (dflt : value) :
  pure (value_get_default v k dflt).
Proof. destruct v; intros w; reflexivity. Qed.

Lemma pure_py_add (a b : value) : pure (py_add a b).
Proof.
  unfold py_add. destruct (as_number a), (as_number b), a, b; intros w; reflexivity.
Qed.

Lemma pure_py_sub (a b : value) : pure (py_sub a b).
Proof. unfold py_sub. destruct (as_number a), (as_number b); intros w; reflexivity. Qed.

Lemma pure_py_lt_num (a : Z) (b : value) : pure (py_lt_num a b).
Proof. unfold py_lt_num. destruct (as_number b); intros w; reflexivity. Qed.

Lemma pure_is_valid (token : value) : pure (is_valid token).
Proof.
  unfold is_valid. apply pure_bind; [intros w; reflexivity|]. intros now.
  destruct (truthy token); [|apply pure_ret].
  apply pure_bind; [apply pure_value_get_default|]. intros c.
  apply pure_bind; [apply pure_value_get_default|]. intros e.
  apply pure_bind; [apply pure_py_add|]. intros s.
  apply pure_bind; [apply pure_py_sub|]. intros l. apply pure_py_lt_num.
Qed.

Lemma pure_get_existing_token (name : string) : pure (get_existing_token name).
Proof.
  unfold get_existing_token. apply pure_bind; [apply pure_get_tokens|]. intros data.
  apply pure_bind; [apply pure_value_get|]. intros t.
  apply pure_bind; [apply pure_is_valid|]. intros v.
  destruct (truthy v); apply pure_ret.
Qed.

Lemma get_service_token_world (name : string) (scopes : list string) (w : world) :
  (get_service_token name scopes w).2 = with_trace w (EvTokensManage name scopes :: trace w).
Proof.
  rewrite get_service_token_run. cbv zeta.
  destruct (tokens_lib w name) as [v|[]]; reflexivity.
Qed.

(** ** [get_token]: the configuration that must be there *)

(** C6: when [get_token] finds no valid cached token and no service token,
    it raises [ConfigurationError] if no user name comes from the
    configuration, nor from ZIGN_USER, nor from USER, and it raises
    [ConfigurationError] if there is a user but no URL in the configuration.
    In both cases the world is left as the service-token attempt left it:
    the keyring was not asked for a password and no request was sent. *)
Theorem get_token_configuration_errors (name : string) (scopes : list string) (w : world)
    (token access_token : value) :
  (get_existing_token name w).1 = Return token -> truthy token = false ->
  (get_service_token name scopes w).1 = Return access_token -> truthy access_token = false ->
  (truthy (dict_get (config_file w) "user") = false ->
   truthy (getenv w "ZIGN_USER") = false ->
   truthy (getenv w "USER") = false ->
   get_token name scopes w
   = (Raise missing_username, with_trace w (EvTokensManage name scopes :: trace w))) ∧
  (truthy (dict_get (config_file w) "user") = true ∨
   truthy (getenv w "ZIGN_USER") = true ∨
   truthy (getenv w "USER") = true ->
   truthy (dict_get (config_file w) "url") = false ->
   get_token name scopes w
   = (Raise missing_url, with_trace w (EvTokensManage name scopes :: trace w))).
Proof.
  intros He Ht Hs Ha.
  apply (pure_run _ _ _ (pure_get_existing_token name)) in He.
  assert (get_service_token name scopes w
          = (Return access_token, with_trace w (EvTokensManage name scopes :: trace w)))
    as Hs'.
  { rewrite <- get_service_token_world, <- Hs. apply surjective_pairing. }
  assert (∀ user, truthy user = false -> py_or user = λ other, other) as Hor.
  { intros user Hu. unfold py_or. rewrite Hu. reflexivity. }
  split.
  - intros Hc Hz Hu. unfold get_token. rewrite (bind_return _ _ _ _ _ He), Ht.
    rewrite (bind_return _ _ _ _ _ Hs'), Ha.
    unfold get_config, os_getenv. run. cbn [config_file with_trace].
    change (getenv (with_trace w (EvTokensManage name scopes :: trace w)))
      with (getenv w).
    rewrite (Hor _ Hc), (Hor _ Hz), Hu. reflexivity.
  - intros Huser Hurl. unfold get_token. rewrite (bind_return _ _ _ _ _ He), Ht.
    rewrite (bind_return _ _ _ _ _ Hs'), Ha.
    unfold get_config, os_getenv. run. cbn [config_file with_trace].
    change (getenv (with_trace w (EvTokensManage name scopes :: trace w)))
      with (getenv w).
    assert (truthy (py_or (py_or (dict_get (config_file w) "user") (getenv w "ZIGN_USER"))
                      (getenv w "USER")) = true) as ->.
    { unfold py_or.
      destruct (truthy (dict_get (config_file w) "user")) eqn:E1; rewrite ?E1; [reflexivity|].
      destruct (truthy (getenv w "ZIGN_USER")) eqn:E2; rewrite ?E2; [reflexivity|].
      destruct Huser as [?|[?|?]]; congruence. }
    rewrite Hurl. reflexivity.
Qed.

Lemma get_token_configuration_errors_witness :
  get_token "mytok" ["uid"] (quiet_world 0)
  = (Raise missing_username,
     with_trace (quiet_world 0) (EvTokensManage "mytok" ["uid"] :: trace (quiet_world 0))) ∧
  get_token "mytok" ["uid"] os_user_world
  = (Raise missing_url,
     with_trace os_user_world (EvTokensManage "mytok" ["uid"] :: trace os_user_world)).
Proof.
  split.
  - apply (proj1 (get_token_configuration_errors "mytok" ["uid"] (quiet_world 0)
                    VNone VNone eq_refl eq_refl eq_refl eq_refl)); reflexivity.
  - apply (proj2 (get_token_configuration_errors "mytok" ["uid"] os_user_world
                    VNone VNone eq_refl eq_refl eq_refl eq_refl)).
    + right. right. reflexivity.
    + reflexivity.
Defined.

(** ** Computations that only add to the trace *)

Lemma keeps_pure {A} (c : M A) : pure c -> keeps_trace c.
Proof. intros Hc w. rewrite Hc. reflexivity. Qed.

Lemma keeps_ret {A} (a : A) : keeps_trace (mret a : M A).
Proof. apply keeps_pure, pure_ret. Qed.

Lemma keeps_raise {A} (e : exn) : keeps_trace (raise e : M A).
Proof. apply keeps_pure, pure_raise. Qed.

Lemma keeps_bind {A B} (c : M A) (f : A -> M B) :
  keeps_trace c -> (∀ a, keeps_trace (f a)) -> keeps_trace (c ≫= f).
Proof.
  intros Hc Hf w. rewrite bind_run. specialize (Hc w).
  destruct (c w) as [[a|e|] w1]; simpl in Hc; [|exact Hc..].
  etrans; [exact Hc | apply Hf].
Qed.

Lemma keeps_try_except {A} (c : M A) (h : exn -> option (M A)) :
  keeps_trace c -> (∀ e k, h e = Some k -> keeps_trace k) -> keeps_trace (try_except c h).
Proof.
  intros Hc Hh w. unfold try_except. specialize (Hc w).
  destruct (c w) as [[a|e|] w1]; simpl in Hc; try exact Hc.
  destruct (h e) as [k|] eqn:Hk; [|exact Hc].
  etrans; [exact Hc | by apply (Hh e k)].
Qed.

Lemma keeps_log (ev : event) : keeps_trace (log ev).
Proof. intros w. simpl. by apply suffix_cons_r. Qed.

Lemma keeps_store_config (config : gmap string value) : keeps_trace (store_config config).
Proof. intros w. simpl. by apply suffix_cons_r. Qed.

Lemma keeps_keyring_get_password (user : value) : keeps_trace (keyring_get_password user).
Proof. intros w. simpl. by apply suffix_cons_r. Qed.

Lemma keeps_keyring_set_password (user password : value) :
  keeps_trace (keyring_set_password user password).
Proof. intros w. simpl. by apply suffix_cons_r. Qed.

Lemma keeps_click_prompt (message : text) (hide_input : bool) :
  keeps_trace (click_prompt message hide_input).
Proof.
  intros w. unfold click_prompt.
  destruct (input_script w); simpl; by apply suffix_cons_r.
Qed.

Lemma keeps_get_new_token realm scope user password url insecure :
  keeps_trace (get_new_token realm scope user password url insecure).
Proof. intros w. rewrite get_new_token_trace. by apply suffix_cons_r. Qed.

Lemma keeps_store_token (name : string) (result : value) :
  keeps_trace (store_token name result).
Proof.
  unfold store_token. apply keeps_bind; [apply keeps_pure, pure_get_tokens|].
  intros data. destruct data; try apply keeps_raise.
  destruct result; try apply keeps_raise.
  apply keeps_bind; [apply keeps_pure; intros w; reflexivity|]. intros now.
  apply keeps_bind; [|intros; apply keeps_ret].
  intros w. simpl. by apply suffix_cons_r.
Qed.

Lemma keeps_request_attempt realm scope user url insecure prompt password
    (retry : M (value * value)) :
  keeps_trace retry ->
  keeps_trace (request_attempt realm scope user url insecure prompt password retry).
Proof.
  intros Hr. unfold request_attempt. apply keeps_bind.
  - apply keeps_try_except.
    + apply keeps_bind; [apply keeps_get_new_token | intros; apply keeps_ret].
    + intros e k Hk. destruct (is_AuthenticationFailed e); [|discriminate].
      injection Hk as <-. destruct prompt; [|apply keeps_raise].
      apply keeps_bind; [apply keeps_log|]. intros _.
      apply keeps_bind; [apply keeps_log|]. intros _. apply keeps_ret.
  - intros [result|]; [apply keeps_ret | exact Hr].
Qed.

Lemma keeps_request_loop fuel realm scope user url insecure prompt password :
  keeps_trace (request_loop fuel realm scope user url insecure prompt password).
Proof.
  revert password. induction fuel as [|fuel IH]; intros password.
  - intros w. reflexivity.
  - simpl. apply keeps_bind.
    + destruct (negb (truthy password) && prompt);
        [apply keeps_click_prompt | apply keeps_ret].
    + intros p. apply keeps_request_attempt, IH.
Qed.

(** ** [get_named_token]: the configuration is written back *)

Lemma prompt_url_loop_skip fuel insecure prompt url config (w : world) :
  negb (truthy url) && prompt = false ->
  prompt_url_loop fuel insecure prompt url config w = (Return (url, config), w).
Proof. intros H. destruct fuel; simpl; rewrite H; reflexivity. Qed.

(** The probe of a URL that was typed in always comes to an end. *)
Lemma url_probe_run (s : string) (verify : bool) (w : world) :
  ∃ url w',
    try_except (requests_get (VStr s) ∅ None verify (Some 5);; mret (VStr s))
      (λ _, Some (error (Format "Could not reach {}" [VStr s]);; mret VNone)) w
    = (Return url, w') ∧
    input_script w' = input_script w ∧ trace w `suffix_of` trace w'.
Proof.
  unfold try_except. rewrite bind_run. unfold requests_get.
  destruct (is_url (VStr s)), (http_script w) as [|[r|] rest]; simpl; do 2 eexists;
    (split; [reflexivity|]); (split; [reflexivity|]); simpl;
    repeat apply suffix_cons_r; reflexivity.
Qed.

(** With a turn more than there are lines to read, the loop ends with a URL
    (true, or false when nothing is prompted for), or it waits for the user
    at the prompt for the URL. *)
Lemma prompt_url_loop_outcome fuel insecure prompt url config (w : world) :
  (length (input_script w) < fuel)%nat ->
  (∃ url' config' w',
     prompt_url_loop fuel insecure prompt url config w = (Return (url', config'), w') ∧
     trace w `suffix_of` trace w') ∨
  (∃ w', prompt_url_loop fuel insecure prompt url config w = (Blocked, w') ∧
         head (trace w') = Some (EvPrompt url_prompt false)).
Proof.
  revert url config w. induction fuel as [|fuel IH]; intros url config w Hlen; [lia|].
  destruct (negb (truthy url) && prompt) eqn:Hc.
  2: { left. rewrite prompt_url_loop_skip by exact Hc. by do 3 eexists. }
  simpl. rewrite Hc, bind_run. unfold click_prompt.
  destruct (input_script w) as [|s rest] eqn:Hin.
  { right. eexists. split; reflexivity. }
  cbn beta iota.
  destruct (url_probe_run s (negb (truthy insecure))
              (with_trace (with_input_script w rest) (EvPrompt url_prompt false :: trace w)))
    as (url2 & w2 & Hrun & Hin2 & Htr2).
  rewrite bind_run, Hrun.
  destruct (IH url2 (<["url" := url2]> config) w2) as
    [(url' & config' & w' & Hloop & Htr)|(w' & Hloop & Hhd)].
  - rewrite Hin2. simpl in *. lia.
  - left. exists url', config', w'. split; [exact Hloop|].
    etrans; [|exact Htr]. etrans; [|exact Htr2]. simpl. by apply suffix_cons_r.
  - right. exists w'. by split.
Qed.

(** Turns to spare change nothing here either. *)
Lemma prompt_url_loop_fuel insecure prompt :
  ∀ (fuel fuel' : nat) (url : value) (config : gmap string value) (w : world),
    (length (input_script w) < fuel)%nat ->
    (length (input_script w) < fuel')%nat ->
    prompt_url_loop fuel insecure prompt url config w
    = prompt_url_loop fuel' insecure prompt url config w.
Proof.
  induction fuel as [|fuel IH]; intros fuel' url config w Hf Hf'; [lia|].
  destruct fuel' as [|fuel']; [lia|].
  simpl. destruct (negb (truthy url) && prompt); [|reflexivity].
  rewrite !bind_run. unfold click_prompt.
  destruct (input_script w) as [|s rest] eqn:Hin; [reflexivity|].
  cbn beta iota.
  destruct (url_probe_run s (negb (truthy insecure))
              (with_trace (with_input_script w rest) (EvPrompt url_prompt false :: trace w)))
    as (url2 & w2 & Hrun & Hin2 & _).
  rewrite !bind_run, Hrun.
  apply IH; rewrite Hin2; simpl in *; lia.
Qed.

Lemma keeps_request_named_token scope realm name user password url insecure
    use_keyring prompt :
  keeps_trace (request_named_token scope realm name user password url insecure
                 use_keyring prompt).
Proof.
  unfold request_named_token. apply keeps_bind.
  { destruct (truthy password); [apply keeps_ret | apply keeps_keyring_get_password]. }
  intros password0. apply keeps_bind; [apply keeps_pure; intros w0; reflexivity|].
  intros w0. apply keeps_bind; [apply keeps_request_loop|].
  intros [result password1]. apply keeps_bind.
  { destruct (truthy result && use_keyring);
      [apply keeps_keyring_set_password | apply keeps_ret]. }
  intros _. destruct (name_given name); [apply keeps_store_token | apply keeps_ret].
Qed.

Lemma issue_named_token_after_url scope realm name user password url insecure
    use_keyring prompt (w w1 : world) (url' : value) (config' : gmap string value) :
  prompt_url_loop (S (length (input_script w))) insecure prompt
    (py_or url (dict_get (config_file w) "url")) (config_file w) w
  = (Return (url', config'), w1) ->
  (EvStoreConfig config' :: trace w1)
    `suffix_of` trace (issue_named_token scope realm name user password url insecure
                         use_keyring prompt w).2.
Proof.
  intros Hloop. unfold issue_named_token.
  rewrite bind_run. unfold get_config at 1. cbn beta iota.
  rewrite bind_run. unfold get_world at 1. cbn beta iota.
  rewrite bind_run, Hloop. cbn beta iota.
  rewrite bind_run. unfold store_config at 1. cbn beta iota.
  apply (keeps_request_named_token scope realm name user password url' insecure
           use_keyring prompt
           (with_trace (with_config_file w1 config') (EvStoreConfig config' :: trace w1))).
Qed.

Lemma issue_named_token_blocked scope realm name user password url insecure
    use_keyring prompt (w w1 : world) :
  prompt_url_loop (S (length (input_script w))) insecure prompt
    (py_or url (dict_get (config_file w) "url")) (config_file w) w
  = (Blocked, w1) ->
  issue_named_token scope realm name user password url insecure use_keyring prompt w
  = (Blocked, w1).
Proof.
  intros Hloop. unfold issue_named_token.
  rewrite bind_run. unfold get_config at 1. cbn beta iota.
  rewrite bind_run. unfold get_world at 1. cbn beta iota.
  rewrite bind_run, Hloop. reflexivity.
Qed.

(** With no valid cached token and no service token, [get_named_token] is
    what it does from [get_config()] on. *)
Lemma get_named_token_issues scope realm name user password url insecure
    refresh use_keyring prompt (w : world) :
  (name_given name && negb refresh = true ->
   ∃ token, (get_existing_token name w).1 = Return token ∧ truthy token = false) ->
  (name_given name && negb (truthy realm) = true ->
   ∃ access_token,
     (get_service_token name scope w).1 = Return access_token ∧
     truthy access_token = false) ->
  get_named_token scope realm name user password url insecure refresh use_keyring prompt w
  = issue_named_token scope realm name user password url insecure use_keyring prompt
      (with_trace w (service_attempt name scope realm ++ trace w)).
Proof.
  intros Hcache Hservice.
  assert (service_or_issue_named_token scope realm name user password url insecure
            use_keyring prompt w
          = issue_named_token scope realm name user password url insecure use_keyring prompt
              (with_trace w (service_attempt name scope realm ++ trace w))) as Hs.
  { unfold service_or_issue_named_token, service_attempt. cbv zeta.
    destruct (name_given name && negb (truthy realm)).
    - destruct (Hservice eq_refl) as (a & Ha & Hf).
      assert (get_service_token name scope w
              = (Return a, with_trace w (EvTokensManage name scope :: trace w))) as Hrun.
      { rewrite <- get_service_token_world, <- Ha. apply surjective_pairing. }
      rewrite (bind_return _ _ _ _ _ Hrun), Hf. reflexivity.
    - simpl. destruct w; reflexivity. }
  unfold get_named_token. cbv zeta.
  destruct (name_given name && negb refresh); [|exact Hs].
  destruct (Hcache eq_refl) as (t & Ht & Hf).
  apply (pure_run _ _ _ (pure_get_existing_token name)) in Ht.
  rewrite (bind_return _ _ _ _ _ Ht), Hf. exact Hs.
Qed.

(** C9: a call of [get_named_token] that no valid cached token and no
    service token cuts short writes the configuration back with
    [store_config]. When the URL is given or configured (or nothing may be
    prompted for) it writes the very configuration it has loaded, nothing in
    it changed, right after the service-token attempt; in general it writes
    one, unless the call waits for ever at the prompt for the URL. *)
Theorem get_named_token_stores_config scope realm name user password url insecure
    refresh use_keyring prompt (w : world) :
  (name_given name && negb refresh = true ->
   ∃ token, (get_existing_token name w).1 = Return token ∧ truthy token = false) ->
  (name_given name && negb (truthy realm) = true ->
   ∃ access_token,
     (get_service_token name scope w).1 = Return access_token ∧
     truthy access_token = false) ->
  (truthy url = true ∨ truthy (dict_get (config_file w) "url") = true ∨ prompt = false ->
   (EvStoreConfig (config_file w) :: service_attempt name scope realm ++ trace w)
     `suffix_of`
     trace (get_named_token scope realm name user password url insecure
              refresh use_keyring prompt w).2) ∧
  ((∃ config earlier,
      (EvStoreConfig config :: earlier ++ trace w)
        `suffix_of`
        trace (get_named_token scope realm name user password url insecure
                 refresh use_keyring prompt w).2) ∨
   ((get_named_token scope realm name user password url insecure
       refresh use_keyring prompt w).1 = Blocked ∧
    head (trace (get_named_token scope realm name user password url insecure
                   refresh use_keyring prompt w).2)
    = Some (EvPrompt url_prompt false))).
Proof.
  intros Hcache Hservice.
  rewrite (get_named_token_issues _ _ _ _ _ _ _ _ _ _ _ Hcache Hservice).
  set (ws := with_trace w (service_attempt name scope realm ++ trace w)).
  split.
  - intros Hurl.
    apply (issue_named_token_after_url _ _ _ _ _ _ _ _ _ ws ws
             (py_or url (dict_get (config_file w) "url")) (config_file w)).
    apply prompt_url_loop_skip. unfold py_or.
    destruct (truthy url) eqn:Hu; rewrite ?Hu; [reflexivity|].
    destruct Hurl as [?|[->| ->]]; [congruence|reflexivity|apply andb_false_r].
  - destruct (prompt_url_loop_outcome (S (length (input_script ws))) insecure prompt
                (py_or url (dict_get (config_file ws) "url")) (config_file ws) ws)
      as [(url' & config' & w1 & Hloop & [k Hk])|(w1 & Hloop & Hhd)]; [lia| |].
    + left. exists config', (k ++ service_attempt name scope realm)%list.
      pose proof (issue_named_token_after_url scope realm name user password url insecure
                    use_keyring prompt ws w1 url' config' Hloop) as Hs.
      rewrite Hk in Hs. simpl in Hs. rewrite <- app_assoc. exact Hs.
    + right.
      rewrite (issue_named_token_blocked scope realm name user password url insecure
                 use_keyring prompt ws w1 Hloop).
      by split.
Qed.

Lemma get_named_token_stores_config_witness :
  (EvStoreConfig ∅ :: [EvTokensManage "mytok" ["uid"]])
    `suffix_of`
    trace (get_named_token ["uid"] VNone "mytok" (VStr "jdoe") (VStr "secret")
             (VStr service_url) (VBool false) false false false
             (answering (token_response (VStr "t0k3n")))).2.
Proof.
  apply (proj1 (get_named_token_stores_config ["uid"] VNone "mytok" (VStr "jdoe")
                  (VStr "secret") (VStr service_url) (VBool false) false false false
                  (answering (token_response (VStr "t0k3n")))
                  (λ _, ex_intro _ VNone (conj eq_refl eq_refl))
                  (λ _, ex_intro _ VNone (conj eq_refl eq_refl)))).
  left. reflexivity.
Defined.

(** The whole call of the witness, as the trace tells it, oldest event last:
    the service-token attempt, the configuration written back unchanged, one
    request, the token file written. *)
Example get_named_token_explicit_url_trace :
  trace (get_named_token ["uid"] VNone "mytok" (VStr "jdoe") (VStr "secret")
           (VStr service_url) (VBool false) false false false
           (answering (token_response (VStr "t0k3n")))).2
  = [ EvWriteTokens
        {[ "mytok" := VDict {[ "access_token" := VStr "t0k3n";
                               "creation_time" := VNum 1700000000;
                               "expires_in" := VNum 3600 ]} ]};
      EvHttpGet (VStr service_url) {[ "json" := VStr "true"; "scope" := VStr "uid" ]}
        (Some (VStr "jdoe", VStr "secret")) true None;
      EvStoreConfig ∅;
      EvTokensManage "mytok" ["uid"] ].
Proof. vm_compute. reflexivity. Qed.

(** ** The request loop and [AuthenticationFailed] *)

Lemma request_attempt_run realm scope user url insecure prompt password
    (retry : M (value * value)) (w : world) :
  request_attempt realm scope user url insecure prompt password retry w
  = match get_new_token realm scope user password url insecure w with
    | (Return result, w1) => (Return (result, password), w1)
    | (Raise (AuthenticationFailed m), w1) =>
        if prompt then retry (told_to_retry m w1)
        else (Raise (AuthenticationFailed m), w1)
    | (Raise e, w1) => (Raise e, w1)
    | (Blocked, w1) => (Blocked, w1)
    end.
Proof.
  unfold request_attempt, try_except. rewrite !bind_run.
  destruct (get_new_token realm scope user password url insecure w) as [[result|e|] w1];
    try reflexivity.
  destruct e; try reflexivity. destruct prompt; reflexivity.
Qed.

(** A failed authentication is the answer 401 of the network to a request
    that was sent, and that answer is used up. *)
Lemma get_new_token_authentication_failed realm scope user password url insecure
    (w w1 : world) (m : text) :
  get_new_token realm scope user password url insecure w
  = (Raise (AuthenticationFailed m), w1) ->
  ∃ r rest,
    http_script w = Responded r :: rest ∧ status_code r = 401 ∧
    http_script w1 = rest ∧ input_script w1 = input_script w ∧
    m = Format "Token Service returned {}" [VStr (resp_text r)].
Proof.
  rewrite get_new_token_run, bind_run. unfold requests_get.
  destruct (is_url (request_url url w)); [|discriminate].
  destruct (http_script w) as [|[r|] rest]; try discriminate.
  intros H. exists r, rest.
  assert (status_code r = 401) as E.
  { apply (check_token_response_authentication_failed r
             (with_http_script
                (with_trace w (EvHttpGet (request_url url w)
                                 (get_new_token_params realm scope)
                                 (Some (user, password)) (negb (truthy insecure)) None
                               :: trace w)) rest)).
    exists m. rewrite H. reflexivity. }
  rewrite check_token_response_401 in H by exact E.
  injection H as <- <-. repeat split; assumption || reflexivity.
Qed.

(** Turns to spare change nothing: the loop never stops for want of them. *)
Lemma request_loop_fuel realm scope user url insecure prompt :
  ∀ (fuel fuel' : nat) (password : value) (w : world),
    (length (http_script w) < fuel)%nat ->
    (length (http_script w) < fuel')%nat ->
    request_loop fuel realm scope user url insecure prompt password w
    = request_loop fuel' realm scope user url insecure prompt password w.
Proof.
  induction fuel as [|fuel IH]; intros fuel' password w Hf Hf'; [lia|].
  destruct fuel' as [|fuel']; [lia|].
  simpl. rewrite !bind_run.
  assert (∀ p w0,
            (if negb (truthy password) && prompt
             then click_prompt (Format "Password for {}" [user]) true
             else mret password) w = (Return p, w0) ->
            http_script w0 = http_script w) as Hstep.
  { intros p w0. destruct (negb (truthy password) && prompt).
    - unfold click_prompt. destruct (input_script w); [discriminate|].
      intros [= _ <-]. reflexivity.
    - intros [= _ <-]. reflexivity. }
  destruct ((if negb (truthy password) && prompt
             then click_prompt (Format "Password for {}" [user]) true
             else mret password) w) as [[p| |] w0]; try reflexivity.
  specialize (Hstep p w0 eq_refl).
  rewrite !request_attempt_run.
  destruct (get_new_token realm scope user p url insecure w0) as [[result|e|] w1] eqn:Hn;
    try reflexivity.
  destruct e; try reflexivity. destruct prompt; [|reflexivity].
  apply get_new_token_authentication_failed in Hn as (r & rest & Hs & _ & Hs1 & _).
  apply IH; unfold told_to_retry; simpl; rewrite Hs1; rewrite Hstep in Hs;
    rewrite Hs in *; simpl in *; lia.
Qed.

Lemma is_url_truthy (url : value) : is_url url = true -> truthy url = true.
Proof. destruct url; simpl; congruence. Qed.

Lemma request_url_given (url : value) (w : world) :
  is_url url = true -> request_url url w = url.
Proof. intros H. unfold request_url. rewrite (is_url_truthy _ H). reflexivity. Qed.

Lemma get_new_token_401 realm scope user password url insecure
    (w : world) (r : response) (rest : list http_outcome) :
  is_url url = true ->
  http_script w = Responded r :: rest ->
  status_code r = 401 ->
  get_new_token realm scope user password url insecure w
  = (Raise (token_service_returned r),
     requested realm scope user password url insecure rest w).
Proof.
  intros Hu Hs E.
  rewrite (get_new_token_responded _ _ _ _ _ _ w r rest)
    by (rewrite ?request_url_given; assumption).
  rewrite check_token_response_401, request_url_given by assumption. reflexivity.
Qed.

Lemma request_loop_no_prompt fuel realm scope user url insecure password
    (w w1 : world) (m : text) :
  get_new_token realm scope user password url insecure w
  = (Raise (AuthenticationFailed m), w1) ->
  request_loop (S fuel) realm scope user url insecure false password w
  = (Raise (AuthenticationFailed m), w1).
Proof.
  intros H. simpl. rewrite andb_false_r, bind_run, ret_run. cbn beta iota.
  rewrite request_attempt_run, H. reflexivity.
Qed.

Lemma request_loop_retry fuel realm scope user url insecure password
    (w w0 w1 : world) (p : value) (m : text) :
  (if negb (truthy password) then click_prompt (Format "Password for {}" [user]) true
   else mret password) w = (Return p, w0) ->
  get_new_token realm scope user p url insecure w0 = (Raise (AuthenticationFailed m), w1) ->
  request_loop (S fuel) realm scope user url insecure true password w
  = request_loop fuel realm scope user url insecure true VNone (told_to_retry m w1).
Proof.
  intros Hp Hn. simpl. rewrite andb_true_r, bind_run, Hp.
  rewrite request_attempt_run, Hn. reflexivity.
Qed.

Lemma request_named_token_no_prompt_401 scope realm name user password url insecure
    use_keyring (w : world) (r : response) (rest : list http_outcome) :
  is_url url = true ->
  http_script w = Responded r :: rest ->
  status_code r = 401 ->
  ∃ w1,
    request_named_token scope realm name user password url insecure use_keyring false w
    = (Raise (token_service_returned r), w1) ∧
    http_script w1 = rest ∧ input_script w1 = input_script w ∧
    tokens_file w1 = tokens_file w.
Proof.
  intros Hu Hs E. unfold request_named_token. rewrite bind_run.
  destruct (truthy password).
  - rewrite ret_run. cbn beta iota. unfold get_world at 1. rewrite bind_run. cbn beta iota.
    rewrite bind_run.
    rewrite (request_loop_no_prompt _ _ _ _ _ _ _ _ _ _
               (get_new_token_401 realm scope user password url insecure w r rest Hu Hs E)).
    eexists. split; [reflexivity|]. repeat split.
  - unfold keyring_get_password at 1. cbn beta iota.
    unfold get_world at 1. rewrite bind_run. cbn beta iota. rewrite bind_run.
    erewrite request_loop_no_prompt by (apply get_new_token_401; eassumption).
    eexists. split; [reflexivity|]. repeat split.
Qed.

Lemma bind_keeps_from {A B} (c : M A) (f : A -> M B) (w : world) (t : list event) :
  t `suffix_of` trace (c w).2 -> (∀ a, keeps_trace (f a)) ->
  t `suffix_of` trace ((c ≫= f) w).2.
Proof.
  intros Ht Hf. rewrite bind_run.
  destruct (c w) as [[a|e|] w1]; simpl in *; try exact Ht.
  etrans; [exact Ht | apply Hf].
Qed.

(** Whatever follows, a turn of the loop has sent its request. *)
Lemma request_attempt_trace realm scope user url insecure prompt password
    (retry : M (value * value)) (w : world) :
  keeps_trace retry ->
  (EvHttpGet (request_url url w) (get_new_token_params realm scope)
     (Some (user, password)) (negb (truthy insecure)) None :: trace w)
    `suffix_of`
    trace (request_attempt realm scope user url insecure prompt password retry w).2.
Proof.
  intros Hr. rewrite request_attempt_run.
  pose proof (get_new_token_trace realm scope user password url insecure w) as Ht.
  destruct (get_new_token realm scope user password url insecure w) as [[result|e|] w1];
    simpl in Ht; rewrite <- Ht; try reflexivity.
  destruct e; try reflexivity. destruct prompt; [|reflexivity].
  etrans; [|apply Hr]. simpl. by do 2 apply suffix_cons_r.
Qed.

Lemma keeps_request_tail (name : string) (user : value) (use_keyring : bool) :
  ∀ a : value * value,
    keeps_trace (let '(result, password) := a in
                 (if truthy result && use_keyring
                  then keyring_set_password user password else mret tt);;
                 if name_given name then store_token name result else mret result).
Proof.
  intros [result password]. apply keeps_bind.
  { destruct (truthy result && use_keyring);
      [apply keeps_keyring_set_password | apply keeps_ret]. }
  intros _. destruct (name_given name); [apply keeps_store_token | apply keeps_ret].
Qed.

Lemma request_named_token_prompt_401 scope realm name user password url insecure
    use_keyring (w : world) (r : response) (rest : list http_outcome) :
  is_url url = true ->
  truthy password = true ->
  http_script w = Responded r :: rest ->
  status_code r = 401 ->
  asked_again realm scope user password url insecure r (trace w)
    `suffix_of`
    trace (request_named_token scope realm name user password url insecure
             use_keyring true w).2 ∧
  ∀ s inputs, input_script w = s :: inputs ->
    (EvHttpGet url (get_new_token_params realm scope) (Some (user, VStr s))
       (negb (truthy insecure)) None
     :: asked_again realm scope user password url insecure r (trace w))
      `suffix_of`
      trace (request_named_token scope realm name user password url insecure
               use_keyring true w).2.
Proof.
  intros Hu Hp Hs E.
  assert (request_loop (S (S (length rest))) realm scope user url insecure true password w
          = request_loop (S (length rest)) realm scope user url insecure true VNone
              (told_to_retry (Format "Token Service returned {}" [VStr (resp_text r)])
                 (requested realm scope user password url insecure rest w))) as Hloop.
  { apply (request_loop_retry _ _ _ _ _ _ _ w w _ password).
    - rewrite Hp. reflexivity.
    - by apply get_new_token_401. }
  unfold request_named_token.
  split; [|intros s inputs Hin];
    (rewrite bind_run, Hp, ret_run; cbn beta iota;
     unfold get_world at 1; rewrite bind_run; cbn beta iota;
     rewrite Hs; cbn [length]).
  - apply bind_keeps_from; [|apply keeps_request_tail].
    rewrite Hloop. cbn [request_loop]. cbn [truthy negb andb].
    apply bind_keeps_from.
    + unfold click_prompt. destruct (input_script _); reflexivity.
    + intros p. apply keeps_request_attempt, keeps_request_loop.
  - apply (bind_keeps_from
             (request_loop (S (S (length rest))) realm scope user url insecure true password));
      [|apply keeps_request_tail].
    rewrite Hloop. cbn [request_loop]. cbn [truthy negb andb].
    rewrite bind_run. unfold click_prompt at 1.
    change (input_script (told_to_retry _ (requested _ _ _ _ _ _ _ w)))
      with (input_script w).
    rewrite Hin. cbn beta iota.
    match goal with
    | |- _ `suffix_of` trace (request_attempt _ _ _ ?u _ _ _ ?k ?w3).2 =>
        rewrite <- (request_url_given u w3 Hu) at 1;
        apply (request_attempt_trace realm scope user u insecure true (VStr s) k w3)
    end.
    apply keeps_request_loop.
Qed.

Lemma issue_named_token_given_url scope realm name user password url insecure
    use_keyring prompt (w : world) :
  is_url (py_or url (dict_get (config_file w) "url")) = true ->
  issue_named_token scope realm name user password url insecure use_keyring prompt w
  = request_named_token scope realm name user password
      (py_or url (dict_get (config_file w) "url")) insecure use_keyring prompt
      (config_stored w).
Proof.
  intros Hu. unfold issue_named_token.
  rewrite bind_run. unfold get_config at 1. cbn beta iota.
  rewrite bind_run. unfold get_world at 1. cbn beta iota.
  rewrite bind_run, prompt_url_loop_skip
    by (rewrite (is_url_truthy _ Hu); reflexivity).
  cbn beta iota. rewrite bind_run. reflexivity.
Qed.

Lemma get_named_token_given_url scope realm name user password url insecure
    refresh use_keyring prompt (w : world) :
  (name_given name && negb refresh = true ->
   ∃ token, (get_existing_token name w).1 = Return token ∧ truthy token = false) ->
  (name_given name && negb (truthy realm) = true ->
   ∃ access_token,
     (get_service_token name scope w).1 = Return access_token ∧
     truthy access_token = false) ->
  is_url (py_or url (dict_get (config_file w) "url")) = true ->
  get_named_token scope realm name user password url insecure refresh use_keyring prompt w
  = request_named_token scope realm name user password
      (py_or url (dict_get (config_file w) "url")) insecure use_keyring prompt
      (config_stored (with_trace w (service_attempt name scope realm ++ trace w))).
Proof.
  intros Hcache Hservice Hu.
  rewrite (get_named_token_issues _ _ _ _ _ _ _ _ _ _ _ Hcache Hservice).
  by rewrite issue_named_token_given_url.
Qed.

(** [get_token] once it has found no cached token and no service token, a
    user and a URL: it asks for the password and makes its one request. *)
Lemma get_token_requests (name : string) (scopes : list string) (w : world)
    (token access_token : value) :
  (get_existing_token name w).1 = Return token -> truthy token = false ->
  (get_service_token name scopes w).1 = Return access_token -> truthy access_token = false ->
  truthy (py_or (py_or (dict_get (config_file w) "user") (getenv w "ZIGN_USER"))
            (getenv w "USER")) = true ->
  truthy (dict_get (config_file w) "url") = true ->
  get_token name scopes w
  = (let user := py_or (py_or (dict_get (config_file w) "user") (getenv w "ZIGN_USER"))
                   (getenv w "USER") in
     password ← (if truthy (getenv w "ZIGN_PASSWORD") then mret (getenv w "ZIGN_PASSWORD")
                 else keyring_get_password user);
     token ← get_new_token (dict_get (config_file w) "realm") scopes user password
               (dict_get (config_file w) "url") (dict_get (config_file w) "insecure");
     if truthy token then
       token ← store_token name token;
       value_getitem token "access_token"
     else mret VNone)
      (with_trace w (EvTokensManage name scopes :: trace w)).
Proof.
  intros He Ht Hs Ha Huser Hurl.
  apply (pure_run _ _ _ (pure_get_existing_token name)) in He.
  assert (get_service_token name scopes w
          = (Return access_token, with_trace w (EvTokensManage name scopes :: trace w)))
    as Hs'.
  { rewrite <- get_service_token_world, <- Hs. apply surjective_pairing. }
  unfold get_token. rewrite (bind_return _ _ _ _ _ He), Ht.
  rewrite (bind_return _ _ _ _ _ Hs'), Ha.
  rewrite bind_run. unfold get_config at 1. cbn beta iota.
  rewrite bind_run. unfold os_getenv at 1. cbn beta iota.
  rewrite bind_run. unfold os_getenv at 1. cbn beta iota.
  cbn [config_file with_trace].
  change (getenv (with_trace w (EvTokensManage name scopes :: trace w))) with (getenv w).
  cbv zeta. rewrite Huser, Hurl. cbn [negb].
  rewrite bind_run. unfold os_getenv at 1. cbn beta iota.
  change (getenv (with_trace w (EvTokensManage name scopes :: trace w))) with (getenv w).
  reflexivity.
Qed.

Lemma get_token_401 (name : string) (scopes : list string) (w : world)
    (token access_token : value) (r : response) (rest : list http_outcome) :
  (get_existing_token name w).1 = Return token -> truthy token = false ->
  (get_service_token name scopes w).1 = Return access_token -> truthy access_token = false ->
  truthy (py_or (py_or (dict_get (config_file w) "user") (getenv w "ZIGN_USER"))
            (getenv w "USER")) = true ->
  is_url (dict_get (config_file w) "url") = true ->
  http_script w = Responded r :: rest ->
  status_code r = 401 ->
  ∃ w1,
    get_token name scopes w = (Raise (token_service_returned r), w1) ∧
    http_script w1 = rest ∧ input_script w1 = input_script w ∧
    tokens_file w1 = tokens_file w.
Proof.
  intros He Ht Hs Ha Huser Hurl Hscript E.
  rewrite (get_token_requests name scopes w token access_token He Ht Hs Ha Huser
             (is_url_truthy _ Hurl)).
  cbv zeta. rewrite bind_run.
  destruct (truthy (getenv w "ZIGN_PASSWORD")).
  - rewrite ret_run. cbn beta iota.
    erewrite bind_raise by (apply get_new_token_401; eassumption).
    eexists. split; [reflexivity|]. repeat split.
  - unfold keyring_get_password at 1. cbn beta iota.
    erewrite bind_raise by (apply get_new_token_401; eassumption).
    eexists. split; [reflexivity|]. repeat split.
Qed.

(** C2: in the loop of [get_named_token], when [get_new_token] raises
    [AuthenticationFailed] and [prompt] is true, the loop goes on with the
    password cleared, and its next turn starts by prompting for a password;
    seen from outside, a call with a password and a URL whose first request is
    answered 401 tells the user, prompts for the password again and sends a
    second request with what the user types. When [prompt] is false the
    exception leaves the loop and [get_named_token] after that one request.
    In [get_token] the exception always leaves the function after its one
    request: nothing is prompted for and no token is stored. *)
Theorem authentication_failed_handling (scope : list string) (realm user insecure : value) :
  (∀ fuel url password p m (w w0 w1 : world),
     (if negb (truthy password) then click_prompt (Format "Password for {}" [user]) true
      else mret password) w = (Return p, w0) ->
     get_new_token realm scope user p url insecure w0
     = (Raise (AuthenticationFailed m), w1) ->
     request_loop (S (S fuel)) realm scope user url insecure true password w
     = (password ← click_prompt (Format "Password for {}" [user]) true;
        request_attempt realm scope user url insecure true password
          (request_loop fuel realm scope user url insecure true VNone))
         (told_to_retry m w1)) ∧
  (∀ name password url refresh use_keyring (w : world) r rest,
     not_cut_short name scope realm refresh w ->
     is_url (py_or url (dict_get (config_file w) "url")) = true ->
     truthy password = true ->
     http_script w = Responded r :: rest ->
     status_code r = 401 ->
     asked_again realm scope user password (py_or url (dict_get (config_file w) "url"))
       insecure r (EvStoreConfig (config_file w) :: service_attempt name scope realm ++ trace w)
       `suffix_of`
       trace (get_named_token scope realm name user password url insecure
                refresh use_keyring true w).2 ∧
     ∀ s inputs, input_script w = s :: inputs ->
       (EvHttpGet (py_or url (dict_get (config_file w) "url"))
          (get_new_token_params realm scope) (Some (user, VStr s))
          (negb (truthy insecure)) None
        :: asked_again realm scope user password
             (py_or url (dict_get (config_file w) "url")) insecure r
             (EvStoreConfig (config_file w) :: service_attempt name scope realm ++ trace w))
         `suffix_of`
         trace (get_named_token scope realm name user password url insecure
                  refresh use_keyring true w).2) ∧
  (∀ fuel url password m (w w1 : world),
     get_new_token realm scope user password url insecure w
     = (Raise (AuthenticationFailed m), w1) ->
     request_loop (S fuel) realm scope user url insecure false password w
     = (Raise (AuthenticationFailed m), w1)) ∧
  (∀ name password url refresh use_keyring (w : world) r rest,
     not_cut_short name scope realm refresh w ->
     is_url (py_or url (dict_get (config_file w) "url")) = true ->
     http_script w = Responded r :: rest ->
     status_code r = 401 ->
     ∃ w1,
       get_named_token scope realm name user password url insecure refresh use_keyring false w
       = (Raise (token_service_returned r), w1) ∧
       http_script w1 = rest ∧ input_script w1 = input_script w ∧
       tokens_file w1 = tokens_file w) ∧
  (∀ name (w : world) token access_token r rest,
     (get_existing_token name w).1 = Return token -> truthy token = false ->
     (get_service_token name scope w).1 = Return access_token ->
     truthy access_token = false ->
     truthy (py_or (py_or (dict_get (config_file w) "user") (getenv w "ZIGN_USER"))
               (getenv w "USER")) = true ->
     is_url (dict_get (config_file w) "url") = true ->
     http_script w = Responded r :: rest ->
     status_code r = 401 ->
     ∃ w1,
       get_token name scope w = (Raise (token_service_returned r), w1) ∧
       http_script w1 = rest ∧ input_script w1 = input_script w ∧
       tokens_file w1 = tokens_file w).
Proof.
  split; [|split; [|split; [|split]]].
  - intros fuel url password p m w w0 w1 Hp Hn.
    by rewrite (request_loop_retry _ _ _ _ _ _ _ _ _ _ _ _ Hp Hn).
  - intros name password url refresh use_keyring w r rest [Hc Hs] Hu Hp Hscript E.
    rewrite (get_named_token_given_url _ _ _ _ _ _ _ _ _ _ _ Hc Hs Hu).
    by apply (request_named_token_prompt_401 scope realm name user password _ insecure
                use_keyring
                (config_stored (with_trace w (service_attempt name scope realm ++ trace w)))
                r rest).
  - intros fuel url password m w w1 Hn. by apply request_loop_no_prompt.
  - intros name password url refresh use_keyring w r rest [Hc Hs] Hu Hscript E.
    rewrite (get_named_token_given_url _ _ _ _ _ _ _ _ _ _ _ Hc Hs Hu).
    by apply (request_named_token_no_prompt_401 scope realm name user password _ insecure
                use_keyring
                (config_stored (with_trace w (service_attempt name scope realm ++ trace w)))
                r rest).
  - intros name w token access_token r rest. apply get_token_401.
Qed.

Lemma authentication_failed_handling_witness :
  (EvHttpGet (VStr service_url) (get_new_token_params VNone ["uid"])
     (Some (VStr "jdoe", VStr "s3cret")) true None
   :: asked_again VNone ["uid"] (VStr "jdoe") (VStr "wrong") (VStr service_url) (VBool false)
        rejecting [EvStoreConfig ∅])
    `suffix_of`
    trace (get_named_token ["uid"] VNone "" (VStr "jdoe") (VStr "wrong") (VStr service_url)
             (VBool false) false false true interactive_world).2 ∧
  (∃ w1,
     get_named_token ["uid"] VNone "" (VStr "jdoe") (VStr "wrong") (VStr service_url)
       (VBool false) false false false interactive_world
     = (Raise (token_service_returned rejecting), w1) ∧
     http_script w1 = [Responded (token_response (VStr "t0k3n"))] ∧
     input_script w1 = ["s3cret"] ∧ tokens_file w1 = FileMissing) ∧
  (∃ w1,
     get_token "mytok" ["uid"] configured_world
     = (Raise (token_service_returned rejecting), w1) ∧
     http_script w1 = [] ∧ input_script w1 = [] ∧ tokens_file w1 = FileMissing).
Proof.
  assert (not_cut_short "" ["uid"] VNone false interactive_world) as Hn.
  { split; intros H; discriminate H. }
  destruct (authentication_failed_handling ["uid"] VNone (VStr "jdoe") (VBool false))
    as (_ & Hprompt & _ & Hquiet & Htoken).
  split; [|split].
  - apply (proj2 (Hprompt "" (VStr "wrong") (VStr service_url) false false
                    interactive_world rejecting
                    [Responded (token_response (VStr "t0k3n"))]
                    Hn eq_refl eq_refl eq_refl eq_refl) "s3cret" []).
    reflexivity.
  - apply (Hquiet "" (VStr "wrong") (VStr service_url) false false interactive_world
             rejecting [Responded (token_response (VStr "t0k3n"))] Hn eq_refl eq_refl eq_refl).
  - apply (Htoken "mytok" configured_world VNone VNone rejecting []
             eq_refl eq_refl eq_refl eq_refl eq_refl eq_refl eq_refl eq_refl).
Defined.

(** The interactive call of the witness from beginning to end, oldest event
    last: the configuration written back, the request with the wrong
    password, the two messages, the prompt, the request with the password
    that was typed; the result is the body of the second answer. *)
Example get_named_token_retry_trace :
  get_named_token ["uid"] VNone "" (VStr "jdoe") (VStr "wrong") (VStr service_url)
    (VBool false) false false true interactive_world
  = (Return (VDict {[ "access_token" := VStr "t0k3n"; "expires_in" := VNum 3600 ]}),
     {| clock := 1700000000; tokens_file := FileMissing; config_file := ∅; keyring_db := ∅;
        environ := ∅; tokens_lib := λ _, inr TokensConfigurationError;
        http_script := []; input_script := [];
        trace :=
          [ EvHttpGet (VStr service_url) {[ "json" := VStr "true"; "scope" := VStr "uid" ]}
              (Some (VStr "jdoe", VStr "s3cret")) true None;
            EvPrompt (Format "Password for {}" [VStr "jdoe"]) true;
            EvInfo try_again;
            EvError (FormatText "Authentication failed: {}"
                       (Format "Token Service returned {}" [VStr "Unauthorized"]));
            EvHttpGet (VStr service_url) {[ "json" := VStr "true"; "scope" := VStr "uid" ]}
              (Some (VStr "jdoe", VStr "wrong")) true None;
            EvStoreConfig ∅ ] |}).
Proof. vm_compute. reflexivity. Qed.

(** * Further properties of the module *)

(** ** Looking a token up in the store *)

Lemma get_existing_token_run (name : string) (cache : gmap string value) (w : world) :
  get_tokens w = (Return (VDict cache), w) ->
  get_existing_token name w
  = (valid ← is_valid (dict_get cache name);
     if truthy valid then mret (dict_get cache name) else mret VNone) w.
Proof.
  intros H. unfold get_existing_token. rewrite (bind_return _ _ _ _ _ H). reflexivity.
Qed.

Lemma get_existing_token_record (name : string) (cache d : gmap string value)
    (c e : Z) (w : world) :
  get_tokens w = (Return (VDict cache), w) ->
  cache !! name = Some (VDict d) ->
  field_number d "creation_time" = Some c ->
  field_number d "expires_in" = Some e ->
  get_existing_token name w
  = (Return (if bool_decide (d ≠ ∅) && (clock w <? c + e - 300)
             then VDict d else VNone), w).
Proof.
  intros H Hl Hc He. rewrite (get_existing_token_run name cache w H). unfold dict_get.
  rewrite Hl. cbn [default].
  destruct (decide (d = ∅)) as [->|Hd].
  - rewrite (bind_return _ _ _ _ _ (is_valid_empty_record w)). reflexivity.
  - rewrite (bind_return _ _ _ _ _ (is_valid_record d c e w Hd Hc He)).
    rewrite (bool_decide_eq_true_2 _ Hd). cbn [truthy andb].
    destruct (clock w <? c + e - 300); reflexivity.
Qed.

(** X1: what [get_existing_token] gives from a cache that is a mapping:
    [None] for a name that is not there or whose entry is false; for an entry
    that is a record with numeric (or no) time fields, the record when it is
    not empty and [now < creation_time + expires_in - 300], and [None]
    otherwise. The world is left as it is. *)
Theorem get_existing_token_lookup (name : string) (cache : gmap string value) (w : world) :
  get_tokens w = (Return (VDict cache), w) ->
  (cache !! name = None -> get_existing_token name w = (Return VNone, w)) ∧
  (∀ v, cache !! name = Some v -> truthy v = false ->
     get_existing_token name w = (Return VNone, w)) ∧
  (∀ d c e, cache !! name = Some (VDict d) ->
     field_number d "creation_time" = Some c ->
     field_number d "expires_in" = Some e ->
     get_existing_token name w
     = (Return (if bool_decide (d ≠ ∅) && (clock w <? c + e - 300)
                then VDict d else VNone), w)).
Proof.
  intros H. split; [|split].
  - intros Hl. rewrite (get_existing_token_run name cache w H). unfold dict_get.
    rewrite Hl. cbn [default].
    rewrite (bind_return _ _ _ _ _ (is_valid_falsy VNone w eq_refl)). reflexivity.
  - intros v Hl Hv. rewrite (get_existing_token_run name cache w H). unfold dict_get.
    rewrite Hl. cbn [default].
    rewrite (bind_return _ _ _ _ _ (is_valid_falsy v w Hv)), Hv. reflexivity.
  - intros d c e Hl Hc He. by apply (get_existing_token_record name cache).
Qed.

Lemma get_existing_token_lookup_witness :
  get_existing_token "other" cached_world = (Return (VDict sample_record), cached_world) ∧
  get_existing_token "other" (with_clock cached_world (1700000000 + 3300))
  = (Return VNone, with_clock cached_world (1700000000 + 3300)) ∧
  get_existing_token "mytok" cached_world = (Return VNone, cached_world).
Proof.
  split; [|split].
  - apply (proj2 (proj2 (get_existing_token_lookup "other"
                           {[ "other" := VDict sample_record ]} cached_world eq_refl))
             sample_record 1700000000 3600 eq_refl eq_refl eq_refl).
  - apply (proj2 (proj2 (get_existing_token_lookup "other"
                           {[ "other" := VDict sample_record ]}
                           (with_clock cached_world (1700000000 + 3300)) eq_refl))
             sample_record 1700000000 3600 eq_refl eq_refl eq_refl).
  - apply (proj1 (get_existing_token_lookup "mytok"
                    {[ "other" := VDict sample_record ]} cached_world eq_refl)).
    reflexivity.
Defined.

(** ** A token file that is no mapping *)

(** X2: when the token file parses to something true that is no mapping (a
    list, a string, a number), [get_tokens] hands it out as the cache, and
    every user of the cache fails: [get_existing_token] and with it
    [get_token] and a [get_named_token] that looks for a cached token raise
    [AttributeError], and [store_token] raises [TypeError]; nothing is
    written. *)
Theorem token_file_not_a_mapping (v : value) (w : world) :
  tokens_file w = FileData v ->
  truthy v = true ->
  (∀ d, v ≠ VDict d) ->
  get_tokens w = (Return v, w) ∧
  (∀ name, get_existing_token name w = (Raise AttributeError, w)) ∧
  (∀ name scopes, get_token name scopes w = (Raise AttributeError, w)) ∧
  (∀ scope realm name user password url insecure use_keyring prompt,
     name_given name = true ->
     get_named_token scope realm name user password url insecure false use_keyring prompt w
     = (Raise AttributeError, w)) ∧
  (∀ name result, store_token name result w = (Raise TypeError, w)).
Proof.
  intros Hf Hv Hd.
  assert (get_tokens w = (Return v, w)) as Hg.
  { rewrite get_tokens_run, Hf. unfold py_or. rewrite Hv. reflexivity. }
  assert (∀ name, get_existing_token name w = (Raise AttributeError, w)) as He.
  { intros name. unfold get_existing_token. rewrite (bind_return _ _ _ _ _ Hg).
    destruct v; try reflexivity. by destruct (Hd d). }
  repeat split; try assumption.
  - intros name scopes. unfold get_token. by rewrite (bind_raise _ _ _ _ _ (He name)).
  - intros scope realm name user password url insecure use_keyring prompt Hn.
    unfold get_named_token. cbv zeta. rewrite Hn. cbn [negb andb].
    by rewrite (bind_raise _ _ _ _ _ (He name)).
  - intros name result. unfold store_token. rewrite (bind_return _ _ _ _ _ Hg).
    destruct v; try reflexivity. by destruct (Hd d).
Qed.

Lemma token_file_not_a_mapping_witness :
  get_token "mytok" ["uid"]
    (with_tokens_file (quiet_world 0) (FileData (VStr "not a mapping")))
  = (Raise AttributeError,
     with_tokens_file (quiet_world 0) (FileData (VStr "not a mapping"))).
Proof.
  apply (token_file_not_a_mapping (VStr "not a mapping")
           (with_tokens_file (quiet_world 0) (FileData (VStr "not a mapping")))
           eq_refl eq_refl).
  intros d. discriminate.
Defined.

(** X3: a record that is not empty and holds something that is no number in
    [creation_time] or in [expires_in] (a string, say, or [None]) makes
    [is_valid] raise [TypeError], and [get_existing_token] with it. *)
Theorem is_valid_type_error (d : gmap string value) (w : world) :
  d ≠ ∅ ->
  field_number d "creation_time" = None ∨ field_number d "expires_in" = None ->
  is_valid (VDict d) w = (Raise TypeError, w) ∧
  ∀ name cache, get_tokens w = (Return (VDict cache), w) ->
    cache !! name = Some (VDict d) ->
    get_existing_token name w = (Raise TypeError, w).
Proof.
  intros Hd Hn.
  assert (is_valid (VDict d) w = (Raise TypeError, w)) as Hv.
  { unfold is_valid. rewrite bind_run. simpl.
    rewrite bool_decide_eq_false_2 by exact Hd. simpl.
    unfold field_number in Hn. run. unfold py_add.
    destruct (as_number (dict_get_default d "creation_time" (VNum 0))) as [c|] eqn:Hc,
             (as_number (dict_get_default d "expires_in" (VNum 0))) as [e|] eqn:He.
    - destruct Hn; discriminate.
    - destruct (dict_get_default d "creation_time" (VNum 0)); try discriminate;
        reflexivity.
    - destruct (dict_get_default d "creation_time" (VNum 0)); try discriminate;
        destruct (dict_get_default d "expires_in" (VNum 0)); try discriminate;
        reflexivity.
    - destruct (dict_get_default d "creation_time" (VNum 0)); try discriminate;
        destruct (dict_get_default d "expires_in" (VNum 0)); try discriminate;
        reflexivity. }
  split; [exact Hv|]. intros name cache Hg Hl.
  rewrite (get_existing_token_run name cache w Hg). unfold dict_get. rewrite Hl.
  cbn [default]. by rewrite (bind_raise _ _ _ _ _ Hv).
Qed.

Lemma is_valid_type_error_witness :
  is_valid (VDict {[ "access_token" := VStr "abc"; "expires_in" := VStr "3600" ]})
    (quiet_world 1700000000)
  = (Raise TypeError, quiet_world 1700000000).
Proof.
  refine (proj1 (is_valid_type_error
                   {[ "access_token" := VStr "abc"; "expires_in" := VStr "3600" ]}
                   (quiet_world 1700000000) _ _)).
  - apply insert_non_empty.
  - right. reflexivity.
Defined.

(** ** Storing and finding again *)

Lemma field_number_stamped (record : gmap string value) (now : Z) :
  field_number (stamped record now) "creation_time" = Some now ∧
  field_number (stamped record now) "expires_in" = field_number record "expires_in".
Proof.
  unfold field_number, dict_get_default, stamped.
  rewrite lookup_insert_eq, lookup_insert_ne by discriminate. by split.
Qed.

Lemma get_tokens_stored (name : string) (record cache : gmap string value)
    (w : world) (later : Z) :
  get_tokens w = (Return (VDict cache), w) ->
  get_tokens (with_clock (store_token name (VDict record) w).2 later)
  = (Return (VDict (<[name := VDict (stamped record (clock w))]> cache)),
     with_clock (store_token name (VDict record) w).2 later).
Proof.
  intros H. rewrite (store_token_run _ _ _ _ H), get_tokens_run. simpl.
  unfold py_or. simpl. rewrite bool_decide_eq_false_2 by apply insert_non_empty.
  reflexivity.
Qed.

(** X4: a record that was stored is found again by [get_existing_token] as
    long as [now < time of the save + expires_in - 300], and no longer
    after that; so a token issued for 300 seconds or less is never served
    from the cache, not even at the moment it was stored. *)
Theorem store_token_then_get_existing (name : string) (record cache : gmap string value)
    (w : world) (e later : Z) :
  get_tokens w = (Return (VDict cache), w) ->
  field_number record "expires_in" = Some e ->
  get_existing_token name (with_clock (store_token name (VDict record) w).2 later)
  = (Return (if later <? clock w + e - 300
             then VDict (stamped record (clock w)) else VNone),
     with_clock (store_token name (VDict record) w).2 later) ∧
  (e <= 300 ->
   get_existing_token name (with_clock (store_token name (VDict record) w).2 (clock w))
   = (Return VNone, with_clock (store_token name (VDict record) w).2 (clock w))).
Proof.
  intros H He.
  assert (∀ t, get_existing_token name (with_clock (store_token name (VDict record) w).2 t)
               = (Return (if t <? clock w + e - 300
                          then VDict (stamped record (clock w)) else VNone),
                  with_clock (store_token name (VDict record) w).2 t)) as Hget.
  { intros t.
    destruct (field_number_stamped record (clock w)) as [Hc He'].
    rewrite He in He'.
    rewrite (get_existing_token_record name _ (stamped record (clock w)) (clock w) e _
               (get_tokens_stored name record cache w t H)
               (lookup_insert_eq _ _ _) Hc He').
    rewrite bool_decide_eq_true_2 by apply insert_non_empty. reflexivity. }
  split; [apply Hget|].
  intros Hle. rewrite Hget.
  replace (clock w <? clock w + e - 300) with false; [reflexivity|].
  symmetry. apply Z.ltb_ge. lia.
Qed.

Lemma store_token_then_get_existing_witness :
  get_existing_token "mytok"
    (with_clock (store_token "mytok" (VDict sample_record) cached_world).2
       (1700000000 + 3299))
  = (Return (VDict (stamped sample_record 1700000000)),
     with_clock (store_token "mytok" (VDict sample_record) cached_world).2
       (1700000000 + 3299)).
Proof.
  apply (proj1 (store_token_then_get_existing "mytok" sample_record
                  {[ "other" := VDict sample_record ]} cached_world 3600
                  (1700000000 + 3299) eq_refl eq_refl)).
Defined.

(** X5: saves add up. After [store_token(name, r1)] and then
    [store_token(other, r2)] the cache holds [r2] under [other], [r1] under
    [name] unless [other] is the same name (the later save wins), and every
    entry under another name as before the two saves. *)
Theorem store_token_twice (name other : string) (r1 r2 cache : gmap string value)
    (w : world) :
  get_tokens w = (Return (VDict cache), w) ->
  ∃ w2 cache2,
    store_token other (VDict r2) (store_token name (VDict r1) w).2
    = (Return (VDict (stamped r2 (clock w))), w2) ∧
    get_tokens w2 = (Return (VDict cache2), w2) ∧
    cache2 !! other = Some (VDict (stamped r2 (clock w))) ∧
    (other ≠ name -> cache2 !! name = Some (VDict (stamped r1 (clock w)))) ∧
    (∀ k, k ≠ name -> k ≠ other -> cache2 !! k = cache !! k).
Proof.
  intros H. rewrite (store_token_run name r1 cache w H). cbn [snd].
  assert (∀ (k : string) (r c : gmap string value) (w0 : world),
            get_tokens (with_trace (with_tokens_file w0 (FileData (VDict (<[k := VDict r]> c))))
                          (EvWriteTokens (<[k := VDict r]> c) :: trace w0))
            = (Return (VDict (<[k := VDict r]> c)),
               with_trace (with_tokens_file w0 (FileData (VDict (<[k := VDict r]> c))))
                 (EvWriteTokens (<[k := VDict r]> c) :: trace w0))) as Hload.
  { intros k r c w0. rewrite get_tokens_run. simpl. unfold py_or. simpl.
    rewrite bool_decide_eq_false_2 by apply insert_non_empty. reflexivity. }
  rewrite (store_token_run other r2 _ _ (Hload name _ cache w)). cbn [clock with_trace].
  do 2 eexists. split; [reflexivity|].
  split; [apply Hload|].
  split; [apply lookup_insert_eq|].
  split.
  - intros Hne. rewrite lookup_insert_ne by exact Hne. apply lookup_insert_eq.
  - intros k Hn Ho. by rewrite !lookup_insert_ne.
Qed.

Lemma store_token_twice_witness :
  ∃ w2 cache2,
    store_token "mytok" (VDict {[ "access_token" := VStr "new" ]})
      (store_token "mytok" (VDict {[ "access_token" := VStr "old" ]}) cached_world).2
    = (Return (VDict (stamped {[ "access_token" := VStr "new" ]} 1700000000)), w2) ∧
    get_tokens w2 = (Return (VDict cache2), w2) ∧
    cache2 !! "mytok"
    = Some (VDict (stamped {[ "access_token" := VStr "new" ]} 1700000000)) ∧
    cache2 !! "other" = Some (VDict sample_record).
Proof.
  destruct (store_token_twice "mytok" "mytok" {[ "access_token" := VStr "old" ]}
              {[ "access_token" := VStr "new" ]} {[ "other" := VDict sample_record ]}
              cached_world eq_refl) as (w2 & cache2 & Hs & Hg & Hl & _ & Hk).
  exists w2, cache2. repeat split; try assumption.
  rewrite Hk by discriminate. reflexivity.
Defined.

(** X6: [store_token] writes nothing unless it is given a dictionary: for
    any other result (a [None], a string, a list) it raises [TypeError] and
    leaves the token file and the rest of the world as they were. *)
Theorem store_token_not_a_record (name : string) (result : value) (w : world) :
  (∀ r, result ≠ VDict r) ->
  store_token name result w = (Raise TypeError, w).
Proof.
  intros Hr. unfold store_token. rewrite bind_run, get_tokens_run. cbn beta iota.
  destruct (match tokens_file w with
            | FileData data => py_or data (VDict ∅)
            | _ => VDict ∅
            end); try reflexivity.
  destruct result; try reflexivity. by destruct (Hr d0).
Qed.

Lemma store_token_not_a_record_witness :
  store_token "mytok" VNone cached_world = (Raise TypeError, cached_world).
Proof. apply store_token_not_a_record. intros r. discriminate. Defined.

(** ** [get_token]: the three ways to a token *)

(** X7: when the cache holds a valid record under the name, [get_token]
    returns the [access_token] of that record and does nothing else: the
    [tokens] library is not asked, nothing is sent, the world is as before.
    A valid record without the field makes it raise [KeyError]. *)
Theorem get_token_cached (name : string) (scopes : list string) (w : world)
    (d : gmap string value) :
  get_existing_token name w = (Return (VDict d), w) ->
  d ≠ ∅ ->
  get_token name scopes w
  = (match d !! "access_token" with
     | Some access_token => Return access_token
     | None => Raise KeyError
     end, w).
Proof.
  intros He Hd. unfold get_token. rewrite (bind_return _ _ _ _ _ He).
  cbn [truthy]. rewrite bool_decide_eq_false_2 by exact Hd. cbn [negb value_getitem].
  destruct (d !! "access_token"); reflexivity.
Qed.

Lemma get_token_cached_witness :
  get_token "other" ["uid"] cached_world = (Return (VStr "t0k3n"), cached_world).
Proof.
  apply (get_token_cached "other" ["uid"] cached_world sample_record eq_refl).
  apply insert_non_empty.
Defined.

(** X8: with no valid cached token, a true token from [tokens.get] is what
    [get_token] returns; only [tokens.manage] was called on the way: no
    configuration is needed, no password is looked for, nothing is sent and
    nothing is stored. *)
Theorem get_token_service_token (name : string) (scopes : list string) (w : world)
    (token access_token : value) :
  (get_existing_token name w).1 = Return token -> truthy token = false ->
  tokens_lib w name = inl access_token -> truthy access_token = true ->
  get_token name scopes w
  = (Return access_token, with_trace w (EvTokensManage name scopes :: trace w)).
Proof.
  intros He Ht Hl Ha.
  apply (pure_run _ _ _ (pure_get_existing_token name)) in He.
  unfold get_token. rewrite (bind_return _ _ _ _ _ He), Ht.
  rewrite bind_run, get_service_token_run, Hl. cbv zeta. cbn beta iota.
  rewrite Ha. reflexivity.
Qed.

Lemma get_token_service_token_witness :
  get_token "mytok" ["uid"] service_world
  = (Return (VStr "s3rv1c3"),
     with_trace service_world (EvTokensManage "mytok" ["uid"] :: trace service_world)).
Proof.
  apply (get_token_service_token "mytok" ["uid"] service_world VNone (VStr "s3rv1c3")
           eq_refl eq_refl eq_refl eq_refl).
Defined.

Lemma get_tokens_mapping_file (cache : gmap string value) (w : world) :
  tokens_file w = FileData (VDict cache) -> cache ≠ ∅ ->
  get_tokens w = (Return (VDict cache), w).
Proof.
  intros Hf Hc. rewrite get_tokens_run, Hf. unfold py_or. simpl.
  rewrite bool_decide_eq_false_2 by exact Hc. reflexivity.
Qed.

Lemma get_tokens_same_file (w w' : world) (data : value) :
  tokens_file w' = tokens_file w ->
  get_tokens w = (Return data, w) -> get_tokens w' = (Return data, w').
Proof.
  intros Hf. rewrite !get_tokens_run, Hf. intros [= <-]. reflexivity.
Qed.

(** A call of [get_existing_token] that returns has read a mapping. *)
Lemma get_existing_token_reads_mapping (name : string) (w : world) (token : value) :
  (get_existing_token name w).1 = Return token ->
  ∃ cache, get_tokens w = (Return (VDict cache), w).
Proof.
  unfold get_existing_token. rewrite bind_run, get_tokens_run. cbn beta iota.
  destruct (match tokens_file w with
            | FileData data => py_or data (VDict ∅)
            | _ => VDict ∅
            end) as [| | | | |cache]; try discriminate.
  eauto.
Qed.

Lemma get_token_cached_run (name : string) (scopes : list string) (w : world)
    (d : gmap string value) :
  get_existing_token name w = (Return (VDict d), w) ->
  d ≠ ∅ ->
  get_token name scopes w
  = (match d !! "access_token" with
     | Some access_token => Return access_token
     | None => Raise KeyError
     end, w).
Proof.
  intros He Hd. unfold get_token. rewrite (bind_return _ _ _ _ _ He).
  cbn [truthy]. rewrite bool_decide_eq_false_2 by exact Hd. cbn [negb value_getitem].
  destruct (d !! "access_token"); reflexivity.
Qed.

Lemma dict_get_lookup (d : gmap string value) (k : string) (v : value) :
  d !! k = Some v -> dict_get d k = v.
Proof. intros H. unfold dict_get. rewrite H. reflexivity. Qed.

(** The request of [get_token] granted, and the token put into the store. *)
Lemma fetch_and_store (name : string) realm scopes user password url insecure
    (w : world) (r : response) (rest : list http_outcome)
    (d cache : gmap string value) (t : value) :
  is_url url = true ->
  http_script w = Responded r :: rest ->
  status_code r = 200 ->
  resp_json r = Some (VDict d) ->
  d !! "access_token" = Some t -> truthy t = true ->
  get_tokens w = (Return (VDict cache), w) ->
  ∃ w1,
    (token ← get_new_token realm scopes user password url insecure;
     if truthy token then
       token ← store_token name token;
       value_getitem token "access_token"
     else mret VNone) w = (Return t, w1) ∧
    clock w1 = clock w ∧ http_script w1 = rest ∧
    input_script w1 = input_script w ∧ config_file w1 = config_file w ∧
    keyring_db w1 = keyring_db w ∧
    tokens_file w1 = FileData (VDict (<[name := VDict (stamped d (clock w))]> cache)) ∧
    trace w1
    = EvWriteTokens (<[name := VDict (stamped d (clock w))]> cache)
      :: EvHttpGet url (get_new_token_params realm scopes) (Some (user, password))
           (negb (truthy insecure)) None
      :: trace w.
Proof.
  intros Hu Hs E Hj Hl Ht Hg.
  assert (d ≠ ∅) as Hd.
  { intros ->. rewrite lookup_empty in Hl. discriminate. }
  rewrite bind_run.
  rewrite (get_new_token_responded _ _ _ _ _ _ w r rest)
    by (rewrite ?request_url_given; assumption).
  rewrite check_token_response_200, Hj by exact E.
  rewrite (dict_get_lookup _ _ _ Hl), Ht. cbn beta iota.
  cbn [truthy]. rewrite bool_decide_eq_false_2 by exact Hd. cbn [negb].
  rewrite request_url_given by exact Hu.
  match goal with
  | |- context [(store_token name (VDict d) ≫= _) ?w0] =>
      assert (get_tokens w0 = (Return (VDict cache), w0)) as Hg0
        by (apply (get_tokens_same_file w); [reflexivity | exact Hg]);
      rewrite (bind_return _ _ _ _ _ (store_token_run name d cache w0 Hg0))
  end.
  cbn [value_getitem clock with_http_script with_trace]. unfold stamped at 1.
  rewrite lookup_insert_ne by discriminate. rewrite Hl.
  eexists. split; [reflexivity|]. repeat split.
Qed.

(** X9: with no valid cached token and no service token, a user and a URL
    configured, and a 200 answer that holds a true access token,
    [get_token] returns that token after its one request and has stored the
    record under the name, stamped with the time. If the record is good for
    more than 300 seconds from the time of the next call on, that is, the
    next [get_token] for the name comes at a time
    [later < time of the save + expires_in - 300], it returns the same token
    from the cache: no second request, no change of the world. From that
    time on the cache no longer serves the record. *)
Theorem get_token_fetches_and_caches (name : string) (scopes : list string) (w : world)
    (token access_token : value) (r : response) (rest : list http_outcome)
    (d : gmap string value) (t : value) :
  (get_existing_token name w).1 = Return token -> truthy token = false ->
  (get_service_token name scopes w).1 = Return access_token -> truthy access_token = false ->
  truthy (py_or (py_or (dict_get (config_file w) "user") (getenv w "ZIGN_USER"))
            (getenv w "USER")) = true ->
  is_url (dict_get (config_file w) "url") = true ->
  http_script w = Responded r :: rest ->
  status_code r = 200 ->
  resp_json r = Some (VDict d) ->
  d !! "access_token" = Some t -> truthy t = true ->
  ∃ w1 cache,
    get_token name scopes w = (Return t, w1) ∧
    http_script w1 = rest ∧
    get_tokens w = (Return (VDict cache), w) ∧
    get_tokens w1 = (Return (VDict (<[name := VDict (stamped d (clock w))]> cache)), w1) ∧
    (∀ e later, field_number d "expires_in" = Some e ->
       (later < clock w + e - 300 ->
        get_token name scopes (with_clock w1 later) = (Return t, with_clock w1 later)) ∧
       (clock w + e - 300 <= later ->
        get_existing_token name (with_clock w1 later)
        = (Return VNone, with_clock w1 later))).
Proof.
  intros He Ht Hs Ha Huser Hurl Hscript E Hj Hl Htt.
  destruct (get_existing_token_reads_mapping name w token He) as [cache Hg].
  rewrite (get_token_requests name scopes w token access_token He Ht Hs Ha Huser
             (is_url_truthy _ Hurl)).
  cbv zeta. rewrite bind_run.
  assert (∀ w0 : world,
            clock w0 = clock w -> tokens_file w0 = tokens_file w ->
            http_script w0 = http_script w ->
            ∀ password,
            ∃ w1 cache0,
              (token0 ← get_new_token (dict_get (config_file w) "realm") scopes
                          (py_or (py_or (dict_get (config_file w) "user")
                                    (getenv w "ZIGN_USER")) (getenv w "USER"))
                          password (dict_get (config_file w) "url")
                          (dict_get (config_file w) "insecure");
               if truthy token0 then
                 token1 ← store_token name token0;
                 value_getitem token1 "access_token"
               else mret VNone) w0 = (Return t, w1) ∧
              http_script w1 = rest ∧
              get_tokens w = (Return (VDict cache0), w) ∧
              get_tokens w1
              = (Return (VDict (<[name := VDict (stamped d (clock w))]> cache0)), w1) ∧
              (∀ e later, field_number d "expires_in" = Some e ->
                 (later < clock w + e - 300 ->
                  get_token name scopes (with_clock w1 later)
                  = (Return t, with_clock w1 later)) ∧
                 (clock w + e - 300 <= later ->
                  get_existing_token name (with_clock w1 later)
                  = (Return VNone, with_clock w1 later)))) as Hfetch.
  { intros w0 Hc0 Hf0 Hs0 password. rewrite Hscript in Hs0.
    destruct (fetch_and_store name (dict_get (config_file w) "realm") scopes
                (py_or (py_or (dict_get (config_file w) "user") (getenv w "ZIGN_USER"))
                   (getenv w "USER"))
                password (dict_get (config_file w) "url")
                (dict_get (config_file w) "insecure") w0 r rest d cache t
                Hurl Hs0 E Hj Hl Htt (get_tokens_same_file w w0 _ Hf0 Hg))
      as (w1 & Hrun & Hc1 & Hs1 & _ & _ & _ & Hf1 & _).
    rewrite Hc0 in Hf1, Hc1.
    assert (get_tokens w1
            = (Return (VDict (<[name := VDict (stamped d (clock w))]> cache)), w1)) as Hg1.
    { apply get_tokens_mapping_file; [exact Hf1 | apply insert_non_empty]. }
    exists w1, cache.
    split; [exact Hrun|]. split; [exact Hs1|]. split; [exact Hg|]. split; [exact Hg1|].
    intros ei later Hexp.
    destruct (field_number_stamped d (clock w)) as [Hct Hei]. rewrite Hexp in Hei.
    pose proof (get_existing_token_record name _ (stamped d (clock w)) (clock w) ei
                  (with_clock w1 later)
                  (get_tokens_same_file w1 (with_clock w1 later) _ eq_refl Hg1)
                  (lookup_insert_eq _ _ _) Hct Hei) as Hex.
    rewrite bool_decide_eq_true_2 in Hex by apply insert_non_empty.
    cbn [clock with_clock andb] in Hex.
    split; intros Hlater.
    - replace (later <? clock w + ei - 300) with true in Hex
        by (symmetry; apply Z.ltb_lt; lia).
      rewrite (get_token_cached_run name scopes _ _ Hex) by apply insert_non_empty.
      unfold stamped. rewrite lookup_insert_ne by discriminate. rewrite Hl. reflexivity.
    - replace (later <? clock w + ei - 300) with false in Hex
        by (symmetry; apply Z.ltb_ge; lia).
      exact Hex. }
  destruct (truthy (getenv w "ZIGN_PASSWORD")).
  - rewrite ret_run. cbn beta iota. apply Hfetch; reflexivity.
  - unfold keyring_get_password at 1. cbn beta iota. apply Hfetch; reflexivity.
Qed.

Lemma get_token_fetches_and_caches_witness :
  ∃ w1 cache,
    get_token "mytok" ["uid"] granting_world = (Return (VStr "t0k3n"), w1) ∧
    http_script w1 = [] ∧
    get_tokens granting_world = (Return (VDict cache), granting_world) ∧
    get_tokens w1
    = (Return (VDict (<["mytok" :=
                         VDict (stamped {[ "access_token" := VStr "t0k3n";
                                           "expires_in" := VNum 3600 ]} 1700000000)]>
                        cache)), w1) ∧
    get_token "mytok" ["uid"] (with_clock w1 1700003299)
    = (Return (VStr "t0k3n"), with_clock w1 1700003299) ∧
    get_existing_token "mytok" (with_clock w1 1700003300)
    = (Return VNone, with_clock w1 1700003300).
Proof.
  destruct (get_token_fetches_and_caches "mytok" ["uid"] granting_world VNone VNone
              (token_response (VStr "t0k3n")) []
              {[ "access_token" := VStr "t0k3n"; "expires_in" := VNum 3600 ]}
              (VStr "t0k3n")
              eq_refl eq_refl eq_refl eq_refl eq_refl eq_refl eq_refl eq_refl eq_refl
              eq_refl eq_refl)
    as (w1 & cache & H1 & H2 & H3 & H4 & H5).
  exists w1, cache.
  split; [exact H1|]. split; [exact H2|]. split; [exact H3|]. split; [exact H4|].
  split.
  - apply (H5 3600 1700003299); [reflexivity | simpl; lia].
  - apply (H5 3600 1700003300); [reflexivity | simpl; lia].
Defined.

Lemma py_or_first_user (w : world) :
  py_or (py_or (dict_get (config_file w) "user") (getenv w "ZIGN_USER")) (getenv w "USER")
  = first_user w.
Proof.
  unfold py_or, first_user.
  destruct (truthy (dict_get (config_file w) "user")) eqn:E1; rewrite ?E1; [reflexivity|].
  destruct (truthy (getenv w "ZIGN_USER")) eqn:E2; rewrite ?E2; reflexivity.
Qed.

Lemma keeps_store_and_get (name : string) :
  ∀ token : value,
    keeps_trace (if truthy token then
                   token ← store_token name token;
                   value_getitem token "access_token"
                 else mret VNone).
Proof.
  intros token. destruct (truthy token); [|apply keeps_ret].
  apply keeps_bind; [apply keeps_store_token|].
  intros t. apply keeps_pure. destruct t; try (intros w; reflexivity).
  intros w. simpl. destruct (d !! "access_token"); reflexivity.
Qed.

(** X10: the credentials of [get_token]'s request. The user is the one of
    the configuration, else ZIGN_USER, else USER; the password is
    ZIGN_PASSWORD when that is set and not empty, and then the keyring is not
    asked; otherwise it is what the keyring holds for the user. The request
    goes to the configured URL with the configured realm, and certificates
    are verified unless [insecure] is configured true. *)
Theorem get_token_credentials (name : string) (scopes : list string) (w : world)
    (token access_token : value) :
  (get_existing_token name w).1 = Return token -> truthy token = false ->
  (get_service_token name scopes w).1 = Return access_token -> truthy access_token = false ->
  truthy (first_user w) = true ->
  truthy (dict_get (config_file w) "url") = true ->
  (truthy (getenv w "ZIGN_PASSWORD") = true ->
   (EvHttpGet (dict_get (config_file w) "url")
      (get_new_token_params (dict_get (config_file w) "realm") scopes)
      (Some (first_user w, getenv w "ZIGN_PASSWORD"))
      (negb (truthy (dict_get (config_file w) "insecure"))) None
    :: EvTokensManage name scopes :: trace w)
     `suffix_of` trace (get_token name scopes w).2) ∧
  (truthy (getenv w "ZIGN_PASSWORD") = false ->
   (EvHttpGet (dict_get (config_file w) "url")
      (get_new_token_params (dict_get (config_file w) "realm") scopes)
      (Some (first_user w, keyring_password w (first_user w)))
      (negb (truthy (dict_get (config_file w) "insecure"))) None
    :: EvKeyringGet (first_user w) :: EvTokensManage name scopes :: trace w)
     `suffix_of` trace (get_token name scopes w).2).
Proof.
  intros He Ht Hs Ha Huser Hurl.
  rewrite <- py_or_first_user in Huser.
  rewrite (get_token_requests name scopes w token access_token He Ht Hs Ha Huser Hurl).
  cbv zeta. rewrite py_or_first_user.
  assert (∀ w0, request_url (dict_get (config_file w) "url") w0
                = dict_get (config_file w) "url") as Hreq.
  { intros w0. unfold request_url. rewrite Hurl. reflexivity. }
  split; intros Hp; rewrite bind_run, Hp.
  - rewrite ret_run. cbn beta iota.
    apply bind_keeps_from; [|apply keeps_store_and_get].
    rewrite get_new_token_trace, Hreq. reflexivity.
  - unfold keyring_get_password at 1. cbn beta iota.
    apply bind_keeps_from; [|apply keeps_store_and_get].
    rewrite get_new_token_trace, Hreq. reflexivity.
Qed.

Lemma get_token_credentials_witness :
  (EvHttpGet (VStr service_url) (get_new_token_params VNone ["uid"])
     (Some (VStr "envuser", VStr "envpw")) true None
   :: EvTokensManage "mytok" ["uid"] :: trace env_world)
    `suffix_of` trace (get_token "mytok" ["uid"] env_world).2 ∧
  (EvHttpGet (VStr service_url) (get_new_token_params VNone ["uid"])
     (Some (VStr "jdoe", VNone)) true None
   :: EvKeyringGet (VStr "jdoe") :: EvTokensManage "mytok" ["uid"] :: trace configured_world)
    `suffix_of` trace (get_token "mytok" ["uid"] configured_world).2.
Proof.
  split.
  - apply (proj1 (get_token_credentials "mytok" ["uid"] env_world VNone VNone
                    eq_refl eq_refl eq_refl eq_refl eq_refl eq_refl)).
    reflexivity.
  - apply (proj2 (get_token_credentials "mytok" ["uid"] configured_world VNone VNone
                    eq_refl eq_refl eq_refl eq_refl eq_refl eq_refl)).
    reflexivity.
Defined.

(** ** [get_named_token]: the short cuts *)

(** X11: the two short cuts of [get_named_token] for a name that is given.
    Unless [refresh] is set, a valid cached record is returned as it is and
    nothing else happens. Otherwise, when no realm is given and [tokens.get]
    has a true token, that token comes back wrapped as
    [{'access_token': token}], after [tokens.manage] only: no configuration
    is written, no password is looked for, nothing is sent or stored. *)
Theorem get_named_token_short_cuts scope realm (name : string) user password url insecure
    (refresh use_keyring prompt : bool) (w : world) :
  name_given name = true ->
  (∀ token, refresh = false ->
     get_existing_token name w = (Return token, w) -> truthy token = true ->
     get_named_token scope realm name user password url insecure refresh use_keyring prompt w
     = (Return token, w)) ∧
  (∀ access_token,
     (refresh = true ∨
      ∃ token, (get_existing_token name w).1 = Return token ∧ truthy token = false) ->
     truthy realm = false ->
     tokens_lib w name = inl access_token -> truthy access_token = true ->
     get_named_token scope realm name user password url insecure refresh use_keyring prompt w
     = (Return (VDict {[ "access_token" := access_token ]}),
        with_trace w (EvTokensManage name scope :: trace w))).
Proof.
  intros Hn. split.
  - intros token -> He Ht. unfold get_named_token. cbv zeta. rewrite Hn.
    cbn [negb andb]. rewrite (bind_return _ _ _ _ _ He), Ht. reflexivity.
  - intros access_token Hmiss Hr Hl Ha.
    assert (service_or_issue_named_token scope realm name user password url insecure
              use_keyring prompt w
            = (Return (VDict {[ "access_token" := access_token ]}),
               with_trace w (EvTokensManage name scope :: trace w))) as Hs.
    { unfold service_or_issue_named_token. cbv zeta. rewrite Hn, Hr. cbn [negb andb].
      rewrite bind_run, get_service_token_run, Hl. cbv zeta. cbn beta iota.
      rewrite Ha. reflexivity. }
    unfold get_named_token. cbv zeta. rewrite Hn.
    destruct Hmiss as [-> | (token & He & Ht)]; [exact Hs|].
    destruct refresh; [exact Hs|]. cbn [negb andb].
    apply (pure_run _ _ _ (pure_get_existing_token name)) in He.
    rewrite (bind_return _ _ _ _ _ He), Ht. exact Hs.
Qed.

Lemma get_named_token_short_cuts_witness :
  get_named_token ["uid"] VNone "other" (VStr "jdoe") VNone VNone (VBool false)
    false true true cached_world
  = (Return (VDict sample_record), cached_world) ∧
  get_named_token ["uid"] VNone "mytok" (VStr "jdoe") VNone VNone (VBool false)
    true true true service_world
  = (Return (VDict {[ "access_token" := VStr "s3rv1c3" ]}),
     with_trace service_world (EvTokensManage "mytok" ["uid"] :: trace service_world)).
Proof.
  split.
  - apply (proj1 (get_named_token_short_cuts ["uid"] VNone "other" (VStr "jdoe") VNone
                    VNone (VBool false) false true true cached_world eq_refl)
             (VDict sample_record) eq_refl eq_refl eq_refl).
  - apply (proj2 (get_named_token_short_cuts ["uid"] VNone "mytok" (VStr "jdoe") VNone
                    VNone (VBool false) true true true service_world eq_refl)
             (VStr "s3rv1c3") (or_introl eq_refl) eq_refl eq_refl eq_refl).
Defined.

(** ** [get_named_token]: the request and what follows it *)

Lemma request_loop_first_attempt fuel realm scope user url insecure prompt password
    (w : world) :
  truthy password = true ∨ prompt = false ->
  request_loop (S fuel) realm scope user url insecure prompt password w
  = request_attempt realm scope user url insecure prompt password
      (request_loop fuel realm scope user url insecure prompt VNone) w.
Proof.
  intros H. cbn [request_loop].
  replace (negb (truthy password) && prompt) with false
    by (destruct H as [-> | ->]; [reflexivity | by rewrite andb_false_r]).
  rewrite bind_run, ret_run. reflexivity.
Qed.

Lemma get_new_token_granted realm scope user password url insecure
    (w : world) (r : response) (rest : list http_outcome) (d : gmap string value) (t : value) :
  is_url url = true ->
  http_script w = Responded r :: rest ->
  status_code r = 200 ->
  resp_json r = Some (VDict d) ->
  d !! "access_token" = Some t -> truthy t = true ->
  get_new_token realm scope user password url insecure w
  = (Return (VDict d), requested realm scope user password url insecure rest w).
Proof.
  intros Hu Hs E Hj Hl Ht.
  rewrite (get_new_token_responded _ _ _ _ _ _ w r rest)
    by (rewrite ?request_url_given; assumption).
  rewrite check_token_response_200, Hj by exact E.
  rewrite (dict_get_lookup _ _ _ Hl), Ht, request_url_given by exact Hu. reflexivity.
Qed.

Lemma request_named_token_granted scope realm (name u : string) password url insecure
    (use_keyring prompt : bool) (w : world) (r : response) (rest : list http_outcome)
    (d cache : gmap string value) (t : value) :
  is_url url = true ->
  truthy password = true ->
  http_script w = Responded r :: rest ->
  status_code r = 200 ->
  resp_json r = Some (VDict d) ->
  d !! "access_token" = Some t -> truthy t = true ->
  (name_given name = true -> get_tokens w = (Return (VDict cache), w)) ->
  ∃ w1,
    request_named_token scope realm name (VStr u) password url insecure use_keyring prompt w
    = (Return (if name_given name then VDict (stamped d (clock w)) else VDict d), w1) ∧
    http_script w1 = rest ∧ input_script w1 = input_script w ∧
    config_file w1 = config_file w ∧
    keyring_db w1
    = (if use_keyring then <[u := password]> (keyring_db w) else keyring_db w) ∧
    tokens_file w1
    = (if name_given name
       then FileData (VDict (<[name := VDict (stamped d (clock w))]> cache))
       else tokens_file w).
Proof.
  intros Hu Hp Hs E Hj Hl Ht Hg.
  assert (d ≠ ∅) as Hd.
  { intros ->. rewrite lookup_empty in Hl. discriminate. }
  unfold request_named_token.
  rewrite bind_run, Hp, ret_run. cbn beta iota.
  unfold get_world at 1. rewrite bind_run. cbn beta iota.
  rewrite bind_run, request_loop_first_attempt by (left; exact Hp).
  rewrite request_attempt_run.
  rewrite (get_new_token_granted _ _ _ _ _ _ w r rest d t Hu Hs E Hj Hl Ht).
  cbn beta iota. cbn [truthy]. rewrite bool_decide_eq_false_2 by exact Hd.
  cbn [negb andb]. rewrite bind_run.
  destruct use_keyring; unfold keyring_set_password; cbn beta iota;
    destruct (name_given name) eqn:Hn.
  - match goal with
    | |- context [store_token name (VDict d) ?w0] =>
        rewrite (store_token_run name d cache w0
                   (get_tokens_same_file w w0 _ eq_refl (Hg eq_refl)))
    end.
    eexists. split; [reflexivity|]. repeat split.
  - rewrite ret_run. eexists. split; [reflexivity|]. repeat split.
  - rewrite ret_run. cbn beta iota.
    match goal with
    | |- context [store_token name (VDict d) ?w0] =>
        rewrite (store_token_run name d cache w0
                   (get_tokens_same_file w w0 _ eq_refl (Hg eq_refl)))
    end.
    eexists. split; [reflexivity|]. repeat split.
  - rewrite !ret_run. eexists. split; [reflexivity|]. repeat split.
Qed.

Lemma get_named_token_entry_world (name : string) (scope : list string) (realm : value)
    (w : world) :
  let w0 := config_stored (with_trace w (service_attempt name scope realm ++ trace w)) in
  clock w0 = clock w ∧ http_script w0 = http_script w ∧
  input_script w0 = input_script w ∧ config_file w0 = config_file w ∧
  keyring_db w0 = keyring_db w ∧ tokens_file w0 = tokens_file w ∧
  trace w0 = EvStoreConfig (config_file w) :: service_attempt name scope realm ++ trace w.
Proof. cbv zeta. repeat split. Qed.

(** X12: a granted request in [get_named_token] (a URL and a password are
    there, the first answer is a 200 with a true access token). The call
    returns the parsed body after that one request, without prompting. When a
    name is given the record is stored under it and, [store_token] stamping
    the very dictionary that is returned, the result carries
    [creation_time]; without a name nothing is written to the token file.
    The password goes to the keyring exactly when [use_keyring] is set. With
    [refresh] this happens even though a valid record is cached. *)
Theorem get_named_token_granted scope realm (name u : string) password url insecure
    (refresh use_keyring prompt : bool) (w : world) (r : response)
    (rest : list http_outcome) (d cache : gmap string value) (t : value) :
  not_cut_short name scope realm refresh w ->
  is_url (py_or url (dict_get (config_file w) "url")) = true ->
  truthy password = true ->
  http_script w = Responded r :: rest ->
  status_code r = 200 ->
  resp_json r = Some (VDict d) ->
  d !! "access_token" = Some t -> truthy t = true ->
  (name_given name = true -> get_tokens w = (Return (VDict cache), w)) ->
  ∃ w1,
    get_named_token scope realm name (VStr u) password url insecure
      refresh use_keyring prompt w
    = (Return (if name_given name then VDict (stamped d (clock w)) else VDict d), w1) ∧
    http_script w1 = rest ∧ input_script w1 = input_script w ∧
    config_file w1 = config_file w ∧
    keyring_db w1
    = (if use_keyring then <[u := password]> (keyring_db w) else keyring_db w) ∧
    tokens_file w1
    = (if name_given name
       then FileData (VDict (<[name := VDict (stamped d (clock w))]> cache))
       else tokens_file w).
Proof.
  intros [Hc Hs] Hu Hp Hscript E Hj Hl Ht Hg.
  rewrite (get_named_token_given_url _ _ _ _ _ _ _ _ _ _ _ Hc Hs Hu).
  apply (request_named_token_granted scope realm name u password _ insecure use_keyring
           prompt (config_stored (with_trace w (service_attempt name scope realm ++ trace w)))
           r rest d cache t Hu Hp Hscript E Hj Hl Ht).
  intros Hn. apply (get_tokens_same_file w); [reflexivity | by apply Hg].
Qed.

Lemma get_named_token_granted_witness :
  ∃ w1,
    get_named_token ["uid"] (VStr "employees") "other" (VStr "jdoe") (VStr "s3cret")
      (VStr service_url) (VBool false) true true false refresh_world
    = (Return (VDict (stamped {[ "access_token" := VStr "fr3sh";
                                 "expires_in" := VNum 3600 ]} 1700000000)), w1) ∧
    http_script w1 = [] ∧
    keyring_db w1 = {[ "jdoe" := VStr "s3cret" ]} ∧
    tokens_file w1
    = FileData (VDict {[ "other" :=
                           VDict (stamped {[ "access_token" := VStr "fr3sh";
                                             "expires_in" := VNum 3600 ]} 1700000000) ]}).
Proof.
  assert (not_cut_short "other" ["uid"] (VStr "employees") true refresh_world) as Hn.
  { split; intros H; discriminate H. }
  destruct (get_named_token_granted ["uid"] (VStr "employees") "other" "jdoe"
              (VStr "s3cret") (VStr service_url) (VBool false) true true false
              refresh_world (token_response (VStr "fr3sh")) []
              {[ "access_token" := VStr "fr3sh"; "expires_in" := VNum 3600 ]}
              {[ "other" := VDict sample_record ]} (VStr "fr3sh")
              Hn eq_refl eq_refl eq_refl eq_refl eq_refl eq_refl eq_refl (λ _, eq_refl))
    as (w1 & Hrun & Hs & _ & _ & Hk & Hf).
  exists w1. repeat split; assumption.
Defined.

Lemma check_token_response_outcome (r : response) (w w' : world) :
  (check_token_response r w).1 = (check_token_response r w').1.
Proof.
  destruct (decide (status_code r = 401)) as [E|N1].
  { by rewrite !check_token_response_401. }
  destruct (decide (status_code r = 200)) as [E|N2].
  2: { by rewrite !check_token_response_status. }
  rewrite !check_token_response_200 by exact E.
  destruct (resp_json r) as [[| | | | |d]|]; try reflexivity.
  destruct (truthy (dict_get d "access_token")); reflexivity.
Qed.

Lemma get_new_token_fails realm scope user password url insecure
    (w : world) (r : response) (rest : list http_outcome) (e : exn) :
  is_url url = true ->
  http_script w = Responded r :: rest ->
  (check_token_response r w).1 = Raise e ->
  get_new_token realm scope user password url insecure w
  = (Raise e, requested realm scope user password url insecure rest w).
Proof.
  intros Hu Hs He.
  rewrite (get_new_token_responded _ _ _ _ _ _ w r rest)
    by (rewrite ?request_url_given; assumption).
  rewrite request_url_given by exact Hu.
  rewrite (check_token_response_outcome r w
             (with_http_script
                (with_trace w (EvHttpGet url (get_new_token_params realm scope)
                                 (Some (user, password)) (negb (truthy insecure)) None
                               :: trace w)) rest)) in He.
  pose proof (check_token_response_world r
                (with_http_script
                   (with_trace w (EvHttpGet url (get_new_token_params realm scope)
                                    (Some (user, password)) (negb (truthy insecure)) None
                                  :: trace w)) rest)) as Hw.
  destruct (check_token_response r _) as [o w1]. simpl in *. by subst.
Qed.

(** X13: only [AuthenticationFailed] is retried. When the Token Service
    answers the first request with anything that [get_new_token] turns into
    another exception (a status that is neither 200 nor 401, a body that is
    no JSON, a body without a true access token), [get_named_token] raises
    that exception at once, also when [prompt] is set: the user is not
    prompted, no second request is made, nothing is stored or saved. *)
Theorem get_named_token_no_retry scope realm (name : string) user password url insecure
    (refresh use_keyring prompt : bool) (w : world) (r : response)
    (rest : list http_outcome) (e : exn) :
  not_cut_short name scope realm refresh w ->
  is_url (py_or url (dict_get (config_file w) "url")) = true ->
  truthy password = true ->
  http_script w = Responded r :: rest ->
  status_code r ≠ 401 ->
  (check_token_response r w).1 = Raise e ->
  (status_code r ≠ 200 ->
   e = ServerError (Format "Token Service returned HTTP status {}: {}"
                      [VNum (status_code r); VStr (resp_text r)])) ∧
  ∃ w1,
    get_named_token scope realm name user password url insecure refresh use_keyring prompt w
    = (Raise e, w1) ∧
    http_script w1 = rest ∧ input_script w1 = input_script w ∧
    tokens_file w1 = tokens_file w ∧ keyring_db w1 = keyring_db w.
Proof.
  intros [Hc Hs] Hu Hp Hscript N1 He. split.
  { intros N2. rewrite check_token_response_status in He by assumption.
    by injection He as <-. }
  assert (is_AuthenticationFailed e = false) as Hna.
  { destruct e; try reflexivity. destruct N1.
    apply (check_token_response_authentication_failed r w). eauto. }
  rewrite (get_named_token_given_url _ _ _ _ _ _ _ _ _ _ _ Hc Hs Hu).
  unfold request_named_token.
  rewrite bind_run, Hp, ret_run. cbn beta iota.
  unfold get_world at 1. rewrite bind_run. cbn beta iota.
  rewrite bind_run, request_loop_first_attempt by (left; exact Hp).
  rewrite request_attempt_run.
  erewrite get_new_token_fails;
    [|exact Hu|exact Hscript
     |rewrite <- He; apply check_token_response_outcome].
  destruct e; try discriminate; cbn beta iota;
    (eexists; split; [reflexivity|]; repeat split).
Qed.

Lemma get_named_token_no_retry_witness :
  ∃ w1,
    get_named_token ["uid"] VNone "" (VStr "jdoe") (VStr "s3cret") (VStr service_url)
      (VBool false) false true true
      (with_input_script (answering failing) ["again"])
    = (Raise (ServerError (Format "Token Service returned HTTP status {}: {}"
                             [VNum 503; VStr "Service Unavailable"])), w1) ∧
    http_script w1 = [] ∧ input_script w1 = ["again"].
Proof.
  assert (not_cut_short "" ["uid"] VNone false
            (with_input_script (answering failing) ["again"])) as Hn.
  { split; intros H; discriminate H. }
  destruct (proj2 (get_named_token_no_retry ["uid"] VNone "" (VStr "jdoe") (VStr "s3cret")
                     (VStr service_url) (VBool false) false true true
                     (with_input_script (answering failing) ["again"]) failing [] _
                     Hn eq_refl eq_refl eq_refl ltac:(discriminate) eq_refl))
    as (w1 & Hrun & Hs & Hi & _).
  exists w1. by repeat split.
Defined.

(** ** [get_named_token]: prompting for the URL *)

Lemma keeps_requests_get url params auth verify timeout :
  keeps_trace (requests_get url params auth verify timeout).
Proof. intros w. rewrite requests_get_trace. by apply suffix_cons_r. Qed.

Lemma keeps_url_probe (insecure url : value) :
  keeps_trace
    (try_except (requests_get url ∅ None (negb (truthy insecure)) (Some 5);; mret url)
       (λ _, Some (error (Format "Could not reach {}" [url]);; mret VNone))).
Proof.
  apply keeps_try_except.
  - apply keeps_bind; [apply keeps_requests_get | intros; apply keeps_ret].
  - intros e k [= <-]. apply keeps_bind; [apply keeps_log | intros; apply keeps_ret].
Qed.

Lemma keeps_prompt_url_loop fuel insecure prompt url config :
  keeps_trace (prompt_url_loop fuel insecure prompt url config).
Proof.
  revert url config. induction fuel as [|fuel IH]; intros url config; simpl;
    destruct (negb (truthy url) && prompt); try apply keeps_ret.
  - intros w. reflexivity.
  - apply keeps_bind; [apply keeps_click_prompt|]. intros u.
    apply keeps_bind; [apply keeps_url_probe|]. intros u'. apply IH.
Qed.

Lemma prompt_url_loop_reachable fuel insecure prompt url config (w : world)
    (s : string) (inputs : list string) (r : response) (rest : list http_outcome) :
  negb (truthy url) && prompt = true ->
  input_script w = s :: inputs ->
  is_url (VStr s) = true ->
  http_script w = Responded r :: rest ->
  prompt_url_loop (S fuel) insecure prompt url config w
  = (Return (VStr s, <["url" := VStr s]> config),
     with_http_script
       (with_trace (with_input_script w inputs) (url_probed s insecure (trace w)))
       rest).
Proof.
  intros Hc Hin Hu Hs. cbn [prompt_url_loop]. rewrite Hc.
  rewrite bind_run. unfold click_prompt at 1. rewrite Hin. cbn beta iota.
  rewrite bind_run. unfold try_except at 1. rewrite bind_run.
  unfold requests_get at 1. rewrite Hu. cbn [http_script with_trace with_input_script].
  rewrite Hs. cbn beta iota. rewrite ret_run. cbn beta iota.
  rewrite prompt_url_loop_skip by (rewrite (is_url_truthy _ Hu); reflexivity).
  reflexivity.
Qed.

Lemma prompt_url_loop_unreachable fuel insecure prompt url config (w : world)
    (s : string) (inputs : list string) (rest : list http_outcome) :
  negb (truthy url) && prompt = true ->
  input_script w = s :: inputs ->
  is_url (VStr s) = true ->
  http_script w = Unreachable :: rest ->
  prompt_url_loop (S fuel) insecure prompt url config w
  = prompt_url_loop fuel insecure prompt VNone (<["url" := VNone]> config)
      (with_http_script
         (with_trace (with_input_script w inputs)
            (EvError (Format "Could not reach {}" [VStr s])
             :: url_probed s insecure (trace w)))
         rest).
Proof.
  intros Hc Hin Hu Hs. cbn [prompt_url_loop]. rewrite Hc.
  rewrite bind_run. unfold click_prompt at 1. rewrite Hin. cbn beta iota.
  rewrite bind_run. unfold try_except at 1. rewrite bind_run.
  unfold requests_get at 1. rewrite Hu. cbn [http_script with_trace with_input_script].
  rewrite Hs. cbn beta iota. reflexivity.
Qed.

Lemma keeps_issue_tail scope realm name user password insecure use_keyring prompt :
  ∀ a : value * gmap string value,
    keeps_trace (let '(url, config) := a in
                 store_config config;;
                 request_named_token scope realm name user password url insecure
                   use_keyring prompt).
Proof.
  intros [url config]. apply keeps_bind; [apply keeps_store_config|].
  intros _. apply keeps_request_named_token.
Qed.

(** X14: prompting for the URL. When no URL is given or configured and
    [prompt] is set, the user is prompted and the URL that is typed is
    probed with a request without credentials and a timeout of 5 seconds.
    Any answer will do, whatever its status: the configuration is then
    written back with that URL under [url]. When the probe fails, the user
    is told that the URL could not be reached and is prompted again. *)
Theorem get_named_token_prompts_for_url scope realm (name : string) user password url
    insecure (refresh use_keyring : bool) (w : world) (s : string) (inputs : list string) :
  not_cut_short name scope realm refresh w ->
  truthy url = false ->
  truthy (dict_get (config_file w) "url") = false ->
  input_script w = s :: inputs ->
  is_url (VStr s) = true ->
  (∀ r rest, http_script w = Responded r :: rest ->
     (EvStoreConfig (<["url" := VStr s]> (config_file w))
      :: url_probed s insecure (service_attempt name scope realm ++ trace w))
       `suffix_of`
       trace (get_named_token scope realm name user password url insecure
                refresh use_keyring true w).2) ∧
  (∀ rest, http_script w = Unreachable :: rest ->
     (EvPrompt url_prompt false
      :: EvError (Format "Could not reach {}" [VStr s])
      :: url_probed s insecure (service_attempt name scope realm ++ trace w))
       `suffix_of`
       trace (get_named_token scope realm name user password url insecure
                refresh use_keyring true w).2).
Proof.
  intros [Hc Hs] Hu Hcu Hin Hs_url.
  rewrite (get_named_token_issues _ _ _ _ _ _ _ _ _ _ _ Hc Hs).
  set (ws := with_trace w (service_attempt name scope realm ++ trace w)).
  assert (negb (truthy (py_or url (dict_get (config_file ws) "url"))) && true = true)
    as Hcond.
  { unfold py_or. rewrite Hu. cbn [config_file ws with_trace]. rewrite Hcu. reflexivity. }
  split.
  - intros r rest Hscript.
    apply (issue_named_token_after_url scope realm name user password url insecure
             use_keyring true ws
             (with_http_script
                (with_trace (with_input_script ws inputs) (url_probed s insecure (trace ws)))
                rest)
             (VStr s) (<["url" := VStr s]> (config_file ws))).
    by apply (prompt_url_loop_reachable _ _ _ _ _ ws s inputs r rest).
  - intros rest Hscript. unfold issue_named_token.
    rewrite bind_run. unfold get_config at 1. cbn beta iota.
    rewrite bind_run. unfold get_world at 1. cbn beta iota.
    apply bind_keeps_from; [|apply keeps_issue_tail].
    rewrite (prompt_url_loop_unreachable _ _ _ _ _ ws s inputs rest Hcond Hin Hs_url Hscript).
    change (input_script ws) with (input_script w). rewrite Hin. cbn [length].
    cbn [prompt_url_loop truthy negb andb].
    apply bind_keeps_from.
    + unfold click_prompt. cbn [input_script with_http_script with_trace with_input_script].
      destruct inputs; reflexivity.
    + intros u. apply keeps_bind; [apply keeps_url_probe|].
      intros u'. apply keeps_prompt_url_loop.
Qed.

Lemma get_named_token_prompts_for_url_witness :
  (EvStoreConfig {[ "url" := VStr service_url ]} :: url_probed service_url (VBool false) [])
    `suffix_of`
    trace (get_named_token ["uid"] VNone "" (VStr "jdoe") VNone VNone (VBool false)
             false false true first_run_world).2 ∧
  (EvPrompt url_prompt false
   :: EvError (Format "Could not reach {}" [VStr "https://tokne.example.org"])
   :: url_probed "https://tokne.example.org" (VBool false) [])
    `suffix_of`
    trace (get_named_token ["uid"] VNone "" (VStr "jdoe") VNone VNone (VBool false)
             false false true typo_world).2.
Proof.
  split.
  - assert (not_cut_short "" ["uid"] VNone false first_run_world) as Hn.
    { split; intros H; discriminate H. }
    apply (proj1 (get_named_token_prompts_for_url ["uid"] VNone "" (VStr "jdoe") VNone
                    VNone (VBool false) false false first_run_world service_url
                    ["s3cret"] Hn eq_refl eq_refl eq_refl eq_refl)
             failing [Responded (token_response (VStr "t0k3n"))] eq_refl).
  - assert (not_cut_short "" ["uid"] VNone false typo_world) as Hn.
    { split; intros H; discriminate H. }
    apply (proj2 (get_named_token_prompts_for_url ["uid"] VNone "" (VStr "jdoe") VNone
                    VNone (VBool false) false false typo_world
                    "https://tokne.example.org" [service_url; "s3cret"]
                    Hn eq_refl eq_refl eq_refl eq_refl)
             [Responded failing; Responded (token_response (VStr "t0k3n"))] eq_refl).
Defined.

(** The first run from beginning to end: the URL is prompted for, probed (the
    answer 503 is an answer) and written to the configuration, the password
    is looked for in the keyring and prompted for, the token is granted. *)
Example get_named_token_first_run :
  get_named_token ["uid"] VNone "" (VStr "jdoe") VNone VNone (VBool false)
    false false true first_run_world
  = (Return (VDict {[ "access_token" := VStr "t0k3n"; "expires_in" := VNum 3600 ]}),
     {| clock := 1700000000; tokens_file := FileMissing;
        config_file := {[ "url" := VStr service_url ]}; keyring_db := ∅;
        environ := ∅; tokens_lib := λ _, inr TokensConfigurationError;
        http_script := []; input_script := [];
        trace :=
          [ EvHttpGet (VStr service_url) {[ "json" := VStr "true"; "scope" := VStr "uid" ]}
              (Some (VStr "jdoe", VStr "s3cret")) true None;
            EvPrompt (Format "Password for {}" [VStr "jdoe"]) true;
            EvKeyringGet (VStr "jdoe");
            EvStoreConfig {[ "url" := VStr service_url ]};
            EvHttpGet (VStr service_url) ∅ None true (Some 5);
            EvPrompt url_prompt false ] |}).
Proof. vm_compute. reflexivity. Qed.

(** ** [get_named_token]: where the password comes from *)

Lemma request_loop_sends fuel realm scope user url insecure prompt password (w : world) :
  is_url url = true ->
  truthy password = true ∨ prompt = false ->
  (EvHttpGet url (get_new_token_params realm scope) (Some (user, password))
     (negb (truthy insecure)) None :: trace w)
    `suffix_of`
    trace (request_loop (S fuel) realm scope user url insecure prompt password w).2.
Proof.
  intros Hu Hp. rewrite request_loop_first_attempt by exact Hp.
  rewrite <- (request_url_given url w Hu) at 1.
  apply request_attempt_trace, keeps_request_loop.
Qed.

Lemma request_loop_prompts_first fuel realm scope user url insecure password (w : world)
    (s : string) (inputs : list string) :
  is_url url = true ->
  truthy password = false ->
  input_script w = s :: inputs ->
  (EvHttpGet url (get_new_token_params realm scope) (Some (user, VStr s))
     (negb (truthy insecure)) None
   :: EvPrompt (Format "Password for {}" [user]) true :: trace w)
    `suffix_of`
    trace (request_loop (S fuel) realm scope user url insecure true password w).2.
Proof.
  intros Hu Hp Hin. cbn [request_loop]. rewrite Hp. cbn [negb andb].
  rewrite bind_run. unfold click_prompt at 1. rewrite Hin. cbn beta iota.
  match goal with
  | |- _ `suffix_of` trace (request_attempt _ _ _ _ _ _ _ ?k ?w3).2 =>
      rewrite <- (request_url_given url w3 Hu) at 1;
      apply (request_attempt_trace realm scope user url insecure true (VStr s) k w3)
  end.
  apply keeps_request_loop.
Qed.

(** X15: the password of the first request of [get_named_token]. A password
    that is given is used, and the keyring is not asked. Without one the
    keyring is asked for the user's password; if it has none and [prompt] is
    set, the user is prompted (input hidden) and what is typed is used; if it
    has none and [prompt] is not set, the request goes out all the same, with
    the empty password. *)
Theorem get_named_token_password scope realm (name : string) user password url insecure
    (refresh use_keyring prompt : bool) (w : world) :
  not_cut_short name scope realm refresh w ->
  is_url (py_or url (dict_get (config_file w) "url")) = true ->
  (truthy password = true ->
   (EvHttpGet (py_or url (dict_get (config_file w) "url"))
      (get_new_token_params realm scope) (Some (user, password))
      (negb (truthy insecure)) None
    :: EvStoreConfig (config_file w) :: service_attempt name scope realm ++ trace w)
     `suffix_of`
     trace (get_named_token scope realm name user password url insecure
              refresh use_keyring prompt w).2) ∧
  (truthy password = false ->
   truthy (keyring_password w user) = true ∨ prompt = false ->
   (EvHttpGet (py_or url (dict_get (config_file w) "url"))
      (get_new_token_params realm scope) (Some (user, keyring_password w user))
      (negb (truthy insecure)) None
    :: EvKeyringGet user
    :: EvStoreConfig (config_file w) :: service_attempt name scope realm ++ trace w)
     `suffix_of`
     trace (get_named_token scope realm name user password url insecure
              refresh use_keyring prompt w).2) ∧
  (∀ s inputs,
     truthy password = false ->
     truthy (keyring_password w user) = false ->
     prompt = true ->
     input_script w = s :: inputs ->
     (EvHttpGet (py_or url (dict_get (config_file w) "url"))
        (get_new_token_params realm scope) (Some (user, VStr s))
        (negb (truthy insecure)) None
      :: EvPrompt (Format "Password for {}" [user]) true
      :: EvKeyringGet user
      :: EvStoreConfig (config_file w) :: service_attempt name scope realm ++ trace w)
       `suffix_of`
       trace (get_named_token scope realm name user password url insecure
                refresh use_keyring prompt w).2).
Proof.
  intros [Hc Hs] Hu.
  rewrite (get_named_token_given_url _ _ _ _ _ _ _ _ _ _ _ Hc Hs Hu).
  unfold request_named_token.
  split; [|split].
  - intros Hp. rewrite bind_run, Hp, ret_run. cbn beta iota.
    unfold get_world at 1. rewrite bind_run. cbn beta iota.
    apply bind_keeps_from; [|apply keeps_request_tail].
    apply (request_loop_sends _ realm scope user _ insecure prompt password
             (config_stored (with_trace w (service_attempt name scope realm ++ trace w)))
             Hu (or_introl Hp)).
  - intros Hp Hk. rewrite bind_run, Hp. unfold keyring_get_password at 1. cbn beta iota.
    unfold get_world at 1. rewrite bind_run. cbn beta iota.
    apply bind_keeps_from; [|apply keeps_request_tail].
    apply (request_loop_sends _ realm scope user _ insecure prompt
             (keyring_password w user)
             (with_trace
                (config_stored (with_trace w (service_attempt name scope realm ++ trace w)))
                (EvKeyringGet user
                 :: EvStoreConfig (config_file w)
                 :: service_attempt name scope realm ++ trace w))
             Hu Hk).
  - intros s inputs Hp Hk -> Hin.
    rewrite bind_run, Hp. unfold keyring_get_password at 1. cbn beta iota.
    unfold get_world at 1. rewrite bind_run. cbn beta iota.
    apply bind_keeps_from; [|apply keeps_request_tail].
    apply (request_loop_prompts_first _ realm scope user _ insecure
             (keyring_password w user)
             (with_trace
                (config_stored (with_trace w (service_attempt name scope realm ++ trace w)))
                (EvKeyringGet user
                 :: EvStoreConfig (config_file w)
                 :: service_attempt name scope realm ++ trace w))
             s inputs Hu Hk Hin).
Qed.

Lemma get_named_token_password_witness :
  (EvHttpGet (VStr service_url) (get_new_token_params VNone ["uid"])
     (Some (VStr "jdoe", VStr "ringpw")) true None
   :: EvKeyringGet (VStr "jdoe") :: EvStoreConfig ∅ :: [])
    `suffix_of`
    trace (get_named_token ["uid"] VNone "" (VStr "jdoe") VNone (VStr service_url)
             (VBool false) false false true keyring_world).2 ∧
  (EvHttpGet (VStr service_url) (get_new_token_params VNone ["uid"])
     (Some (VStr "jdoe", VStr "typed")) true None
   :: EvPrompt (Format "Password for {}" [VStr "jdoe"]) true
   :: EvKeyringGet (VStr "jdoe") :: EvStoreConfig ∅ :: [])
    `suffix_of`
    trace (get_named_token ["uid"] VNone "" (VStr "jdoe") VNone (VStr service_url)
             (VBool false) false false true
             (with_input_script (answering (token_response (VStr "t0k3n"))) ["typed"])).2.
Proof.
  split.
  - assert (not_cut_short "" ["uid"] VNone false keyring_world) as Hn.
    { split; intros H; discriminate H. }
    apply (proj1 (proj2 (get_named_token_password ["uid"] VNone "" (VStr "jdoe") VNone
                           (VStr service_url) (VBool false) false false true
                           keyring_world Hn eq_refl)) eq_refl (or_introl eq_refl)).
  - assert (not_cut_short "" ["uid"] VNone false
              (with_input_script (answering (token_response (VStr "t0k3n"))) ["typed"]))
      as Hn.
    { split; intros H; discriminate H. }
    apply (proj2 (proj2 (get_named_token_password ["uid"] VNone "" (VStr "jdoe") VNone
                           (VStr service_url) (VBool false) false false true
                           (with_input_script (answering (token_response (VStr "t0k3n")))
                              ["typed"]) Hn eq_refl))
             "typed" [] eq_refl eq_refl eq_refl eq_refl).
Defined.

(** What [get_named_token] does with a result that is a record. *)
Lemma request_tail_run (name u : string) (use_keyring : bool) (password : value)
    (d cache : gmap string value) (w : world) :
  d ≠ ∅ ->
  (name_given name = true -> get_tokens w = (Return (VDict cache), w)) ->
  ∃ w1,
    ((if truthy (VDict d) && use_keyring then keyring_set_password (VStr u) password
      else mret tt);;
     if name_given name then store_token name (VDict d) else mret (VDict d)) w
    = (Return (if name_given name then VDict (stamped d (clock w)) else VDict d), w1) ∧
    http_script w1 = http_script w ∧ input_script w1 = input_script w ∧
    config_file w1 = config_file w ∧
    keyring_db w1
    = (if use_keyring then <[u := password]> (keyring_db w) else keyring_db w) ∧
    tokens_file w1
    = (if name_given name
       then FileData (VDict (<[name := VDict (stamped d (clock w))]> cache))
       else tokens_file w).
Proof.
  intros Hd Hg. cbn [truthy]. rewrite bool_decide_eq_false_2 by exact Hd.
  cbn [negb andb]. rewrite bind_run.
  destruct use_keyring; unfold keyring_set_password; cbn beta iota;
    destruct (name_given name) eqn:Hn.
  - match goal with
    | |- context [store_token name (VDict d) ?w0] =>
        rewrite (store_token_run name d cache w0
                   (get_tokens_same_file w w0 _ eq_refl (Hg eq_refl)))
    end.
    eexists. split; [reflexivity|]. repeat split.
  - rewrite ret_run. eexists. split; [reflexivity|]. repeat split.
  - rewrite ret_run. cbn beta iota.
    match goal with
    | |- context [store_token name (VDict d) ?w0] =>
        rewrite (store_token_run name d cache w0
                   (get_tokens_same_file w w0 _ eq_refl (Hg eq_refl)))
    end.
    eexists. split; [reflexivity|]. repeat split.
  - rewrite !ret_run. eexists. split; [reflexivity|]. repeat split.
Qed.

(** X16: a retry that ends well. With [prompt] set, a password given and a
    URL there, when the first request is answered 401 and the second, made
    with the password that the user then types, is granted a token,
    [get_named_token] returns the body of the second answer; it is the
    password that was typed, not the one that was given, that goes to the
    keyring when [use_keyring] is set; two answers and one line of input are
    used up; a name that is given gets the record stored. *)
Theorem get_named_token_retry_granted scope realm (name u : string) password url insecure
    (refresh use_keyring : bool) (w : world) (r1 r2 : response)
    (rest : list http_outcome) (s : string) (inputs : list string)
    (d cache : gmap string value) (t : value) :
  not_cut_short name scope realm refresh w ->
  is_url (py_or url (dict_get (config_file w) "url")) = true ->
  truthy password = true ->
  http_script w = Responded r1 :: Responded r2 :: rest ->
  status_code r1 = 401 ->
  input_script w = s :: inputs ->
  status_code r2 = 200 ->
  resp_json r2 = Some (VDict d) ->
  d !! "access_token" = Some t -> truthy t = true ->
  (name_given name = true -> get_tokens w = (Return (VDict cache), w)) ->
  ∃ w1,
    get_named_token scope realm name (VStr u) password url insecure
      refresh use_keyring true w
    = (Return (if name_given name then VDict (stamped d (clock w)) else VDict d), w1) ∧
    http_script w1 = rest ∧ input_script w1 = inputs ∧
    keyring_db w1
    = (if use_keyring then <[u := VStr s]> (keyring_db w) else keyring_db w) ∧
    tokens_file w1
    = (if name_given name
       then FileData (VDict (<[name := VDict (stamped d (clock w))]> cache))
       else tokens_file w).
Proof.
  intros [Hc Hs] Hu Hp Hscript E1 Hin E2 Hj Hl Ht Hg.
  assert (d ≠ ∅) as Hd.
  { intros ->. rewrite lookup_empty in Hl. discriminate. }
  rewrite (get_named_token_given_url _ _ _ _ _ _ _ _ _ _ _ Hc Hs Hu).
  set (w0 := config_stored (with_trace w (service_attempt name scope realm ++ trace w))).
  set (url0 := py_or url (dict_get (config_file w) "url")) in *.
  unfold request_named_token.
  rewrite bind_run, Hp, ret_run. cbn beta iota.
  unfold get_world at 1. rewrite bind_run. cbn beta iota.
  change (http_script w0) with (http_script w). rewrite Hscript. cbn [length].
  rewrite bind_run.
  rewrite (request_loop_retry _ realm scope (VStr u) url0 insecure password w0 w0
             (requested realm scope (VStr u) password url0 insecure
                (Responded r2 :: rest) w0)
             password (Format "Token Service returned {}" [VStr (resp_text r1)]));
    [|rewrite Hp; reflexivity
     |by apply (get_new_token_401 _ _ _ _ _ _ w0 r1 (Responded r2 :: rest))].
  cbn [request_loop truthy negb andb].
  rewrite bind_run. unfold click_prompt at 1.
  change (input_script (told_to_retry _ (requested _ _ _ _ _ _ _ w0)))
    with (input_script w).
  rewrite Hin. cbn beta iota.
  rewrite request_attempt_run.
  match goal with
  | |- context [get_new_token realm scope (VStr u) (VStr s) url0 insecure ?w3] =>
      rewrite (get_new_token_granted realm scope (VStr u) (VStr s) url0 insecure
                 w3 r2 rest d t Hu eq_refl E2 Hj Hl Ht);
      destruct (request_tail_run name u use_keyring (VStr s) d cache
                  (requested realm scope (VStr u) (VStr s) url0 insecure rest w3) Hd)
        as (w1 & Hrun & H1 & H2 & _ & H4 & H5)
  end.
  { intros Hn. apply (get_tokens_same_file w); [reflexivity | by apply Hg]. }
  cbn beta iota. rewrite Hrun. exists w1. repeat split; assumption.
Qed.

Lemma get_named_token_retry_granted_witness :
  ∃ w1,
    get_named_token ["uid"] VNone "" (VStr "jdoe") (VStr "wrong") (VStr service_url)
      (VBool false) false true true interactive_world
    = (Return (VDict {[ "access_token" := VStr "t0k3n"; "expires_in" := VNum 3600 ]}), w1) ∧
    http_script w1 = [] ∧ input_script w1 = [] ∧
    keyring_db w1 = {[ "jdoe" := VStr "s3cret" ]}.
Proof.
  assert (not_cut_short "" ["uid"] VNone false interactive_world) as Hn.
  { split; intros H; discriminate H. }
  destruct (get_named_token_retry_granted ["uid"] VNone "" "jdoe" (VStr "wrong")
              (VStr service_url) (VBool false) false true interactive_world
              rejecting (token_response (VStr "t0k3n")) [] "s3cret" []
              {[ "access_token" := VStr "t0k3n"; "expires_in" := VNum 3600 ]} ∅
              (VStr "t0k3n")
              Hn eq_refl eq_refl eq_refl eq_refl eq_refl eq_refl eq_refl eq_refl eq_refl
              ltac:(discriminate))
    as (w1 & Hrun & Hs & Hi & Hk & _).
  exists w1. repeat split; assumption.
Defined.

(** ** What the request of [get_new_token] carries, and how it can fail *)

Lemma filter_no_user_scope (scope : list string) :
  (∀ s, s ∈ scope -> is_user_scope s = false) -> List.filter is_user_scope scope = [].
Proof.
  induction scope as [|s rest IH]; intros H; [reflexivity|].
  simpl. rewrite (H s) by apply list_elem_of_here.
  apply IH. intros s' Hs'. apply H. by apply list_elem_of_further.
Qed.

(** X17: the query parameters of the request of [get_new_token]: [json] is
    always "true"; [realm] is there exactly when a realm that is true is
    given; there is no parameter but these two and [scope]; and a request for
    scopes none of which is "uid" or "cn" still carries [scope], empty. *)
Theorem get_new_token_params_spec (realm : value) (scope : list string) :
  get_new_token_params realm scope !! "json" = Some (VStr "true") ∧
  get_new_token_params realm scope !! "realm" = (if truthy realm then Some realm else None) ∧
  (∀ k, k ≠ "json" -> k ≠ "realm" -> k ≠ "scope" ->
     get_new_token_params realm scope !! k = None) ∧
  (scope ≠ [] -> (∀ s, s ∈ scope -> is_user_scope s = false) ->
   get_new_token_params realm scope !! "scope" = Some (VStr "")).
Proof.
  unfold get_new_token_params. cbv zeta.
  split; [|split; [|split]].
  - destruct scope, (truthy realm); by simplify_map_eq.
  - destruct scope, (truthy realm); by simplify_map_eq.
  - intros k H1 H2 H3. destruct scope, (truthy realm); by simplify_map_eq.
  - intros Hne Hall. destruct scope as [|s rest]; [done|].
    rewrite lookup_insert_eq, (filter_no_user_scope _ Hall). reflexivity.
Qed.

Lemma get_new_token_params_spec_witness :
  get_new_token_params (VStr "employees") ["openid"; "email"] !! "scope" = Some (VStr "").
Proof.
  apply (proj2 (proj2 (proj2 (get_new_token_params_spec (VStr "employees")
                                ["openid"; "email"])))).
  - discriminate.
  - intros s Hs. apply list_elem_of_In in Hs. simpl in Hs.
    destruct Hs as [<-|[<-|[]]]; reflexivity.
Defined.

(** X18: two failures of [get_new_token] that are no [ServerError]. A 200
    whose body is JSON but no object (a list, a string, [null]) makes it
    raise [AttributeError]; and when [requests.get] itself raises, for want
    of a connection, that exception leaves [get_new_token] as it is. *)
Theorem get_new_token_other_failures realm scope user password url insecure
    (w : world) (rest : list http_outcome) :
  is_url (request_url url w) = true ->
  (∀ r json_data,
     http_script w = Responded r :: rest ->
     status_code r = 200 -> resp_json r = Some json_data ->
     (∀ d, json_data ≠ VDict d) ->
     (get_new_token realm scope user password url insecure w).1 = Raise AttributeError) ∧
  (http_script w = Unreachable :: rest ->
   (get_new_token realm scope user password url insecure w).1
   = Raise (ForeignError "requests.exceptions.RequestException")).
Proof.
  intros Hu. split.
  - intros r json_data Hs E Hj Hd.
    rewrite (get_new_token_responded _ _ _ _ _ _ w r rest Hu Hs).
    rewrite check_token_response_200, Hj by exact E.
    destruct json_data; try reflexivity. by destruct (Hd d).
  - intros Hs. rewrite get_new_token_run, bind_run. unfold requests_get.
    rewrite Hu, Hs. reflexivity.
Qed.

Lemma get_new_token_other_failures_witness :
  (get_new_token VNone ["uid"] (VStr "jdoe") (VStr "s3cret") (VStr service_url) (VBool false)
     (answering {| status_code := 200; resp_text := "[]"; resp_json := Some (VList []) |})).1
  = Raise AttributeError.
Proof.
  apply (proj1 (get_new_token_other_failures VNone ["uid"] (VStr "jdoe") (VStr "s3cret")
                  (VStr service_url) (VBool false)
                  (answering {| status_code := 200; resp_text := "[]";
                                resp_json := Some (VList []) |}) [] eq_refl)
           _ (VList []) eq_refl eq_refl eq_refl).
  intros d. discriminate.
Defined.

(** X19: one call of [get_new_token] is one call of [requests.get], however
    it ends: the trace grows by that one request, at most one answer of the
    network is used up, and clock, token file, configuration, keyring and
    input are as before. *)
Theorem get_new_token_single_request realm scope user password url insecure (w : world) :
  trace (get_new_token realm scope user password url insecure w).2
  = EvHttpGet (if truthy url then url else dict_get (config_file w) "url")
      (get_new_token_params realm scope) (Some (user, password))
      (negb (truthy insecure)) None :: trace w ∧
  (http_script (get_new_token realm scope user password url insecure w).2 = http_script w ∨
   http_script (get_new_token realm scope user password url insecure w).2
   = tail (http_script w)) ∧
  clock (get_new_token realm scope user password url insecure w).2 = clock w ∧
  tokens_file (get_new_token realm scope user password url insecure w).2 = tokens_file w ∧
  config_file (get_new_token realm scope user password url insecure w).2 = config_file w ∧
  keyring_db (get_new_token realm scope user password url insecure w).2 = keyring_db w ∧
  input_script (get_new_token realm scope user password url insecure w).2 = input_script w.
Proof.
  split.
  { rewrite get_new_token_trace. unfold request_url. destruct (truthy url); reflexivity. }
  rewrite get_new_token_run, bind_run. unfold requests_get.
  destruct (is_url (request_url url w)); [|by repeat split; try left].
  destruct (http_script w) as [|[r|] rest] eqn:Hs; cbn beta iota.
  - simpl. rewrite Hs. by repeat split; try left.
  - rewrite check_token_response_world. simpl. by repeat split; try right.
  - simpl. by repeat split; try right.
Qed.

(** ** What the entry points never do *)

Section AddsOnly.
Variable allowed : event_kind -> bool.

Lemma adds_only_pure {A} (c : M A) : pure c -> adds_only allowed c.
Proof. intros Hc w. exists []. rewrite Hc. by split. Qed.

Lemma adds_only_ret {A} (a : A) : adds_only allowed (mret a : M A).
Proof. apply adds_only_pure, pure_ret. Qed.

Lemma adds_only_raise {A} (e : exn) : adds_only allowed (raise e : M A).
Proof. apply adds_only_pure, pure_raise. Qed.

Lemma adds_only_blocked {A} : adds_only allowed (blocked : M A).
Proof. apply adds_only_pure. intros w. reflexivity. Qed.

Lemma adds_only_bind {A B} (c : M A) (f : A -> M B) :
  adds_only allowed c -> (∀ a, adds_only allowed (f a)) -> adds_only allowed (c ≫= f).
Proof.
  intros Hc Hf w. rewrite bind_run. destruct (Hc w) as (k1 & Ht1 & Hk1).
  destruct (c w) as [[a|e|] w1]; simpl in Ht1; try by exists k1.
  destruct (Hf a w1) as (k2 & Ht2 & Hk2).
  exists (k2 ++ k1)%list. rewrite Ht2, Ht1, app_assoc. split; [reflexivity|].
  by apply Forall_app.
Qed.

Lemma adds_only_try_except {A} (c : M A) (h : exn -> option (M A)) :
  adds_only allowed c -> (∀ e k, h e = Some k -> adds_only allowed k) ->
  adds_only allowed (try_except c h).
Proof.
  intros Hc Hh w. unfold try_except. destruct (Hc w) as (k1 & Ht1 & Hk1).
  destruct (c w) as [[a|e|] w1]; simpl in Ht1; try by exists k1.
  destruct (h e) as [k|] eqn:Hk; [|by exists k1].
  destruct (Hh e k Hk w1) as (k2 & Ht2 & Hk2).
  exists (k2 ++ k1)%list. rewrite Ht2, Ht1, app_assoc. split; [reflexivity|].
  by apply Forall_app.
Qed.

(** A computation that adds one event, of a kind that is allowed. *)
Lemma adds_only_one {A} (c : M A) (ev : event) :
  (∀ w, trace (c w).2 = ev :: trace w) -> allowed (kind ev) = true ->
  adds_only allowed c.
Proof.
  intros Hc Hev w. exists [ev]. rewrite Hc. split; [reflexivity|].
  by apply Forall_singleton.
Qed.

Lemma adds_only_get_new_token realm scope user password url insecure :
  allowed KHttp = true ->
  adds_only allowed (get_new_token realm scope user password url insecure).
Proof.
  intros Hk w. exists [EvHttpGet (request_url url w) (get_new_token_params realm scope)
                         (Some (user, password)) (negb (truthy insecure)) None].
  rewrite get_new_token_trace. split; [reflexivity|]. by apply Forall_singleton.
Qed.

Lemma adds_only_store_token (name : string) (result : value) :
  allowed KWriteTokens = true -> adds_only allowed (store_token name result).
Proof.
  intros Hk. unfold store_token.
  apply adds_only_bind; [apply adds_only_pure, pure_get_tokens|].
  intros data. destruct data; try apply adds_only_raise.
  destruct result; try apply adds_only_raise.
  apply adds_only_bind; [apply adds_only_pure; intros w; reflexivity|]. intros now.
  apply adds_only_bind; [|intros; apply adds_only_ret].
  by eapply adds_only_one; [intros w; reflexivity|].
Qed.

Lemma adds_only_get_service_token (name : string) (scopes : list string) :
  allowed KManage = true -> adds_only allowed (get_service_token name scopes).
Proof.
  intros Hk w. exists [EvTokensManage name scopes].
  rewrite get_service_token_world. split; [reflexivity|]. by apply Forall_singleton.
Qed.

Lemma adds_only_keyring_get_password (user : value) :
  allowed KKeyringGet = true -> adds_only allowed (keyring_get_password user).
Proof. intros Hk. by eapply adds_only_one; [intros w; reflexivity|]. Qed.

Lemma adds_only_click_prompt (message : text) (hide_input : bool) :
  allowed KPrompt = true -> adds_only allowed (click_prompt message hide_input).
Proof.
  intros Hk. eapply adds_only_one;
    [intros w; unfold click_prompt; destruct (input_script w); reflexivity | exact Hk].
Qed.

Lemma adds_only_request_attempt realm scope user url insecure prompt password
    (retry : M (value * value)) :
  allowed KHttp = true ->
  (prompt = true -> allowed KMessage = true) ->
  adds_only allowed retry ->
  adds_only allowed (request_attempt realm scope user url insecure prompt password retry).
Proof.
  intros Hh Hm Hr. unfold request_attempt. apply adds_only_bind.
  - apply adds_only_try_except.
    + apply adds_only_bind; [by apply adds_only_get_new_token|].
      intros; apply adds_only_ret.
    + intros e k Hk. destruct (is_AuthenticationFailed e); [|discriminate].
      injection Hk as <-. destruct prompt; [|apply adds_only_raise].
      apply adds_only_bind;
        [eapply adds_only_one; [intros w; reflexivity | by apply Hm]|].
      intros _. apply adds_only_bind;
        [eapply adds_only_one; [intros w; reflexivity | by apply Hm]|].
      intros _. apply adds_only_ret.
  - intros [result|]; [apply adds_only_ret | exact Hr].
Qed.

Lemma adds_only_request_loop fuel realm scope user url insecure prompt password :
  allowed KHttp = true ->
  (prompt = true -> allowed KMessage = true) ->
  (prompt = true -> allowed KPrompt = true) ->
  adds_only allowed (request_loop fuel realm scope user url insecure prompt password).
Proof.
  intros Hh Hm Hp. revert password. induction fuel as [|fuel IH]; intros password.
  - apply adds_only_blocked.
  - cbn [request_loop]. apply adds_only_bind.
    + destruct (negb (truthy password) && prompt) eqn:Hc; [|apply adds_only_ret].
      apply adds_only_click_prompt, Hp. by apply andb_true_iff in Hc as [_ ->].
    + intros p. by apply adds_only_request_attempt.
Qed.

Lemma adds_only_prompt_url_loop fuel insecure prompt url config :
  allowed KHttp = true ->
  (prompt = true -> allowed KMessage = true) ->
  (prompt = true -> allowed KPrompt = true) ->
  adds_only allowed (prompt_url_loop fuel insecure prompt url config).
Proof.
  intros Hh Hm Hp. revert url config.
  induction fuel as [|fuel IH]; intros url config; cbn [prompt_url_loop];
    destruct (negb (truthy url) && prompt) eqn:Hc; try apply adds_only_ret.
  - apply adds_only_blocked.
  - apply andb_true_iff in Hc as [_ ->].
    apply adds_only_bind; [by apply adds_only_click_prompt, Hp|]. intros u.
    apply adds_only_bind; [|intros u'; apply IH].
    apply adds_only_try_except.
    + apply adds_only_bind; [|intros; apply adds_only_ret].
      eapply adds_only_one; [intros w; apply requests_get_trace | exact Hh].
    + intros e k [= <-]. apply adds_only_bind; [|intros; apply adds_only_ret].
      eapply adds_only_one; [intros w; reflexivity | by apply Hm].
Qed.
End AddsOnly.

(** X20: what [get_token] never does. Whatever the world and however the
    call ends, all that it adds to the trace is a call of [tokens.manage], a
    question to the keyring, a request, a write of the token file: it never
    prompts, prints no message, never writes the configuration and never
    writes to the keyring. *)
Theorem get_token_adds_only (name : string) (scopes : list string) :
  adds_only get_token_events (get_token name scopes).
Proof.
  unfold get_token.
  apply adds_only_bind; [apply adds_only_pure, pure_get_existing_token|]. intros token.
  destruct (truthy token).
  { apply adds_only_pure. destruct token; try (intros w; reflexivity).
    intros w. simpl. destruct (d !! "access_token"); reflexivity. }
  apply adds_only_bind; [by apply adds_only_get_service_token|]. intros access_token.
  destruct (truthy access_token); [apply adds_only_ret|].
  apply adds_only_bind; [apply adds_only_pure; intros w; reflexivity|]. intros config.
  apply adds_only_bind; [apply adds_only_pure; intros w; reflexivity|]. intros zign_user.
  apply adds_only_bind; [apply adds_only_pure; intros w; reflexivity|]. intros os_user.
  cbv zeta.
  destruct (negb (truthy (py_or (py_or (dict_get config "user") zign_user) os_user)));
    [apply adds_only_raise|].
  destruct (negb (truthy (dict_get config "url"))); [apply adds_only_raise|].
  apply adds_only_bind; [apply adds_only_pure; intros w; reflexivity|]. intros zign_password.
  apply adds_only_bind.
  { destruct (truthy zign_password);
      [apply adds_only_ret | by apply adds_only_keyring_get_password]. }
  intros password.
  apply adds_only_bind; [by apply adds_only_get_new_token|]. intros token'.
  destruct (truthy token'); [|apply adds_only_ret].
  apply adds_only_bind; [by apply adds_only_store_token|]. intros t.
  apply adds_only_pure. destruct t; try (intros w; reflexivity).
  intros w. simpl. destruct (d !! "access_token"); reflexivity.
Qed.

(** X21: what [get_named_token] never does, by its arguments. Whatever the
    world and however the call ends: it prompts and prints messages only
    when [prompt] is set; it asks the keyring only when no password is
    given, and writes to it only when [use_keyring] is set; it writes the
    token file only when a name is given; it calls the [tokens] library only
    when a name is given and no realm. *)
Theorem get_named_token_adds_only scope realm (name : string) user password url insecure
    (refresh use_keyring prompt : bool) :
  adds_only (get_named_token_events name realm password use_keyring prompt)
    (get_named_token scope realm name user password url insecure refresh use_keyring prompt).
Proof.
  assert (∀ url', adds_only (get_named_token_events name realm password use_keyring prompt)
                    (request_named_token scope realm name user password url' insecure
                       use_keyring prompt)) as Hreq.
  { intros url'. unfold request_named_token. apply adds_only_bind.
    { destruct (truthy password) eqn:Hp; [apply adds_only_ret|].
      apply adds_only_keyring_get_password. simpl. by rewrite Hp. }
    intros p. apply adds_only_bind; [apply adds_only_pure; intros w; reflexivity|].
    intros w0. apply adds_only_bind.
    { apply adds_only_request_loop; [reflexivity | intros ->; reflexivity..]. }
    intros [result p']. apply adds_only_bind.
    { destruct use_keyring; rewrite ?andb_false_r, ?andb_true_r;
        [|apply adds_only_ret].
      destruct (truthy result); [|apply adds_only_ret].
      by eapply adds_only_one; [intros w; reflexivity|]. }
    intros _. destruct (name_given name) eqn:Hn; [|apply adds_only_ret].
    apply adds_only_store_token. simpl. exact Hn. }
  assert (adds_only (get_named_token_events name realm password use_keyring prompt)
            (issue_named_token scope realm name user password url insecure
               use_keyring prompt)) as Hissue.
  { unfold issue_named_token.
    apply adds_only_bind; [apply adds_only_pure; intros w; reflexivity|]. intros config.
    cbv zeta. apply adds_only_bind; [apply adds_only_pure; intros w; reflexivity|].
    intros w0. apply adds_only_bind.
    { apply adds_only_prompt_url_loop; [reflexivity | intros ->; reflexivity..]. }
    intros [url' config']. apply adds_only_bind; [|intros _; apply Hreq].
    by eapply adds_only_one; [intros w; reflexivity|]. }
  assert (adds_only (get_named_token_events name realm password use_keyring prompt)
            (service_or_issue_named_token scope realm name user password url insecure
               use_keyring prompt)) as Hservice.
  { unfold service_or_issue_named_token. cbv zeta.
    destruct (name_given name && negb (truthy realm)) eqn:Hc; [|exact Hissue].
    apply adds_only_bind; [by apply adds_only_get_service_token|].
    intros access_token. destruct (truthy access_token); [apply adds_only_ret|exact Hissue]. }
  unfold get_named_token. cbv zeta.
  destruct (name_given name && negb refresh); [|exact Hservice].
  apply adds_only_bind; [apply adds_only_pure, pure_get_existing_token|].
  intros token. destruct (truthy token); [apply adds_only_ret | exact Hservice].
Qed.

(** ** Without a prompt there is one request at most *)

Lemma no_answer_pure {A} (c : M A) : pure c -> no_answer c.
Proof. intros Hc w. by rewrite Hc. Qed.

Lemma no_answer_bind {A B} (c : M A) (f : A -> M B) :
  no_answer c -> (∀ a, no_answer (f a)) -> no_answer (c ≫= f).
Proof.
  intros Hc Hf w. rewrite bind_run. specialize (Hc w).
  destruct (c w) as [[a|e|] w1]; simpl in *; try exact Hc.
  by rewrite Hf.
Qed.

Lemma one_answer_no_answer {A} (c : M A) : no_answer c -> one_answer c.
Proof. intros Hc w. left. apply Hc. Qed.

Lemma one_answer_then {A B} (c : M A) (f : A -> M B) :
  one_answer c -> (∀ a, no_answer (f a)) -> one_answer (c ≫= f).
Proof.
  intros Hc Hf w. rewrite bind_run. specialize (Hc w).
  destruct (c w) as [[a|e|] w1]; simpl in *; try exact Hc.
  by rewrite Hf.
Qed.

Lemma one_answer_after {A B} (c : M A) (f : A -> M B) :
  no_answer c -> (∀ a, one_answer (f a)) -> one_answer (c ≫= f).
Proof.
  intros Hc Hf w. rewrite bind_run. specialize (Hc w).
  destruct (c w) as [[a|e|] w1]; simpl in *; try (left; exact Hc).
  rewrite <- Hc. apply Hf.
Qed.

Lemma one_answer_get_new_token realm scope user password url insecure :
  one_answer (get_new_token realm scope user password url insecure).
Proof.
  intros w. rewrite get_new_token_run, bind_run. unfold requests_get.
  destruct (is_url (request_url url w)); [|by left].
  destruct (http_script w) as [|[r|] rest] eqn:Hs; cbn beta iota.
  - left. simpl. by rewrite Hs.
  - right. by rewrite check_token_response_world.
  - by right.
Qed.

Lemma no_answer_store_token (name : string) (result : value) :
  no_answer (store_token name result).
Proof.
  unfold store_token. apply no_answer_bind; [apply no_answer_pure, pure_get_tokens|].
  intros data. destruct data; try (apply no_answer_pure, pure_raise).
  destruct result; try (apply no_answer_pure, pure_raise).
  intros w. reflexivity.
Qed.

Lemma no_answer_getitem (v : value) (k : string) : no_answer (value_getitem v k).
Proof.
  apply no_answer_pure. destruct v; try (intros w; reflexivity).
  intros w. simpl. destruct (d !! k); reflexivity.
Qed.

Lemma no_answer_get_service_token (name : string) (scopes : list string) :
  no_answer (get_service_token name scopes).
Proof. intros w. by rewrite get_service_token_world. Qed.

Lemma one_answer_request_named_token scope realm name user password url insecure
    use_keyring :
  one_answer (request_named_token scope realm name user password url insecure
                use_keyring false).
Proof.
  unfold request_named_token. apply one_answer_after.
  { destruct (truthy password); [apply no_answer_pure, pure_ret | intros w; reflexivity]. }
  intros p. apply one_answer_after; [apply no_answer_pure; intros w; reflexivity|].
  intros w0. apply one_answer_then.
  - intros w. rewrite request_loop_first_attempt by (by right).
    rewrite request_attempt_run.
    pose proof (one_answer_get_new_token realm scope user p url insecure w) as H.
    destruct (get_new_token realm scope user p url insecure w) as [[result|e|] w1];
      try exact H.
    destruct e; exact H.
  - intros [result p']. apply no_answer_bind.
    { destruct (truthy result && use_keyring); [|apply no_answer_pure, pure_ret].
      intros w. unfold keyring_set_password. destruct user; reflexivity. }
    intros _. destruct (name_given name);
      [apply no_answer_store_token | apply no_answer_pure, pure_ret].
Qed.

(** X22: the calls that do not prompt never loop. [get_token], and
    [get_named_token] with [prompt] not set, take at most one answer from
    the network, whatever the world and however they end: there is no probe
    of a URL and no second request. *)
Theorem one_request_without_prompt :
  (∀ name scopes, one_answer (get_token name scopes)) ∧
  (∀ scope realm name user password url insecure refresh use_keyring,
     one_answer (get_named_token scope realm name user password url insecure
                   refresh use_keyring false)).
Proof.
  split.
  - intros name scopes. unfold get_token.
    apply one_answer_after; [apply no_answer_pure, pure_get_existing_token|].
    intros token. destruct (truthy token); [apply one_answer_no_answer, no_answer_getitem|].
    apply one_answer_after; [apply no_answer_get_service_token|]. intros access_token.
    destruct (truthy access_token); [apply one_answer_no_answer, no_answer_pure, pure_ret|].
    apply one_answer_after; [apply no_answer_pure; intros w; reflexivity|]. intros config.
    apply one_answer_after; [apply no_answer_pure; intros w; reflexivity|]. intros zu.
    apply one_answer_after; [apply no_answer_pure; intros w; reflexivity|]. intros ou.
    cbv zeta.
    destruct (negb (truthy (py_or (py_or (dict_get config "user") zu) ou)));
      [apply one_answer_no_answer, no_answer_pure, pure_raise|].
    destruct (negb (truthy (dict_get config "url")));
      [apply one_answer_no_answer, no_answer_pure, pure_raise|].
    apply one_answer_after; [apply no_answer_pure; intros w; reflexivity|]. intros zp.
    apply one_answer_after.
    { destruct (truthy zp); [apply no_answer_pure, pure_ret | intros w; reflexivity]. }
    intros password. apply one_answer_then; [apply one_answer_get_new_token|].
    intros token'. destruct (truthy token'); [|apply no_answer_pure, pure_ret].
    apply no_answer_bind; [apply no_answer_store_token|].
    intros t. apply no_answer_getitem.
  - intros scope realm name user password url insecure refresh use_keyring.
    assert (one_answer (issue_named_token scope realm name user password url insecure
                          use_keyring false)) as Hissue.
    { unfold issue_named_token.
      apply one_answer_after; [apply no_answer_pure; intros w; reflexivity|]. intros config.
      cbv zeta. apply one_answer_after; [apply no_answer_pure; intros w; reflexivity|].
      intros w0. apply one_answer_after.
      { intros w. by rewrite prompt_url_loop_skip by apply andb_false_r. }
      intros [url' config']. apply one_answer_after; [intros w; reflexivity|].
      intros _. apply one_answer_request_named_token. }
    assert (one_answer (service_or_issue_named_token scope realm name user password url
                          insecure use_keyring false)) as Hservice.
    { unfold service_or_issue_named_token. cbv zeta.
      destruct (name_given name && negb (truthy realm)); [|exact Hissue].
      apply one_answer_after; [apply no_answer_get_service_token|]. intros access_token.
      destruct (truthy access_token);
        [apply one_answer_no_answer, no_answer_pure, pure_ret | exact Hissue]. }
    unfold get_named_token. cbv zeta.
    destruct (name_given name && negb refresh); [|exact Hservice].
    apply one_answer_after; [apply no_answer_pure, pure_get_existing_token|].
    intros token. destruct (truthy token);
      [apply one_answer_no_answer, no_answer_pure, pure_ret | exact Hservice].
Qed.

(** ** A token that was issued is a token *)

Lemma returns_only_ret {A} (P : A -> Prop) (a : A) : P a -> returns_only P (mret a : M A).
Proof. intros Ha w a' w' [= <- _]. exact Ha. Qed.

Lemma returns_only_raise {A} (P : A -> Prop) (e : exn) : returns_only P (raise e : M A).
Proof. intros w a w' H. discriminate H. Qed.

Lemma returns_only_bind {A B} (Q : A -> Prop) (P : B -> Prop) (c : M A) (f : A -> M B) :
  returns_only Q c -> (∀ a, Q a -> returns_only P (f a)) -> returns_only P (c ≫= f).
Proof.
  intros Hc Hf w b w'. rewrite bind_run.
  destruct (c w) as [[a|e|] w1] eqn:Hcw; try discriminate.
  apply (Hf a (Hc w a w1 Hcw)).
Qed.

Lemma returns_only_any {A} (c : M A) : returns_only (λ _, True) c.
Proof. intros w a w' _. exact I. Qed.

Lemma has_access_token_stamped (d : gmap string value) (now : Z) :
  has_access_token (VDict d) -> has_access_token (VDict (stamped d now)).
Proof.
  intros (d' & t & [= <-] & Hl & Ht). exists (stamped d now), t.
  split; [reflexivity|]. split; [|exact Ht].
  unfold stamped. by rewrite lookup_insert_ne.
Qed.

Lemma returns_only_get_new_token realm scope user password url insecure :
  returns_only has_access_token (get_new_token realm scope user password url insecure).
Proof.
  intros w v w' H. apply get_new_token_returns in H as (d & -> & Ht).
  apply truthy_dict_get in Ht as (t & Hl & Ht). by exists d, t.
Qed.

Lemma returns_only_store_token (name : string) (result : value) :
  has_access_token result -> returns_only has_access_token (store_token name result).
Proof.
  intros Hr. unfold store_token.
  apply (returns_only_bind (λ _, True)); [apply returns_only_any|]. intros data _.
  destruct data; try apply returns_only_raise.
  destruct result; try apply returns_only_raise.
  intros w v w' [= <- _]. by apply has_access_token_stamped.
Qed.

Lemma returns_only_request_loop fuel realm scope user url insecure prompt password :
  returns_only (λ a, has_access_token a.1)
    (request_loop fuel realm scope user url insecure prompt password).
Proof.
  revert password. induction fuel as [|fuel IH]; intros password.
  - intros w a w' H. discriminate H.
  - cbn [request_loop].
    apply (returns_only_bind (λ _, True)); [apply returns_only_any|]. intros p _.
    intros w a w'. rewrite request_attempt_run.
    destruct (get_new_token realm scope user p url insecure w) as [[result|e|] w1] eqn:Hn;
      try discriminate.
    + intros [= <- _]. by apply (returns_only_get_new_token _ _ _ _ _ _ _ _ _ Hn).
    + destruct e; try discriminate. destruct prompt; [apply IH | discriminate].
Qed.

Lemma returns_only_issue_named_token scope realm name user password url insecure
    use_keyring prompt :
  returns_only has_access_token
    (issue_named_token scope realm name user password url insecure use_keyring prompt).
Proof.
  unfold issue_named_token.
  apply (returns_only_bind (λ _, True)); [apply returns_only_any|]. intros config _.
  cbv zeta. apply (returns_only_bind (λ _, True)); [apply returns_only_any|].
  intros w0 _. apply (returns_only_bind (λ _, True)); [apply returns_only_any|].
  intros [url' config'] _.
  apply (returns_only_bind (λ _, True)); [apply returns_only_any|]. intros _ _.
  unfold request_named_token.
  apply (returns_only_bind (λ _, True)); [apply returns_only_any|]. intros p _.
  apply (returns_only_bind (λ _, True)); [apply returns_only_any|]. intros w1 _.
  apply (returns_only_bind (λ a, has_access_token a.1));
    [apply returns_only_request_loop|].
  intros [result p'] Hr. simpl in Hr.
  apply (returns_only_bind (λ _, True)); [apply returns_only_any|]. intros _ _.
  destruct (name_given name);
    [by apply returns_only_store_token | by apply returns_only_ret].
Qed.

(** X23: a result that was issued carries a token. Whenever
    [get_named_token] returns and the result is not a cached record (because
    [refresh] is set or no name is given), the result is a dictionary whose
    [access_token] is there and true; and whenever [get_token] returns after
    it found no valid cached token, what it returns is true. A cached record
    is handed out as it is, whatever it holds. *)
Theorem issued_token_is_true :
  (∀ scope realm name user password url insecure refresh use_keyring prompt w v w',
     refresh = true ∨ name_given name = false ->
     get_named_token scope realm name user password url insecure
       refresh use_keyring prompt w = (Return v, w') ->
     has_access_token v) ∧
  (∀ name scopes w token v w',
     (get_existing_token name w).1 = Return token -> truthy token = false ->
     get_token name scopes w = (Return v, w') ->
     truthy v = true).
Proof.
  split.
  - intros scope realm name user password url insecure refresh use_keyring prompt
      w v w' Hfresh.
    assert (returns_only has_access_token
              (service_or_issue_named_token scope realm name user password url insecure
                 use_keyring prompt)) as Hservice.
    { unfold service_or_issue_named_token. cbv zeta.
      destruct (name_given name && negb (truthy realm));
        [|apply returns_only_issue_named_token].
      apply (returns_only_bind (λ _, True)); [apply returns_only_any|].
      intros access_token _. destruct (truthy access_token) eqn:Ha;
        [|apply returns_only_issue_named_token].
      apply returns_only_ret. exists {[ "access_token" := access_token ]}, access_token.
      split; [reflexivity|]. split; [apply lookup_singleton_eq | exact Ha]. }
    unfold get_named_token. cbv zeta.
    replace (name_given name && negb refresh) with false
      by (destruct Hfresh as [-> | ->]; [by rewrite andb_false_r | reflexivity]).
    apply Hservice.
  - intros name scopes w token v w' He Ht.
    apply (pure_run _ _ _ (pure_get_existing_token name)) in He.
    unfold get_token. rewrite (bind_return _ _ _ _ _ He), Ht.
    rewrite bind_run.
    destruct (get_service_token name scopes w) as [[access_token|e|] w1]; try discriminate.
    destruct (truthy access_token) eqn:Ha.
    { by intros [= <- _]. }
    unfold get_config, os_getenv. rewrite !bind_run. cbn beta iota. cbv zeta.
    destruct (negb (truthy _)); [discriminate|].
    destruct (negb (truthy _)); [discriminate|].
    rewrite !bind_run. cbn beta iota.
    destruct ((if truthy (getenv w1 "ZIGN_PASSWORD") then mret (getenv w1 "ZIGN_PASSWORD")
               else keyring_get_password _) w1) as [[password|e|] w2]; try discriminate.
    rewrite bind_run.
    match goal with
    | |- context [get_new_token ?a ?b ?c ?p ?u ?i ?w0] =>
        destruct (get_new_token a b c p u i w0) as [[token'|e|] w3] eqn:Hn
    end; try discriminate.
    destruct (returns_only_get_new_token _ _ _ _ _ _ _ _ _ Hn) as (d & t & -> & Hl & Htt).
    cbn [truthy].
    rewrite bool_decide_eq_false_2
      by (intros ->; rewrite lookup_empty in Hl; discriminate).
    cbn [negb]. rewrite bind_run.
    destruct (store_token name (VDict d) w3) as [[stored|e|] w4] eqn:Hst; try discriminate.
    destruct (returns_only_store_token name (VDict d)
                (ex_intro _ d (ex_intro _ t (conj eq_refl (conj Hl Htt)))) _ _ _ Hst)
      as (d' & t' & -> & Hl' & Ht').
    cbn [value_getitem]. rewrite Hl'. by intros [= <- _].
Qed.

Lemma issued_token_is_true_witness :
  has_access_token
    (VDict {[ "access_token" := VStr "t0k3n"; "expires_in" := VNum 3600 ]}).
Proof.
  apply (proj1 issued_token_is_true ["uid"] VNone "" (VStr "jdoe") (VStr "wrong")
           (VStr service_url) (VBool false) false false true interactive_world _ _
           (or_intror eq_refl) get_named_token_retry_trace).
Defined.
